(** * Hyperparameter search and result recording of the Orbit DLT driver

    A shallow embedding of [codes/bayesian_prediction_orbit_DLT.py]:
    [hypertune_dlt_model], [trigger_prediction] and [bayesian_orbit].

    Python floats are the kernel's binary64 floats, so that [mae < best_mae]
    is IEEE comparison, NaN included.  The third-party libraries (pandas,
    orbit, scikit-learn), the helpers imported from [modules] and [commons]
    and the file listing are fields of a [Library] record: the code is
    verified for every behaviour they may have, exceptions included.
    Statements run in a state-and-exception monad over the output files,
    the created directories and a trace of what was printed and which
    library entry points were called. *)

From Stdlib Require Import ZArith Floats Lia Ascii String.
From stdpp Require Import gmap strings list sorting.

Set Warnings "-inexact-float".
Local Open Scope string_scope.
Local Open Scope list_scope.

(** ** Python floats: rounding to an int, conversion from a length *)

Module PyFloat.

(** [round(x)] of a float, with no [ndigits]: the nearest integer, ties to
    the even one, computed exactly from the mantissa and the exponent. *)
Definition round_half_even (m : positive) (e : Z) : Z :=
  if (0 <=? e)%Z then Z.pos m * 2 ^ e
  else
    let d := (2 ^ (- e))%Z in
    let q := (Z.pos m / d)%Z in
    let r := (Z.pos m mod d)%Z in
    match (2 * r ?= d)%Z with
    | Lt => q
    | Gt => (q + 1)%Z
    | Eq => if Z.even q then q else (q + 1)%Z
    end.

(** [float(n)] for a length [n]: a [Py_ssize_t], below [2^63]. *)
Definition of_len (n : nat) : float :=
  PrimFloat.of_uint63 (Uint63.of_Z (Z.of_nat n)).

End PyFloat.

(** ** Exceptions, outcomes and the state the program runs in *)

Inductive exn :=
| AttributeError (msg : string)
| IndexError (msg : string)
| TypeError (msg : string)
| ValueError (msg : string)
| OverflowError (msg : string)
| FileExistsError (path : string)
| IsADirectoryError (path : string)
| LibraryError (msg : string).

Inductive outcome (A : Type) :=
| Raised (e : exn)
| Returned (a : A).

Arguments Raised {A} e.
Arguments Returned {A} a.

Definition returned {A} (o : outcome A) : bool :=
  match o with Returned _ => true | Raised _ => false end.

(** [round(x)] on a float, as an int. *)
Definition py_round (x : float) : outcome Z :=
  match Prim2SF x with
  | S754_zero _ => Returned 0%Z
  | S754_finite s m e =>
      let r := PyFloat.round_half_even m e in
      Returned (if s then (- r)%Z else r)
  | S754_infinity _ => Raised (OverflowError "cannot convert float infinity to integer")
  | S754_nan => Raised (ValueError "cannot convert float NaN to integer")
  end.

(** ** Data frames *)

(** A cell as [pd.read_csv] leaves it: missing, a number, or text. *)
Inductive cell :=
| NA
| Num (x : float)
| Text (s : string).

Definition isna (c : cell) : bool :=
  match c with
  | NA => true
  | Num x => is_nan x
  | Text _ => false
  end.

(** A row of the CSV file; [raw_others] are the cells of the columns other
    than COMMIT_DATE and SQALE_INDEX, in column order. *)
Record raw_row := RawRow {
  raw_COMMIT_DATE : cell;
  raw_SQALE_INDEX : cell;
  raw_others : list cell
}.

Record raw_frame := RawFrame {
  raw_columns : list string;
  raw_rows : list raw_row
}.

(** A row once COMMIT_DATE went through [pd.to_datetime] ([None] is NaT) and
    SQALE_INDEX through [pd.to_numeric]; [label] is the row's index label,
    its position in the CSV file, which [dropna] and [iloc] keep. *)
Record row := Row {
  label : nat;
  COMMIT_DATE : option Z;
  SQALE_INDEX : float;
  others : list cell
}.

Record frame := Frame {
  columns : list string;
  rows : list row
}.

(** A Python slice bound on a sequence of length [n]. *)
Definition slice_bound (n : nat) (i : Z) : nat :=
  Z.to_nat (if (i <? 0)%Z then Z.max 0 (i + Z.of_nat n) else Z.min i (Z.of_nat n)).

(** [df.iloc[:stop, :]] and [df.iloc[start:, :]]. *)
Definition iloc_to (stop : Z) (df : frame) : frame :=
  Frame (columns df) (take (slice_bound (length (rows df)) stop) (rows df)).

Definition iloc_from (start : Z) (df : frame) : frame :=
  Frame (columns df) (drop (slice_bound (length (rows df)) start) (rows df)).

(** [df['SQALE_INDEX'].values] *)
Definition SQALE_values (df : frame) : list float := map SQALE_INDEX (rows df).

(** [df.dropna()]: the rows with no missing value in any column. *)
Definition row_complete (r : row) : bool :=
  match COMMIT_DATE r with Some _ => true | None => false end
  && negb (is_nan (SQALE_INDEX r))
  && forallb (fun c => negb (isna c)) (others r).

Definition dropna (df : frame) : frame :=
  Frame (columns df) (filter (fun r => row_complete r = true) (rows df)).

(** ** Hyperparameters, printed lines, result rows *)

Record Config := {
  trend : string;
  estimator : string;
  penalty : option float
}.

(** The keyword arguments of [DLT(...)]. *)
Record dlt_params := {
  dlt_seasonality : option Z;
  dlt_response_col : string;
  dlt_date_col : string;
  dlt_estimator : string;
  dlt_global_trend_option : string;
  dlt_seed : Z;
  dlt_regressor_col : list string;
  dlt_n_bootstrap_draws : Z;
  dlt_regressor_sign : option (list float)
}.

(** The dictionary [result_data], one field per key. *)
Record result_data := {
  r_Project : string;
  r_Model : string;
  r_Trend : string;
  r_Estimator : string;
  r_Penalty : option float;
  r_MAE : float;
  r_MAPE : float;
  r_RMSE : float;
  r_MSE : float
}.

Definition result_columns : list string :=
  ["Project"; "Model"; "Trend"; "Estimator"; "Penalty"; "MAE"; "MAPE"; "RMSE"; "MSE"].

(** A line of an output CSV file: the header [to_csv] writes, a data row it
    writes, or text that was in the file before. *)
Inductive csv_line :=
| Header (names : list string)
| Data (r : result_data)
| Line (text : string).

(** The [print] calls of the program, by their format string. *)
Inductive message :=
| Msg_training (trend estimator : string) (penalty : option float)
| Msg_mae (trend estimator : string) (penalty : option float) (mae : float)
| Msg_best (best_config : option Config) (best_mae : float)
| Msg_final_MAE (x : float)
| Msg_final_MAPE (x : float)
| Msg_final_RMSE (x : float)
| Msg_final_MSE (x : float)
| Msg_saved (project_name base_path : string)
| Msg_processing (project periodicity : string).

(** What a run leaves behind besides files: the lines printed, the calls
    into the model-fitting library, and the entries into
    [trigger_prediction]. *)
Inductive event :=
| Print (m : message)
| Call_DLT (p : dlt_params)
| Call_fit (df : frame)
| Call_predict (df : frame)
| Call_trigger_prediction (df_path project_name : string)
    (periodicity : option string) (seasonality : option Z).

Record world := World {
  files : gmap string (list csv_line);
  dirs : gset string;
  trace : list event
}.

(** ** The monad *)

Definition M (A : Type) : Type := world -> outcome A * world.

Definition ret {A} (a : A) : M A := fun w => (Returned a, w).

Definition bind {A B} (m : M A) (f : A -> M B) : M B :=
  fun w =>
    match m w with
    | (Raised e, w') => (Raised e, w')
    | (Returned a, w') => f a w'
    end.

Definition raise {A} (e : exn) : M A := fun w => (Raised e, w).

(** The result of a library call, exception or value. *)
Definition lift {A} (o : outcome A) : M A := fun w => (o, w).

Definition emit (ev : event) : M unit :=
  fun w => (Returned tt, World (files w) (dirs w) (trace w ++ [ev])).

Definition print (m : message) : M unit := emit (Print m).

Notation "x <- c1 ;; c2" := (bind c1 (fun x => c2))
  (at level 20, c1 at level 99, c2 at level 200, only parsing).
Notation "' pat <- c1 ;; c2" := (bind c1 (fun x => match x with pat => c2 end))
  (at level 20, pat pattern, c1 at level 99, c2 at level 200, only parsing).
Notation "c1 ;; c2" := (bind c1 (fun _ => c2))
  (at level 100, c2 at level 200, only parsing, right associativity).

(** A [for] loop over [xs] whose body updates the loop-carried variables. *)
Fixpoint for_each {A S} (xs : list A) (body : A -> S -> M S) (s : S) : M S :=
  match xs with
  | [] => ret s
  | x :: xs' => s' <- body x s ;; for_each xs' body s'
  end.

(** ** Paths and strings *)

Definition starts_with_sep (s : string) : bool :=
  match s with
  | String "/"%char _ => true
  | _ => false
  end.

Fixpoint ends_with_sep (s : string) : bool :=
  match s with
  | EmptyString => false
  | String c EmptyString => Ascii.eqb c "/"%char
  | String _ s' => ends_with_sep s'
  end.

(** One step of [posixpath.join]. *)
Definition join2 (path b : string) : string :=
  if starts_with_sep b then b
  else if String.eqb path "" || ends_with_sep path then (path ++ b)%string
  else (path ++ "/" ++ b)%string.

(** [os.path.join(a, *p)] *)
Definition path_join (a : string) (p : list string) : string := fold_left join2 p a.

(** [s[:-4]] *)
Definition drop_last4 (s : string) : string :=
  String.substring 0 (slice_bound (String.length s) (-4)) s.

(** [l[i]] for [i >= 0]. *)
Definition py_index {A} (l : list A) (i : nat) : M A :=
  match l !! i with
  | Some x => ret x
  | None => raise (IndexError "list index out of range")
  end.

(** [os.makedirs(path, exist_ok=True)] *)
Definition makedirs (path : string) : M unit :=
  fun w =>
    match files w !! path with
    | Some _ => (Raised (FileExistsError path), w)
    | None => (Returned tt, World (files w) (dirs w ∪ {[path]}) (trace w))
    end.

(** [os.path.isfile(path)] *)
Definition isfile (path : string) : M bool :=
  fun w => (Returned (bool_decide (is_Some (files w !! path))), w).

(** [pd.DataFrame([r]).to_csv(path, mode='w', index=False, header=True)] *)
Definition to_csv_write (r : result_data) (path : string) : M unit :=
  fun w =>
    if bool_decide (path ∈ dirs w) then (Raised (IsADirectoryError path), w)
    else (Returned tt,
          World (<[path := [Header result_columns; Data r]]> (files w)) (dirs w) (trace w)).

(** [pd.DataFrame([r]).to_csv(path, mode='a', index=False, header=False)] *)
Definition to_csv_append (r : result_data) (path : string) : M unit :=
  fun w =>
    if bool_decide (path ∈ dirs w) then (Raised (IsADirectoryError path), w)
    else (Returned tt,
          World (<[path := default [] (files w !! path) ++ [Data r]]> (files w))
                (dirs w) (trace w)).

(** ** The libraries the program calls

    Every entry either returns or raises; nothing else is assumed of it.
    - [listdir] is [os.listdir] and [read_csv] is [pd.read_csv], which
      returns a frame that has the COMMIT_DATE and SQALE_INDEX columns;
    - [parse_datetime] and [datetime_of_number] are what [pd.to_datetime]
      does with a text and with a number that is not NaN, [parse_number]
      what [pd.to_numeric] does with a text ([None] where it is no number);
    - [DLT], [fit] and [predict] are the constructor and the methods of
      [orbit.models.DLT], [predict] giving the ['prediction'] column;
    - [mean_absolute_error] is scikit-learn's;
    - [MAE], [MAPE], [MSE] and [RMSE] are the helpers imported from
      [modules], and [DATA_PATH] the constant imported from [commons];
    - [round2 x] is [round(x, 2)]. *)
Record Library := {
  model : Type;
  DATA_PATH : string;
  listdir : string -> outcome (list string);
  read_csv : string -> outcome raw_frame;
  parse_datetime : string -> outcome (option Z);
  datetime_of_number : float -> outcome (option Z);
  parse_number : string -> option float;
  DLT : dlt_params -> outcome model;
  fit : model -> frame -> outcome model;
  predict : model -> frame -> outcome (list float);
  mean_absolute_error : list float -> list float -> outcome float;
  MAE : list float -> list float -> outcome float;
  MAPE : list float -> list float -> outcome float;
  MSE : list float -> list float -> outcome float;
  RMSE : list float -> list float -> outcome float;
  round2 : float -> float
}.

(** The regressor columns of a frame:
    [df.drop(columns=['COMMIT_DATE', 'SQALE_INDEX'])]. *)
Record xframe := XFrame {
  x_columns : list string;
  x_values : list (list cell)
}.

Definition drop_date_and_response (df : frame) : xframe :=
  XFrame (columns df) (map others (rows df)).

Section Program.

Variable L : Library.

(** *** Reading and cleaning (lines 74-79) *)

(** [pd.to_datetime] on one cell, with the default [errors='raise']:
    a missing value becomes NaT, anything else is parsed or raises. *)
Definition to_datetime (c : cell) : outcome (option Z) :=
  match c with
  | NA => Returned None
  | Num x => if is_nan x then Returned None else datetime_of_number L x
  | Text s => parse_datetime L s
  end.

(** [pd.to_numeric(..., errors='coerce')] on one cell: what does not parse
    as a number becomes NaN. *)
Definition to_numeric_coerce (c : cell) : float :=
  match c with
  | NA => nan
  | Num x => x
  | Text s => default nan (parse_number L s)
  end.

Definition convert_row (i : nat) (r : raw_row) : outcome row :=
  match to_datetime (raw_COMMIT_DATE r) with
  | Raised e => Raised e
  | Returned d => Returned (Row i d (to_numeric_coerce (raw_SQALE_INDEX r)) (raw_others r))
  end.

(** The two column assignments over the rows of the file, labelled from
    [i] on; only the date conversion can raise. *)
Fixpoint convert_rows (i : nat) (rs : list raw_row) : outcome (list row) :=
  match rs with
  | [] => Returned []
  | r :: rs' =>
      match convert_row i r with
      | Raised e => Raised e
      | Returned r' =>
          match convert_rows (S i) rs' with
          | Raised e => Raised e
          | Returned rs'' => Returned (r' :: rs'')
          end
      end
  end.

(** Lines 77-79: the two column assignments, then [df.dropna()]. *)
Definition clean (raw : raw_frame) : outcome frame :=
  match convert_rows 0 (raw_rows raw) with
  | Raised e => Raised e
  | Returned rs => Returned (dropna (Frame (raw_columns raw) rs))
  end.

(** [round(len(df) * 0.8)] (line 82) *)
Definition split_point (df : frame) : outcome Z :=
  py_round (PyFloat.of_len (length (rows df)) * 0.8)%float.

(** Lines 82-84: [training_df] and [testing_df]. *)
Definition train_test_split (df : frame) : outcome (frame * frame) :=
  match split_point df with
  | Raised e => Raised e
  | Returned sp => Returned (iloc_to sp df, iloc_from sp df)
  end.

(** *** [hypertune_dlt_model] (lines 16-69) *)

Definition trend_options : list string := ["linear"; "loglinear"; "flat"; "logistic"].
Definition estimators : list string := ["stan-map"; "stan-mcmc"].
Definition penalties : list (option float) :=
  [None; Some 0.01%float; Some 0.1%float; Some 1.0%float].

(** The loop-carried variables. *)
Record search := Search {
  best_mae : float;
  best_model : option (model L);
  best_config : option Config
}.

Definition dlt_params_of (x_train : xframe) (seasonality : option Z)
    (trend estimator : string) (penalty : option float) : dlt_params :=
  {| dlt_seasonality := seasonality;
     dlt_response_col := "SQALE_INDEX";
     dlt_date_col := "COMMIT_DATE";
     dlt_estimator := estimator;
     dlt_global_trend_option := trend;
     dlt_seed := 8888;
     dlt_regressor_col := x_columns x_train;
     dlt_n_bootstrap_draws := 1000;
     dlt_regressor_sign :=
       match penalty with
       | Some p => Some (replicate (length (x_columns x_train)) p)
       | None => None
       end |}.

(** The body of the innermost loop (lines 31-64). *)
Definition hypertune_body (training_df : frame) (x_train : xframe)
    (y_test : list float) (testing_df : frame) (seasonality : option Z)
    (trend estimator : string) (penalty : option float) (s : search) : M search :=
  print (Msg_training trend estimator penalty) ;;
  let p := dlt_params_of x_train seasonality trend estimator penalty in
  emit (Call_DLT p) ;;
  model <- lift (DLT L p) ;;
  emit (Call_fit training_df) ;;
  model <- lift (fit L model training_df) ;;
  emit (Call_predict testing_df) ;;
  predicted <- lift (predict L model testing_df) ;;
  mae <- lift (mean_absolute_error L y_test predicted) ;;
  print (Msg_mae trend estimator penalty mae) ;;
  ret (if (mae <? best_mae s)%float
       then Search mae (Some model)
              (Some {| trend := trend; estimator := estimator; penalty := penalty |})
       else s).

Definition hypertune_dlt_model (training_df : frame) (y_train : list float)
    (x_train : xframe) (y_test : list float) (testing_df : frame)
    (seasonality : option Z) : M (option (model L) * option Config) :=
  s <- for_each trend_options (fun trend =>
         for_each estimators (fun estimator =>
           for_each penalties (fun penalty =>
             hypertune_body training_df x_train y_test testing_df seasonality
               trend estimator penalty)))
       (Search infinity None None) ;;
  print (Msg_best (best_config s) (best_mae s)) ;;
  ret (best_model s, best_config s).

(** *** [trigger_prediction] (lines 73-146)

    The first event of a call records the call itself with its arguments,
    so that a trace tells how often and with what the function was
    entered. *)

Definition output_dir (periodicity : string) : string :=
  path_join (DATA_PATH L) ["ORBIT_ML"; "DLT_Result"; periodicity].

Definition output_csv (periodicity : string) : string :=
  path_join (output_dir periodicity) ["assessment.csv"].

Definition trigger_prediction (df_path project_name : string)
    (periodicity : option string) (seasonality : option Z) : M result_data :=
  emit (Call_trigger_prediction df_path project_name periodicity seasonality) ;;
  df <- lift (read_csv L df_path) ;;
  df <- lift (clean df) ;;
  '(training_df, testing_df) <- lift (train_test_split df) ;;
  let y_train := SQALE_values training_df in
  let x_train := drop_date_and_response training_df in
  let y_test := SQALE_values testing_df in
  '(best_model, best_config) <-
    hypertune_dlt_model training_df y_train x_train y_test testing_df seasonality ;;
  predicted <-
    match best_model with
    | Some m => emit (Call_predict testing_df) ;; lift (predict L m testing_df)
    | None => raise (AttributeError "'NoneType' object has no attribute 'predict'")
    end ;;
  let actual := y_test in
  mae <- lift (MAE L predicted actual) ;;
  let mae := round2 L mae in
  mape_value <- lift (MAPE L predicted actual) ;;
  let mape_value := round2 L mape_value in
  mse <- lift (MSE L predicted actual) ;;
  let mse := round2 L mse in
  rmse <- lift (RMSE L predicted actual) ;;
  let rmse := round2 L rmse in
  print (Msg_final_MAE mae) ;;
  print (Msg_final_MAPE mape_value) ;;
  print (Msg_final_RMSE rmse) ;;
  print (Msg_final_MSE mse) ;;
  config <-
    match best_config with
    | Some c => ret c
    | None => raise (TypeError "'NoneType' object is not subscriptable")
    end ;;
  let result_data :=
    {| r_Project := project_name;
       r_Model := "DLT";
       r_Trend := trend config;
       r_Estimator := estimator config;
       r_Penalty := penalty config;
       r_MAE := mae;
       r_MAPE := mape_value;
       r_RMSE := rmse;
       r_MSE := mse |} in
  base_path <-
    match periodicity with
    | Some p => ret (output_dir p)
    | None => raise (TypeError "expected str, bytes or os.PathLike object, not NoneType")
    end ;;
  makedirs base_path ;;
  let csv_output_path := path_join base_path ["assessment.csv"] in
  exists_ <- isfile csv_output_path ;;
  (if negb exists_
   then to_csv_write result_data csv_output_path
   else to_csv_append result_data csv_output_path) ;;
  print (Msg_saved project_name base_path) ;;
  ret result_data.

(** *** [bayesian_orbit] (lines 150-189) *)

(** The body of the loop over [range(len(biweekly_files))]. *)
Definition bayesian_orbit_body (biweekly_data_path monthly_data_path
    complete_data_path : string) (biweekly_files monthly_files complete_files : list string)
    (i : nat) (_ : unit) : M unit :=
  name <- py_index biweekly_files i ;;
  if String.eqb name ".DS_Store" then ret tt
  else
    name <- py_index biweekly_files i ;;
    let project := drop_last4 name in
    print (Msg_processing project "biweekly") ;;
    name <- py_index biweekly_files i ;;
    trigger_prediction (path_join biweekly_data_path [name]) project
      (Some "biweekly") (Some 26%Z) ;;
    print (Msg_processing project "monthly") ;;
    name <- py_index monthly_files i ;;
    trigger_prediction (path_join monthly_data_path [name]) project
      (Some "monthly") (Some 12%Z) ;;
    print (Msg_processing project "complete") ;;
    name <- py_index complete_files i ;;
    trigger_prediction (path_join complete_data_path [name]) project
      (Some "complete") None ;;
    ret tt.

Definition biweekly_data_path : string := path_join (DATA_PATH L) ["biweekly_data_1"].
Definition monthly_data_path : string := path_join (DATA_PATH L) ["monthly_data_1"].
Definition complete_data_path : string := path_join (DATA_PATH L) ["complete_data_1"].

Definition bayesian_orbit : M unit :=
  biweekly_files <- lift (listdir L biweekly_data_path) ;;
  monthly_files <- lift (listdir L monthly_data_path) ;;
  complete_files <- lift (listdir L complete_data_path) ;;
  for_each (seq 0 (length biweekly_files))
    (bayesian_orbit_body biweekly_data_path monthly_data_path complete_data_path
       biweekly_files monthly_files complete_files) tt.

End Program.

(** ** What a run of the search computes *)

Definition add_events (w : world) (evs : list event) : world :=
  World (files w) (dirs w) (trace w ++ evs).

(** The hyperparameter grid in iteration order: trend, then estimator, then
    penalty. *)
Definition grid : list Config :=
  flat_map (fun t =>
    flat_map (fun e =>
      map (fun p => {| trend := t; estimator := e; penalty := p |}) penalties)
      estimators)
    trend_options.

Section Search.

Variable L : Library.
Variables (training_df : frame) (x_train : xframe) (y_test : list float).
Variables (testing_df : frame) (seasonality : option Z).

(** The library calls of one iteration: construct, fit, predict, score. *)
Definition evaluate (c : Config) : outcome (model L * float) :=
  match DLT L (dlt_params_of x_train seasonality (trend c) (estimator c) (penalty c)) with
  | Raised e => Raised e
  | Returned m0 =>
      match fit L m0 training_df with
      | Raised e => Raised e
      | Returned m =>
          match predict L m testing_df with
          | Raised e => Raised e
          | Returned predicted =>
              match mean_absolute_error L y_test predicted with
              | Raised e => Raised e
              | Returned mae => Returned (m, mae)
              end
          end
      end
  end.

(** What one iteration prints and calls, up to the call that raises. *)
Definition config_events (c : Config) : list event :=
  let p := dlt_params_of x_train seasonality (trend c) (estimator c) (penalty c) in
  [Print (Msg_training (trend c) (estimator c) (penalty c)); Call_DLT p] ++
  match DLT L p with
  | Raised _ => []
  | Returned m0 =>
      [Call_fit training_df] ++
      match fit L m0 training_df with
      | Raised _ => []
      | Returned m =>
          [Call_predict testing_df] ++
          match predict L m testing_df with
          | Raised _ => []
          | Returned predicted =>
              match mean_absolute_error L y_test predicted with
              | Raised _ => []
              | Returned mae => [Print (Msg_mae (trend c) (estimator c) (penalty c) mae)]
              end
          end
      end
  end.

(** Lines 57-64. *)
Definition update (s : search L) (c : Config) (r : model L * float) : search L :=
  if (snd r <? best_mae L s)%float then Search L (snd r) (Some (fst r)) (Some c) else s.

Fixpoint run_search (cs : list Config) (s : search L) : outcome (search L) :=
  match cs with
  | [] => Returned s
  | c :: cs' =>
      match evaluate c with
      | Raised e => Raised e
      | Returned r => run_search cs' (update s c r)
      end
  end.

Fixpoint search_events (cs : list Config) : list event :=
  match cs with
  | [] => []
  | c :: cs' => config_events c ++ (if returned (evaluate c) then search_events cs' else [])
  end.

Definition initial_search : search L := Search L infinity None None.

(** The state of the search after the combinations [seen]: nothing seen
    scores below the best, and the best is the first to reach its score. *)
Definition search_inv (seen : list Config) (s : search L) : Prop :=
  (forall j c r, seen !! j = Some c -> evaluate c = Returned r ->
     (snd r <? best_mae L s)%float = false) /\
  match best_config L s with
  | None => best_model L s = None /\ best_mae L s = infinity
  | Some c =>
      exists i m,
        seen !! i = Some c /\ evaluate c = Returned (m, best_mae L s) /\
        best_model L s = Some m /\ (best_mae L s <? infinity)%float = true /\
        forall j c' r, seen !! j = Some c' -> evaluate c' = Returned r -> j < i ->
          is_nan (snd r) = true \/ (best_mae L s <? snd r)%float = true
  end.

End Search.

(** ** [trigger_prediction] in two phases *)

Section Phases.

Variable L : Library.

(** Lines 74-84: from the path to the two frames. *)
Definition prepare (df_path : string) : outcome (frame * frame) :=
  match read_csv L df_path with
  | Raised e => Raised e
  | Returned raw =>
      match clean L raw with
      | Raised e => Raised e
      | Returned df => train_test_split df
      end
  end.

(** Lines 102-146: from the result of the search to the row written. *)
Definition report (project_name : string) (periodicity : option string)
    (testing_df : frame) (best : option (model L) * option Config) : M result_data :=
  let '(best_model, best_config) := best in
  let y_test := SQALE_values testing_df in
  predicted <-
    match best_model with
    | Some m => emit (Call_predict testing_df) ;; lift (predict L m testing_df)
    | None => raise (AttributeError "'NoneType' object has no attribute 'predict'")
    end ;;
  let actual := y_test in
  mae <- lift (MAE L predicted actual) ;;
  let mae := round2 L mae in
  mape_value <- lift (MAPE L predicted actual) ;;
  let mape_value := round2 L mape_value in
  mse <- lift (MSE L predicted actual) ;;
  let mse := round2 L mse in
  rmse <- lift (RMSE L predicted actual) ;;
  let rmse := round2 L rmse in
  print (Msg_final_MAE mae) ;;
  print (Msg_final_MAPE mape_value) ;;
  print (Msg_final_RMSE rmse) ;;
  print (Msg_final_MSE mse) ;;
  config <-
    match best_config with
    | Some c => ret c
    | None => raise (TypeError "'NoneType' object is not subscriptable")
    end ;;
  let result_data :=
    {| r_Project := project_name;
       r_Model := "DLT";
       r_Trend := trend config;
       r_Estimator := estimator config;
       r_Penalty := penalty config;
       r_MAE := mae;
       r_MAPE := mape_value;
       r_RMSE := rmse;
       r_MSE := mse |} in
  base_path <-
    match periodicity with
    | Some p => ret (output_dir L p)
    | None => raise (TypeError "expected str, bytes or os.PathLike object, not NoneType")
    end ;;
  makedirs base_path ;;
  let csv_output_path := path_join base_path ["assessment.csv"] in
  exists_ <- isfile csv_output_path ;;
  (if negb exists_
   then to_csv_write result_data csv_output_path
   else to_csv_append result_data csv_output_path) ;;
  print (Msg_saved project_name base_path) ;;
  ret result_data.

(** What a successful call leaves in the output file. *)
Definition written (before : option (list csv_line)) (r : result_data) : list csv_line :=
  match before with
  | None => [Header result_columns; Data r]
  | Some old => old ++ [Data r]
  end.

End Phases.

(** ** Calls in sequence *)

(** [trigger_prediction] called once per entry of [calls], in order, as a
    driver does; each entry is a path, a project name, a periodicity and a
    seasonality. *)
Fixpoint trigger_predictions (L : Library)
    (calls : list (string * string * option string * option Z)) : M (list result_data) :=
  match calls with
  | [] => ret []
  | (df_path, project_name, periodicity, seasonality) :: calls' =>
      r <- trigger_prediction L df_path project_name periodicity seasonality ;;
      rs <- trigger_predictions L calls' ;;
      ret (r :: rs)
  end.

(** ** Reading a trace *)

(** The combinations announced by "Training with ...". *)
Definition announced (evs : list event) : list Config :=
  flat_map (fun ev =>
    match ev with
    | Print (Msg_training t e p) => [{| trend := t; estimator := e; penalty := p |}]
    | _ => []
    end) evs.

(** The models constructed, fitted and asked to predict. *)
Definition constructed (evs : list event) : list dlt_params :=
  flat_map (fun ev => match ev with Call_DLT p => [p] | _ => [] end) evs.

Definition fitted (evs : list event) : list frame :=
  flat_map (fun ev => match ev with Call_fit df => [df] | _ => [] end) evs.

Definition predicted_on (evs : list event) : list frame :=
  flat_map (fun ev => match ev with Call_predict df => [df] | _ => [] end) evs.

(** The scores reported by "MAE for ...". *)
Definition scored (evs : list event) : list (Config * float) :=
  flat_map (fun ev =>
    match ev with
    | Print (Msg_mae t e p mae) => [({| trend := t; estimator := e; penalty := p |}, mae)]
    | _ => []
    end) evs.

(** The entries into [trigger_prediction]: path, project, periodicity and
    seasonality of each call. *)
Definition invocations (evs : list event)
    : list (string * string * option string * option Z) :=
  flat_map (fun ev =>
    match ev with
    | Call_trigger_prediction df_path project periodicity seasonality =>
        [(df_path, project, periodicity, seasonality)]
    | _ => []
    end) evs.



(** ** Auxiliary definitions for the statements *)

(** [round(n * 0.8)] for every length [n] up to [bound] is the integer
    nearest to [4n/5], which is never half-way between two integers. *)
Definition split_point_exact_up_to (bound : Z) : bool :=
  forallb (fun n =>
    match py_round (PrimFloat.of_uint63 (Uint63.of_Z n) * 0.8)%float with
    | Returned sp => (sp =? (8 * n + 5) / 10)%Z
    | Raised _ => false
    end) (seqZ 0 (bound + 1)).

(** The mantissa of the float [0.8], which is [0.8 + 0.4 * 2^-53]; its
    exponent is [-53]. *)
Definition mantissa_08 : positive := 7205759403792794.

(** What [os.path.join] puts before a relative last component. *)
Definition joined_prefix (base : string) : string :=
  if String.eqb base "" || ends_with_sep base then base else (base ++ "/")%string.

(** What [os.path.join] puts before the periodicity in an output path. *)
Definition result_root (L : Library) : string :=
  joined_prefix (path_join (DATA_PATH L) ["ORBIT_ML"; "DLT_Result"]).

(** The calls [bayesian_orbit] makes for index [i] of the biweekly
    listing. *)
Definition schedule (L : Library) (biweekly_files monthly_files complete_files : list string)
    (i : nat) : list (string * string * option string * option Z) :=
  match biweekly_files !! i with
  | Some name =>
      if String.eqb name ".DS_Store" then []
      else
        match monthly_files !! i, complete_files !! i with
        | Some monthly_name, Some complete_name =>
            [ (path_join (biweekly_data_path L) [name], drop_last4 name,
               Some "biweekly", Some 26%Z);
              (path_join (monthly_data_path L) [monthly_name], drop_last4 name,
               Some "monthly", Some 12%Z);
              (path_join (complete_data_path L) [complete_name], drop_last4 name,
               Some "complete", None) ]
        | _, _ => []
        end
  | None => []
  end.

(** The "Best configuration" lines of a trace. *)
Definition best_announced (evs : list event) : list (option Config * float) :=
  flat_map (fun ev =>
    match ev with
    | Print (Msg_best c mae) => [(c, mae)]
    | _ => []
    end) evs.

(** ** What a run may do to the world *)

(** [w'] extends [w]: every file of [w] is still there and has gained
    lines at its end at most, every directory is still there, and the
    trace has grown at its end at most. *)
Definition extends (w w' : world) : Prop :=
  (forall path old, files w !! path = Some old ->
     exists new, files w' !! path = Some (old ++ new)) /\
  dirs w ⊆ dirs w' /\
  exists evs, trace w' = trace w ++ evs.

(** A computation that only adds: whatever it returns or raises, the world
    it leaves extends the world it found. *)
Definition only_adds {A} (m : M A) : Prop := forall w, extends w (snd (m w)).

(** The project names of a biweekly listing, in listing order (lines
    159-162). *)
Definition projects (biweekly_files : list string) : list string :=
  flat_map (fun name => if String.eqb name ".DS_Store" then [] else [drop_last4 name])
    biweekly_files.

(** What [n] rows written one call after the other leave in a file. *)
Definition recorded (before : option (list csv_line)) (rds : list result_data)
    : option (list csv_line) :=
  match before, rds with
  | None, [] => None
  | None, _ => Some (Header result_columns :: map Data rds)
  | Some old, _ => Some (old ++ map Data rds)
  end.

(** ** [main] (main.py, lines 19-29)

    The flags are the constants [main.py] imports from [commons], by their
    truth value; [data_prepare] and [bayesian_dglm] are the stages defined
    in other modules, of which nothing is assumed: each is a computation on
    the world that returns or raises. *)
Record Stages := {
  PREPROCESSING : bool;
  DGLM : bool;
  ORBIT : bool;
  data_prepare : M unit;
  bayesian_dglm : bool -> M unit
}.

Definition main (L : Library) (S : Stages) : M unit :=
  (if PREPROCESSING S then data_prepare S else ret tt) ;;
  (if DGLM S then bayesian_dglm S true else ret tt) ;;
  (if ORBIT S then bayesian_orbit L else ret tt).

(** The stages a run of [main] goes through, in the order of the source:
    those whose flag is on. *)
Definition enabled_stages (L : Library) (S : Stages) : list (M unit) :=
  (if PREPROCESSING S then [data_prepare S] else []) ++
  (if DGLM S then [bayesian_dglm S true] else []) ++
  (if ORBIT S then [bayesian_orbit L] else []).

(** One stage after the other, until one raises. *)
Definition run_stages (stages : list (M unit)) : M unit :=
  for_each stages (fun stage _ => stage) tt.

(** ** A concrete library to run the program on *)

Module Demo.

(** The mean absolute error, in binary64 arithmetic. *)
Definition mean_abs (ys ps : list float) : float :=
  (fold_left (fun acc yp => acc + abs (fst yp - snd yp)) (combine ys ps) 0
   / PyFloat.of_len (length ys))%float.

(** A model is its parameters; it predicts the response plus a bias that
    depends on the trend, the estimator and the regressor signs.  The
    trends [loglinear] and [flat] predict alike. *)
Definition bias (p : dlt_params) : float :=
  ((if String.eqb (dlt_global_trend_option p) "linear" then 3
    else if String.eqb (dlt_global_trend_option p) "logistic" then 2 else 1)
   + (if String.eqb (dlt_estimator p) "stan-map" then 0.5 else 0.25)
   + match dlt_regressor_sign p with Some (x :: _) => x | _ => 0.125 end)%float.

(** Eleven rows, four of them incomplete: a SQALE_INDEX that is no number,
    a missing date, a missing regressor, a missing SQALE_INDEX. *)
Definition csv_rows : list raw_row :=
  [ RawRow (Text "2020-01-01") (Num 10) [Num 1];
    RawRow (Text "2020-01-15") (Text "12.5") [Num 2];
    RawRow (Text "2020-02-01") (Text "n/a") [Num 3];
    RawRow NA (Num 11) [Num 4];
    RawRow (Text "2020-03-01") (Num 13) [NA];
    RawRow (Text "2020-03-15") (Num 14) [Num 6];
    RawRow (Text "2020-04-01") (Num 15) [Num 7];
    RawRow (Text "2020-04-15") NA [Num 8];
    RawRow (Text "2020-05-01") (Num 17) [Num 9];
    RawRow (Text "2020-05-15") (Num 18) [Num 10];
    RawRow (Text "2020-06-01") (Num 19) [Num 11] ]%float.

Definition csv : raw_frame := RawFrame ["NCLOC"] csv_rows.

(** The usual forecast: the response plus the bias of the model. *)
Definition biased (m : dlt_params) (df : frame) : list float :=
  map (fun r => (SQALE_INDEX r + bias m)%float) (rows df).

(** A forecast gone astray: the response with its sign flipped. *)
Definition mirrored (m : dlt_params) (df : frame) : list float :=
  map (fun r => (- SQALE_INDEX r)%float) (rows df).

(** The library, given what [read_csv], [DLT(...)], [predict],
    [mean_absolute_error] and [os.listdir] do. *)
Definition library (read : string -> outcome raw_frame)
    (construct : dlt_params -> outcome dlt_params)
    (forecast : dlt_params -> frame -> list float)
    (mae : list float -> list float -> outcome float)
    (ls : string -> outcome (list string)) : Library :=
  {| model := dlt_params;
     DATA_PATH := "/data";
     listdir := ls;
     read_csv := read;
     parse_datetime := fun s => Returned (Some (Z.of_nat (String.length s)));
     datetime_of_number := fun x => Returned (Some 0%Z);
     parse_number := fun s => if String.eqb s "12.5" then Some 12.5%float else None;
     DLT := construct;
     fit := fun m df => Returned m;
     predict := fun m df => Returned (forecast m df);
     mean_absolute_error := mae;
     MAE := fun ps ys => Returned (mean_abs ys ps);
     MAPE := fun ps ys => Returned (mean_abs ys ps * 100)%float;
     MSE := fun ps ys => Returned (mean_abs ys ps * mean_abs ys ps)%float;
     RMSE := fun ps ys => Returned (mean_abs ys ps);
     round2 := fun x => x |}.

Definition same_listing (d : string) : outcome (list string) :=
  Returned ["a.csv"; ".DS_Store"; "b.csv"].

(** Every call returns. *)
Definition lib : Library :=
  library (fun _ => Returned csv) Returned biased
    (fun ys ps => Returned (mean_abs ys ps)) same_listing.

(** The forecasts are mirrored: on responses near the largest float the
    absolute error overflows, and every score is [+inf]. *)
Definition lib_inf : Library :=
  library (fun _ => Returned csv) Returned mirrored
    (fun ys ps => Returned (mean_abs ys ps)) same_listing.

(** Every score is NaN. *)
Definition lib_nan : Library :=
  library (fun _ => Returned csv) Returned biased (fun _ _ => Returned nan) same_listing.

(** The score is NaN where the prediction is off by more than 3. *)
Definition lib_some_nan : Library :=
  library (fun _ => Returned csv) Returned biased
    (fun ys ps => Returned (if (3 <? mean_abs ys ps)%float then nan else mean_abs ys ps))
    same_listing.

(** [DLT(...)] raises for the [flat] trend. *)
Definition lib_flat_raises : Library :=
  library (fun _ => Returned csv)
    (fun p => if String.eqb (dlt_global_trend_option p) "flat"
              then Raised (LibraryError "flat trend") else Returned p)
    biased (fun ys ps => Returned (mean_abs ys ps)) same_listing.

(** [read_csv] raises. *)
Definition lib_unreadable : Library :=
  library (fun _ => Raised (LibraryError "No such file or directory")) Returned
    biased (fun ys ps => Returned (mean_abs ys ps)) same_listing.

(** The biweekly directory has a trailing [.DS_Store] the others lack. *)
Definition lib_ds_store : Library :=
  library (fun _ => Returned csv) Returned biased (fun ys ps => Returned (mean_abs ys ps))
    (fun d => if String.eqb d "/data/biweekly_data_1"
              then Returned ["a.csv"; ".DS_Store"] else Returned ["a.csv"]).

(** The monthly directory lists fewer files than the biweekly one. *)
Definition lib_short_monthly : Library :=
  library (fun _ => Returned csv) Returned biased (fun ys ps => Returned (mean_abs ys ps))
    (fun d => if String.eqb d "/data/monthly_data_1"
              then Returned ["a.csv"] else Returned ["a.csv"; "b.csv"]).

(** Frames whose responses are near the largest float. *)
Definition huge_training : frame :=
  Frame ["NCLOC"]
    [ Row 0 (Some 10%Z) 1e308 [Num 1]; Row 1 (Some 10%Z) 1.2e308 [Num 2] ]%float.

Definition huge_testing : frame :=
  Frame ["NCLOC"] [ Row 2 (Some 10%Z) 1.1e308 [Num 3] ]%float.

Definition empty_world : world := World ∅ ∅ [].

(** Three calls for the monthly periodicity. *)
Definition monthly_calls : list (string * string * option string * option Z) :=
  [ ("a.csv", "a", Some "monthly", Some 12%Z);
    ("b.csv", "b", Some "monthly", Some 12%Z);
    ("c.csv", "c", Some "monthly", Some 12%Z) ].

(** The frames [trigger_prediction] derives from [csv]. *)
Definition training : frame :=
  Frame ["NCLOC"]
    [ Row 0 (Some 10%Z) 10 [Num 1]; Row 1 (Some 10%Z) 12.5 [Num 2];
      Row 5 (Some 10%Z) 14 [Num 6]; Row 6 (Some 10%Z) 15 [Num 7];
      Row 8 (Some 10%Z) 17 [Num 9]; Row 9 (Some 10%Z) 18 [Num 10] ]%float.

Definition testing : frame :=
  Frame ["NCLOC"] [ Row 10 (Some 10%Z) 19 [Num 11] ]%float.

(** The cleaned frame: [training] followed by [testing]. *)
Definition cleaned : frame := Frame ["NCLOC"] (rows training ++ rows testing).

(** The biweekly directory holds a [.DS_Store] only. *)
Definition lib_no_biweekly : Library :=
  library (fun _ => Returned csv) Returned biased
    (fun ys ps => Returned (mean_abs ys ps))
    (fun d => if String.eqb d "/data/biweekly_data_1"
              then Returned [".DS_Store"] else Returned ["a.csv"; "b.csv"]).

End Demo.

(** ** The order of Python floats *)

Module FloatOrder.

Ltac sf_cases :=
  repeat match goal with
  | |- context [Pos.compare_cont Eq ?a ?b] =>
      change (Pos.compare_cont Eq a b) with (Pos.compare a b)
  | H : context [Pos.compare_cont Eq ?a ?b] |- _ =>
      change (Pos.compare_cont Eq a b) with (Pos.compare a b) in H
  end;
  repeat match goal with
  | |- context [Z.compare ?a ?b] => destruct (Z.compare_spec a b); simpl in *
  | H : context [Z.compare ?a ?b] |- _ => destruct (Z.compare_spec a b); simpl in *
  | |- context [Pos.compare ?a ?b] => destruct (Pos.compare_spec a b); simpl in *
  | H : context [Pos.compare ?a ?b] |- _ => destruct (Pos.compare_spec a b); simpl in *
  end.

Ltac sf_crush := simpl; intros; try congruence; sf_cases; subst; try congruence; try lia.

(** [mae < best_mae] is the IEEE 754 comparison of binary64 floats.  On
    the specification floats it is a strict weak order once NaN is set
    aside, and false as soon as one side is NaN. *)

Lemma SFeqb_refl_nan x : SFeqb x x = false -> x = S754_nan.
Proof.
  unfold SFeqb, SFcompare. destruct x as [[]|[]| |[] m e]; sf_crush.
Qed.

Lemma SFltb_not_nan a b : SFltb a b = true -> a <> S754_nan /\ b <> S754_nan.
Proof.
  unfold SFltb, SFcompare.
  destruct a as [[]|[]| |[] ma ea], b as [[]|[]| |[] mb eb]; simpl; intros; split; congruence.
Qed.

Lemma SFltb_asym a b : SFltb a b = true -> SFltb b a = false.
Proof.
  unfold SFltb, SFcompare.
  destruct a as [[]|[]| |[] ma ea], b as [[]|[]| |[] mb eb]; sf_crush.
Qed.

Lemma SFltb_negtrans a x b :
  SFltb a b = true -> SFltb x b = false -> x <> S754_nan -> SFltb a x = true.
Proof.
  unfold SFltb, SFcompare.
  destruct a as [[]|[]| |[] ma ea], x as [[]|[]| |[] mx ex], b as [[]|[]| |[] mb eb];
    sf_crush.
Qed.

Lemma SFleb_iff a b :
  SFleb a b = true <-> a <> S754_nan /\ b <> S754_nan /\ SFltb b a = false.
Proof.
  unfold SFleb, SFltb, SFcompare.
  destruct a as [[]|[]| |[] ma ea], b as [[]|[]| |[] mb eb];
    simpl; (split; [intros H; repeat split; try congruence | intros (H1 & H2 & H3)]);
    sf_cases; subst; try congruence; try lia.
Qed.

Lemma SFeqb_iff a b :
  SFeqb a b = true <->
  a <> S754_nan /\ b <> S754_nan /\ SFltb a b = false /\ SFltb b a = false.
Proof.
  unfold SFeqb, SFltb, SFcompare.
  destruct a as [[]|[]| |[] ma ea], b as [[]|[]| |[] mb eb];
    simpl; (split; [intros H; repeat split; try congruence | intros (H1 & H2 & H3 & H4)]);
    sf_cases; subst; try congruence; try lia.
Qed.

(** The same facts on the primitive floats the program computes with. *)

Lemma is_nan_spec x : is_nan x = true <-> Prim2SF x = S754_nan.
Proof.
  unfold is_nan. rewrite FloatAxioms.eqb_spec, negb_true_iff. split.
  - apply SFeqb_refl_nan.
  - intros ->. reflexivity.
Qed.

Lemma not_nan_spec x : is_nan x = false <-> Prim2SF x <> S754_nan.
Proof.
  rewrite <- is_nan_spec. destruct (is_nan x); split; congruence.
Qed.

Lemma lt_not_nan a b : (a <? b)%float = true -> is_nan a = false /\ is_nan b = false.
Proof.
  rewrite FloatAxioms.ltb_spec, !not_nan_spec. apply SFltb_not_nan.
Qed.

Lemma lt_nan_l a b : is_nan a = true -> (a <? b)%float = false.
Proof.
  intros Ha. destruct (a <? b)%float eqn:E; [|done].
  apply lt_not_nan in E as [E _]. congruence.
Qed.

Lemma lt_nan_r a b : is_nan b = true -> (a <? b)%float = false.
Proof.
  intros Hb. destruct (a <? b)%float eqn:E; [|done].
  apply lt_not_nan in E as [_ E]. congruence.
Qed.

Lemma lt_asym a b : (a <? b)%float = true -> (b <? a)%float = false.
Proof. rewrite !FloatAxioms.ltb_spec. apply SFltb_asym. Qed.

Lemma lt_irrefl a : (a <? a)%float = false.
Proof.
  destruct (a <? a)%float eqn:E; [|done].
  pose proof (lt_asym _ _ E). congruence.
Qed.

Lemma lt_negtrans a x b :
  (a <? b)%float = true -> (x <? b)%float = false -> is_nan x = false ->
  (a <? x)%float = true.
Proof. rewrite !FloatAxioms.ltb_spec, not_nan_spec. apply SFltb_negtrans. Qed.

Lemma lt_trans a b c :
  (a <? b)%float = true -> (b <? c)%float = true -> (a <? c)%float = true.
Proof.
  intros Hab Hbc. destruct (a <? c)%float eqn:E; [done|].
  assert ((b <? a)%float = true) as Hba.
  { eapply lt_negtrans; [exact Hbc | exact E |]. by apply lt_not_nan in Hab as []. }
  apply lt_asym in Hab. congruence.
Qed.

Lemma le_iff a b :
  (a <=? b)%float = true <->
  is_nan a = false /\ is_nan b = false /\ (b <? a)%float = false.
Proof. rewrite FloatAxioms.leb_spec, FloatAxioms.ltb_spec, !not_nan_spec. apply SFleb_iff. Qed.

Lemma eq_iff a b :
  (a =? b)%float = true <->
  is_nan a = false /\ is_nan b = false /\
  (a <? b)%float = false /\ (b <? a)%float = false.
Proof. rewrite FloatAxioms.eqb_spec, !FloatAxioms.ltb_spec, !not_nan_spec. apply SFeqb_iff. Qed.

End FloatOrder.

(** ** Lemmas on the monad and on loops *)

Lemma add_events_nil w : add_events w [] = w.
Proof. destruct w. unfold add_events. simpl. by rewrite app_nil_r. Qed.

Lemma add_events_app w a b : add_events (add_events w a) b = add_events w (a ++ b).
Proof. unfold add_events. simpl. by rewrite app_assoc. Qed.

Lemma bind_assoc {A B C} (m : M A) (f : A -> M B) (g : B -> M C) w :
  bind (bind m f) g w = bind m (fun a => bind (f a) g) w.
Proof. unfold bind. by destruct (m w) as [[e|a] w']. Qed.

Lemma bind_cong {A B} (m : M A) (f g : A -> M B) w :
  (forall a w', f a w' = g a w') -> bind m f w = bind m g w.
Proof. intros Hfg. unfold bind. destruct (m w) as [[e|a] w']; [reflexivity|]. apply Hfg. Qed.

Lemma for_each_ext {A S} (xs : list A) (b1 b2 : A -> S -> M S) s w :
  (forall x s w, b1 x s w = b2 x s w) ->
  for_each xs b1 s w = for_each xs b2 s w.
Proof.
  intros Hb. revert s w. induction xs as [|x xs IH]; intros s w; simpl; [done|].
  unfold bind. rewrite Hb. destruct (b2 x s w) as [[e|s'] w']; [done|]. apply IH.
Qed.

Lemma for_each_app {A S} (xs ys : list A) (body : A -> S -> M S) s w :
  for_each (xs ++ ys) body s w = bind (for_each xs body s) (for_each ys body) w.
Proof.
  revert s w. induction xs as [|x xs IH]; intros s w; simpl; [reflexivity|].
  rewrite bind_assoc. apply bind_cong. intros s' w'. apply IH.
Qed.

Lemma for_each_flat_map {A B S} (g : A -> list B) xs (body : B -> S -> M S) s w :
  for_each xs (fun x => for_each (g x) body) s w = for_each (flat_map g xs) body s w.
Proof.
  revert s w. induction xs as [|x xs IH]; intros s w; simpl; [done|].
  rewrite for_each_app. unfold bind.
  destruct (for_each (g x) body s w) as [[e|s'] w']; [done|]. apply IH.
Qed.

Lemma for_each_map {A B S} (f : A -> B) xs (body : B -> S -> M S) s w :
  for_each (map f xs) body s w = for_each xs (fun x => body (f x)) s w.
Proof.
  revert s w. induction xs as [|x xs IH]; intros s w; simpl; [done|].
  unfold bind. destruct (body (f x) s w) as [[e|s'] w']; [done|]. apply IH.
Qed.

(** ** The search loop, step by step *)

Section SearchFacts.

Variable L : Library.
Variables (training_df : frame) (x_train : xframe) (y_test : list float).
Variables (testing_df : frame) (seasonality : option Z).

Local Abbreviation evaluate_ := (evaluate L training_df x_train y_test testing_df seasonality).
Local Abbreviation config_events_ := (config_events L training_df x_train y_test testing_df seasonality).
Local Abbreviation run_search_ := (run_search L training_df x_train y_test testing_df seasonality).
Local Abbreviation search_events_ := (search_events L training_df x_train y_test testing_df seasonality).
Local Abbreviation search_inv_ := (search_inv L training_df x_train y_test testing_df seasonality).
Local Abbreviation body := (fun c : Config =>
  hypertune_body L training_df x_train y_test testing_df seasonality
    (trend c) (estimator c) (penalty c)).

Lemma hypertune_body_spec c s w :
  body c s w =
  (match evaluate_ c with
   | Raised e => Raised e
   | Returned r => Returned (update L s c r)
   end, add_events w (config_events_ c)).
Proof.
  destruct c as [t e p].
  unfold hypertune_body, evaluate, config_events, update,
    print, emit, lift, bind, ret, add_events; simpl.
  destruct (DLT L _) as [e1|m0]; simpl; [by rewrite <- !app_assoc|].
  destruct (fit L m0 training_df) as [e2|m]; simpl; [by rewrite <- !app_assoc|].
  destruct (predict L m testing_df) as [e3|predicted]; simpl; [by rewrite <- !app_assoc|].
  destruct (mean_absolute_error L y_test predicted) as [e4|mae]; simpl;
    by rewrite <- !app_assoc.
Qed.

Lemma search_loop_spec cs s w :
  for_each cs body s w = (run_search_ cs s, add_events w (search_events_ cs)).
Proof.
  revert s w. induction cs as [|c cs IH]; intros s w; simpl.
  - unfold ret. by rewrite add_events_nil.
  - unfold bind. rewrite hypertune_body_spec.
    destruct (evaluate_ c) as [e|r]; simpl.
    + by rewrite app_nil_r.
    + by rewrite IH, add_events_app.
Qed.

Lemma hypertune_loop_flat s w :
  for_each trend_options (fun trend =>
    for_each estimators (fun estimator =>
      for_each penalties (fun penalty =>
        hypertune_body L training_df x_train y_test testing_df seasonality
          trend estimator penalty))) s w =
  for_each grid body s w.
Proof.
  unfold grid. rewrite <- for_each_flat_map. apply for_each_ext. intros t s1 w1.
  rewrite <- for_each_flat_map. apply for_each_ext. intros e s2 w2.
  by rewrite for_each_map.
Qed.

(** The whole function, as one equation. *)
Lemma hypertune_spec y_train w :
  hypertune_dlt_model L training_df y_train x_train y_test testing_df seasonality w =
  match run_search_ grid (initial_search L) with
  | Raised e => (Raised e, add_events w (search_events_ grid))
  | Returned s =>
      (Returned (best_model L s, best_config L s),
       add_events w (search_events_ grid ++ [Print (Msg_best (best_config L s) (best_mae L s))]))
  end.
Proof.
  unfold hypertune_dlt_model, bind at 1.
  rewrite hypertune_loop_flat, search_loop_spec.
  fold (initial_search L).
  destruct (run_search_ grid (initial_search L)) as [e|s]; [reflexivity|].
  unfold bind, print, emit, ret, add_events. cbn [files dirs trace].
  by rewrite <- app_assoc.
Qed.

Lemma run_search_returned cs s s' :
  run_search_ cs s = Returned s' ->
  Forall (fun c => returned (evaluate_ c) = true) cs.
Proof.
  revert s. induction cs as [|c cs IH]; intros s H; simpl in *; [constructor|].
  destruct (evaluate_ c) as [e|r] eqn:E; [done|].
  constructor; [by rewrite E | by eapply IH].
Qed.

Lemma run_search_total cs s :
  Forall (fun c => returned (evaluate_ c) = true) cs ->
  exists s', run_search_ cs s = Returned s'.
Proof.
  intros H. revert s. induction H as [|c cs Hc _ IH]; intros s; simpl; [by eexists|].
  destruct (evaluate_ c) as [e|r]; [done|]. apply IH.
Qed.

Lemma search_events_returned cs :
  Forall (fun c => returned (evaluate_ c) = true) cs ->
  search_events_ cs = flat_map config_events_ cs.
Proof.
  induction 1 as [|c cs Hc _ IH]; simpl; [done|]. by rewrite Hc, IH.
Qed.

Lemma search_inv_initial : search_inv_ [] (initial_search L).
Proof. split; [intros j c r H; by rewrite lookup_nil in H | by simpl]. Qed.

Lemma search_inv_update seen s c r :
  search_inv_ seen s -> evaluate_ c = Returned r ->
  search_inv_ (seen ++ [c]) (update L s c r).
Proof.
  intros [Hlow Hbest] Hc. unfold update.
  destruct (snd r <? best_mae L s)%float eqn:Hlt.
  - (* a new best: strictly below everything seen *)
    pose proof (FloatOrder.lt_not_nan _ _ Hlt) as [Hr_nan _].
    assert (forall j c' r', seen !! j = Some c' -> evaluate_ c' = Returned r' ->
              (snd r' <? snd r)%float = false /\
              (is_nan (snd r') = true \/ (snd r <? snd r')%float = true)) as Hseen.
    { intros j c' r' Hj Hc'. specialize (Hlow j c' r' Hj Hc'). split.
      - destruct (snd r' <? snd r)%float eqn:E; [|done].
        pose proof (FloatOrder.lt_trans _ _ _ E Hlt). congruence.
      - destruct (is_nan (snd r')) eqn:En; [by left|right].
        by eapply FloatOrder.lt_negtrans. }
    split; simpl.
    + intros j c' r' Hj Hc'. apply lookup_app_Some in Hj as [Hj|[_ Hj]].
      * by apply (Hseen j c' r').
      * apply list_lookup_singleton_Some in Hj as [_ <-].
        rewrite Hc in Hc'. injection Hc' as <-. apply FloatOrder.lt_irrefl.
    + exists (length seen), (fst r). repeat split.
      * rewrite lookup_app_r by lia. by rewrite Nat.sub_diag.
      * by destruct r.
      * destruct (best_config L s) as [c0|].
        -- destruct Hbest as (i & m & _ & _ & _ & Hinf & _).
           by eapply FloatOrder.lt_trans.
        -- destruct Hbest as [_ Hb]. by rewrite Hb in Hlt.
      * intros j c' r' Hj Hc' Hji.
        rewrite lookup_app_l in Hj by lia. by apply (Hseen j c' r').
  - (* the best stands *)
    split.
    + intros j c' r' Hj Hc'. apply lookup_app_Some in Hj as [Hj|[_ Hj]].
      * by apply (Hlow j c' r').
      * apply list_lookup_singleton_Some in Hj as [_ <-].
        rewrite Hc in Hc'. by injection Hc' as <-.
    + destruct (best_config L s) as [c0|]; [|done].
      destruct Hbest as (i & m & Hi & Hev & Hm & Hinf & Hfirst).
      exists i, m. repeat split; try done.
      * by apply lookup_app_l_Some.
      * intros j c' r' Hj Hc' Hji.
        apply lookup_lt_Some in Hi.
        rewrite lookup_app_l in Hj by lia. by apply (Hfirst j c' r').
Qed.

Lemma search_inv_run cs seen s s' :
  search_inv_ seen s -> run_search_ cs s = Returned s' ->
  search_inv_ (seen ++ cs) s'.
Proof.
  revert seen s. induction cs as [|c cs IH]; intros seen s Hinv Hrun; simpl in *.
  - injection Hrun as <-. by rewrite app_nil_r.
  - destruct (evaluate_ c) as [e|r] eqn:Hc; [done|].
    replace (seen ++ c :: cs) with ((seen ++ [c]) ++ cs) by by rewrite <- app_assoc.
    eapply IH; [|exact Hrun]. by apply search_inv_update.
Qed.

Lemma search_inv_grid s :
  run_search_ grid (initial_search L) = Returned s -> search_inv_ grid s.
Proof. intros H. by apply (search_inv_run grid [] _ _ search_inv_initial). Qed.

End SearchFacts.




Section TraceFacts.

Variable L : Library.
Variables (training_df : frame) (x_train : xframe) (y_test : list float).
Variables (testing_df : frame) (seasonality : option Z).

Local Abbreviation evaluate_ := (evaluate L training_df x_train y_test testing_df seasonality).
Local Abbreviation config_events_ := (config_events L training_df x_train y_test testing_df seasonality).

Lemma config_events_returned c m mae :
  evaluate_ c = Returned (m, mae) ->
  config_events_ c =
  [ Print (Msg_training (trend c) (estimator c) (penalty c));
    Call_DLT (dlt_params_of x_train seasonality (trend c) (estimator c) (penalty c));
    Call_fit training_df;
    Call_predict testing_df;
    Print (Msg_mae (trend c) (estimator c) (penalty c) mae) ].
Proof.
  unfold evaluate, config_events.
  destruct (DLT L _) as [e1|m0]; [done|].
  destruct (fit L m0 training_df) as [e2|m1]; [done|].
  destruct (predict L m1 testing_df) as [e3|predicted]; [done|].
  destruct (mean_absolute_error L y_test predicted) as [e4|mae']; [done|].
  by intros [= _ ->].
Qed.

Lemma search_trace_read cs :
  Forall (fun c => returned (evaluate_ c) = true) cs ->
  let evs := flat_map config_events_ cs in
  announced evs = cs /\
  constructed evs =
    map (fun c => dlt_params_of x_train seasonality (trend c) (estimator c) (penalty c)) cs /\
  fitted evs = replicate (length cs) training_df /\
  predicted_on evs = replicate (length cs) testing_df /\
  map fst (scored evs) = cs.
Proof.
  induction 1 as [|c cs Hc _ IH]; [done|]. cbn zeta in *.
  destruct IH as (IH1 & IH2 & IH3 & IH4 & IH5).
  destruct (evaluate_ c) as [e|[m mae]] eqn:E; [done|].
  unfold announced, constructed, fitted, predicted_on, scored in *.
  cbn [flat_map]. rewrite !flat_map_app, map_app, (config_events_returned c m mae E).
  rewrite IH1, IH2, IH3, IH4, IH5. by destruct c.
Qed.

End TraceFacts.

(** ** The result of [hypertune_dlt_model] *)

Section SearchTheorems.

Variable L : Library.
Variables (training_df : frame) (y_train : list float) (x_train : xframe).
Variables (y_test : list float) (testing_df : frame) (seasonality : option Z).

Local Abbreviation evaluate_ := (evaluate L training_df x_train y_test testing_df seasonality).
Local Abbreviation run :=
  (hypertune_dlt_model L training_df y_train x_train y_test testing_df seasonality).

Lemma hypertune_returned_inv w bm bc :
  fst (run w) = Returned (bm, bc) ->
  exists s,
    run_search L training_df x_train y_test testing_df seasonality grid (initial_search L)
      = Returned s /\
    bm = best_model L s /\ bc = best_config L s /\
    search_inv L training_df x_train y_test testing_df seasonality grid s /\
    Forall (fun c => returned (evaluate_ c) = true) grid.
Proof.
  rewrite hypertune_spec.
  destruct (run_search _ _ _ _ _ _ grid _) as [e|s] eqn:Hrun; [done|].
  simpl. intros [= <- <-]. exists s.
  split; [done|]. split; [done|]. split; [done|].
  split; [by apply search_inv_grid | by eapply run_search_returned].
Qed.

Lemma returned_evaluate c :
  returned (evaluate_ c) = true -> exists m mae, evaluate_ c = Returned (m, mae).
Proof. destruct (evaluate_ c) as [e|[m mae]]; [done|by eauto]. Qed.

(** C1, as the code has it: when a configuration is returned, it is a
    combination of the grid whose MAE is below [+inf], at most the MAE of
    every combination whose MAE is not NaN, and strictly below the MAE of
    every such combination that comes earlier in iteration order, so among
    equal minimal MAEs the first one wins; and the model returned is the one
    fitted for it.  When no MAE is below [+inf], nothing is returned. *)
Theorem hypertune_returns_first_minimum w bm bc :
  fst (run w) = Returned (bm, bc) ->
  match bc with
  | Some c =>
      exists i m mae,
        grid !! i = Some c /\ evaluate_ c = Returned (m, mae) /\ bm = Some m /\
        (mae <? infinity)%float = true /\
        forall j c', grid !! j = Some c' ->
          exists m' mae',
            evaluate_ c' = Returned (m', mae') /\
            (is_nan mae' = true \/ (mae <=? mae')%float = true) /\
            (j < i -> is_nan mae' = true \/ (mae <? mae')%float = true)
  | None =>
      bm = None /\
      forall c', c' ∈ grid ->
        exists m' mae', evaluate_ c' = Returned (m', mae') /\ (mae' <? infinity)%float = false
  end.
Proof.
  intros H. apply hypertune_returned_inv in H as (s & _ & -> & -> & [Hlow Hbest] & Hall).
  rewrite Forall_forall in Hall.
  destruct (best_config L s) as [c|].
  - destruct Hbest as (i & m & Hi & Hc & Hm & Hinf & Hfirst).
    exists i, m, (best_mae L s). repeat split; try done.
    intros j c' Hj.
    destruct (returned_evaluate c') as (m' & mae' & Hc').
    { apply Hall. by eapply list_elem_of_lookup_2. }
    exists m', mae'. split; [done|]. split.
    + destruct (is_nan mae') eqn:Hnan; [by left|right].
      apply FloatOrder.le_iff. repeat split; try done.
      * by apply FloatOrder.lt_not_nan in Hinf as [].
      * apply (Hlow j c' (m', mae') Hj Hc').
    + intros Hji. apply (Hfirst j c' (m', mae') Hj Hc' Hji).
  - destruct Hbest as [Hm Hb]. split; [done|].
    intros c' Hin.
    destruct (returned_evaluate c') as (m' & mae' & Hc'); [by apply Hall|].
    exists m', mae'. split; [done|].
    apply list_elem_of_lookup_1 in Hin as [j Hj].
    rewrite <- Hb. apply (Hlow j c' (m', mae') Hj Hc').
Qed.


End SearchTheorems.



(** C1 at the demo data: the search returns [loglinear] with [stan-mcmc]
    and penalty 0.01, ahead of the [flat] trend that scores the same. *)
Lemma hypertune_returns_first_minimum_witness :
  let c := {| trend := "loglinear"; estimator := "stan-mcmc"; penalty := Some 0.01%float |} in
  let x_train := drop_date_and_response Demo.training in
  let y_test := SQALE_values Demo.testing in
  exists i m mae,
    grid !! i = Some c /\
    evaluate Demo.lib Demo.training x_train y_test Demo.testing (Some 26%Z) c
      = Returned (m, mae) /\
    (mae <? infinity)%float = true.
Proof.
  cbv zeta.
  eassert (fst (hypertune_dlt_model Demo.lib Demo.training (SQALE_values Demo.training)
                  (drop_date_and_response Demo.training) (SQALE_values Demo.testing)
                  Demo.testing (Some 26%Z) Demo.empty_world) = Returned (_, Some _)) as Hrun.
  { vm_compute. reflexivity. }
  destruct (hypertune_returns_first_minimum _ _ _ _ _ _ _ _ _ _ Hrun)
    as (i & m & mae & Hi & Hc & _ & Hinf & _).
  exists i, m, mae. split; [exact Hi|]. split; [exact Hc | exact Hinf].
Defined.

(** C1 as stated fails in two ways.  When every MAE is [+inf] (here the
    absolute errors overflow) the search returns [(None, None)], no
    combination of the grid.  When some MAEs are NaN, a combination is
    returned whose MAE is not [<=] the NaN ones. *)
Lemma hypertune_without_comparable_score :
  fst (hypertune_dlt_model Demo.lib_inf Demo.huge_training
         (SQALE_values Demo.huge_training) (drop_date_and_response Demo.huge_training)
         (SQALE_values Demo.huge_testing) Demo.huge_testing (Some 26%Z) Demo.empty_world)
    = Returned (None, None) /\
  mean_absolute_error Demo.lib_inf (SQALE_values Demo.huge_testing)
    (Demo.mirrored (dlt_params_of (drop_date_and_response Demo.huge_training) (Some 26%Z)
                      "linear" "stan-map" None) Demo.huge_testing)
    = Returned infinity /\
  exists m mae c0 m0 mae0,
    fst (hypertune_dlt_model Demo.lib_some_nan Demo.training (SQALE_values Demo.training)
           (drop_date_and_response Demo.training) (SQALE_values Demo.testing)
           Demo.testing (Some 26%Z) Demo.empty_world)
      = Returned (Some m,
          Some {| trend := "loglinear"; estimator := "stan-mcmc";
                  penalty := Some 0.01%float |}) /\
    evaluate Demo.lib_some_nan Demo.training (drop_date_and_response Demo.training)
      (SQALE_values Demo.testing) Demo.testing (Some 26%Z)
      {| trend := "loglinear"; estimator := "stan-mcmc"; penalty := Some 0.01%float |}
      = Returned (m, mae) /\
    grid !! 0 = Some c0 /\
    evaluate Demo.lib_some_nan Demo.training (drop_date_and_response Demo.training)
      (SQALE_values Demo.testing) Demo.testing (Some 26%Z) c0
      = Returned (m0, mae0) /\
    (mae <=? mae0)%float = false.
Proof.
  split; [by vm_compute|]. split; [by vm_compute|].
  do 5 eexists. split; [by vm_compute|]. split; [by vm_compute|].
  split; [by vm_compute|]. split; by vm_compute.
Qed.




(** ** Facts on [report] and [trigger_prediction] *)

Section TriggerFacts.

Variable L : Library.

Local Arguments output_dir : simpl never.
Local Arguments path_join : simpl never.

Lemma trigger_prediction_phases df_path project_name periodicity seasonality w :
  trigger_prediction L df_path project_name periodicity seasonality w =
  (emit (Call_trigger_prediction df_path project_name periodicity seasonality) ;;
   frames <- lift (prepare L df_path) ;;
   best <- hypertune_dlt_model L (fst frames) (SQALE_values (fst frames))
             (drop_date_and_response (fst frames)) (SQALE_values (snd frames))
             (snd frames) seasonality ;;
   report L project_name periodicity (snd frames) best) w.
Proof.
  unfold trigger_prediction, prepare, train_test_split, bind, lift, emit.
  destruct (read_csv L df_path) as [e|raw]; [done|].
  destruct (clean L raw) as [e|df]; [done|].
  destruct (split_point df) as [e|sp]; [done|].
  cbn [fst snd].
  destruct (hypertune_dlt_model _ _ _ _ _ _ _ _) as [[e|[bm bc]] w']; done.
Qed.

Lemma report_returned project_name periodicity testing_df bm bc w rd :
  fst (report L project_name periodicity testing_df (bm, bc) w) = Returned rd ->
  exists m c p predicted v_mae v_mape v_mse v_rmse,
    bm = Some m /\ bc = Some c /\ periodicity = Some p /\
    predict L m testing_df = Returned predicted /\
    MAE L predicted (SQALE_values testing_df) = Returned v_mae /\
    MAPE L predicted (SQALE_values testing_df) = Returned v_mape /\
    MSE L predicted (SQALE_values testing_df) = Returned v_mse /\
    RMSE L predicted (SQALE_values testing_df) = Returned v_rmse /\
    rd = {| r_Project := project_name; r_Model := "DLT";
            r_Trend := trend c; r_Estimator := estimator c; r_Penalty := penalty c;
            r_MAE := round2 L v_mae; r_MAPE := round2 L v_mape;
            r_RMSE := round2 L v_rmse; r_MSE := round2 L v_mse |} /\
    snd (report L project_name periodicity testing_df (bm, bc) w) =
    World (<[output_csv L p := written (files w !! output_csv L p) rd]> (files w))
          (dirs w ∪ {[output_dir L p]})
          (trace w ++ [Call_predict testing_df;
                       Print (Msg_final_MAE (round2 L v_mae));
                       Print (Msg_final_MAPE (round2 L v_mape));
                       Print (Msg_final_RMSE (round2 L v_rmse));
                       Print (Msg_final_MSE (round2 L v_mse));
                       Print (Msg_saved project_name (output_dir L p))]).
Proof.
  unfold report, bind, lift, print, emit, raise, ret, makedirs, isfile,
    to_csv_write, to_csv_append.
  destruct bm as [m|]; [|done]. simpl.
  destruct (predict L m testing_df) as [e|predicted] eqn:Hp; [done|].
  destruct (MAE L predicted _) as [e|v_mae] eqn:HMAE; [done|].
  destruct (MAPE L predicted _) as [e|v_mape] eqn:HMAPE; [done|].
  destruct (MSE L predicted _) as [e|v_mse] eqn:HMSE; [done|].
  destruct (RMSE L predicted _) as [e|v_rmse] eqn:HRMSE; [done|].
  simpl.
  destruct bc as [c|]; [|done].
  destruct periodicity as [p|]; [|done]. simpl.
  destruct (files w !! output_dir L p) as [x|] eqn:Hdir; [done|].
  simpl.
  fold (output_csv L p).
  destruct (files w !! output_csv L p) as [old|] eqn:Hf.
  - rewrite bool_decide_true by eauto. simpl.
    destruct (bool_decide (output_csv L p ∈ dirs w ∪ {[output_dir L p]})); [done|].
    simpl. intros [= <-]. exists m, c, p, predicted, v_mae, v_mape, v_mse, v_rmse.
    repeat (split; [done|]). rewrite Hf. simpl. by rewrite <- !app_assoc.
  - rewrite bool_decide_false by (intros [? [=]]). simpl.
    destruct (bool_decide (output_csv L p ∈ dirs w ∪ {[output_dir L p]})); [done|].
    simpl. intros [= <-]. exists m, c, p, predicted, v_mae, v_mape, v_mse, v_rmse.
    repeat (split; [done|]). rewrite Hf. simpl. by rewrite <- !app_assoc.
Qed.

Lemma report_frame project_name periodicity testing_df best w :
  exists evs,
    trace (snd (report L project_name periodicity testing_df best w)) = trace w ++ evs /\
    invocations evs = [] /\
    fitted evs = [] /\
    Forall (fun df => df = testing_df) (predicted_on evs) /\
    forall e, fst (report L project_name periodicity testing_df best w) = Raised e ->
      files (snd (report L project_name periodicity testing_df best w)) = files w.
Proof.
  destruct best as [bm bc].
  unfold report, bind, lift, print, emit, raise, ret, makedirs, isfile,
    to_csv_write, to_csv_append.
  destruct bm as [m|]; simpl.
  2: { exists []. by rewrite app_nil_r. }
  destruct (predict L m testing_df) as [e|predicted]; simpl.
  { eexists. split; [done|]. repeat split; by repeat constructor. }
  destruct (MAE L predicted _) as [e|v_mae]; simpl.
  { eexists. split; [done|]. repeat split; by repeat constructor. }
  destruct (MAPE L predicted _) as [e|v_mape]; simpl.
  { eexists. split; [done|]. repeat split; by repeat constructor. }
  destruct (MSE L predicted _) as [e|v_mse]; simpl.
  { eexists. split; [done|]. repeat split; by repeat constructor. }
  destruct (RMSE L predicted _) as [e|v_rmse]; simpl.
  { eexists. split; [done|]. repeat split; by repeat constructor. }
  destruct bc as [c|]; simpl.
  2: { eexists. rewrite <- !app_assoc. split; [done|]. repeat split; by repeat constructor. }
  destruct periodicity as [p|]; simpl.
  2: { eexists. rewrite <- !app_assoc. split; [done|]. repeat split; by repeat constructor. }
  destruct (files w !! output_dir L p) as [x|] eqn:Hdir; simpl.
  { eexists. rewrite <- !app_assoc. split; [done|]. repeat split; by repeat constructor. }
  fold (output_csv L p).
  destruct (negb (bool_decide (is_Some (files w !! output_csv L p)))); simpl;
    (destruct (bool_decide (output_csv L p ∈ dirs w ∪ {[output_dir L p]})); simpl;
     eexists; rewrite <- !app_assoc; (split; [done|]); repeat split; by repeat constructor).
Qed.


Lemma search_events_read training_df x_train y_test testing_df seasonality cs :
  let evs := search_events L training_df x_train y_test testing_df seasonality cs in
  invocations evs = [] /\
  Forall (fun df => df = training_df) (fitted evs) /\
  Forall (fun df => df = testing_df) (predicted_on evs).
Proof.
  cbv zeta. unfold invocations, fitted, predicted_on.
  induction cs as [|c cs (IH1 & IH2 & IH3)]; [by repeat constructor|].
  cbn [search_events]. rewrite !flat_map_app, !Forall_app.
  assert (invocations (config_events L training_df x_train y_test testing_df seasonality c) = []
          /\ Forall (fun df => df = training_df)
               (fitted (config_events L training_df x_train y_test testing_df seasonality c))
          /\ Forall (fun df => df = testing_df)
               (predicted_on (config_events L training_df x_train y_test testing_df seasonality c)))
    as (Hc1 & Hc2 & Hc3).
  { unfold config_events, invocations, fitted, predicted_on.
    destruct (DLT L _) as [e1|m0]; [by repeat constructor|].
    destruct (fit L m0 training_df) as [e2|m1]; [by repeat constructor|].
    destruct (predict L m1 testing_df) as [e3|predicted]; [by repeat constructor|].
    destruct (mean_absolute_error L y_test predicted) as [e4|mae]; by repeat constructor. }
  unfold invocations, fitted, predicted_on in Hc1, Hc2, Hc3. rewrite Hc1.
  destruct (returned _); [by rewrite IH1|by repeat constructor].
Qed.

Lemma trigger_prediction_spec df_path project_name periodicity seasonality w :
  trigger_prediction L df_path project_name periodicity seasonality w =
  let w1 :=
    add_events w [Call_trigger_prediction df_path project_name periodicity seasonality] in
  match prepare L df_path with
  | Raised e => (Raised e, w1)
  | Returned (training_df, testing_df) =>
      let x_train := drop_date_and_response training_df in
      let y_test := SQALE_values testing_df in
      match run_search L training_df x_train y_test testing_df seasonality grid
              (initial_search L) with
      | Raised e =>
          (Raised e,
           add_events w1
             (search_events L training_df x_train y_test testing_df seasonality grid))
      | Returned s =>
          report L project_name periodicity testing_df (best_model L s, best_config L s)
            (add_events w1
               (search_events L training_df x_train y_test testing_df seasonality grid
                ++ [Print (Msg_best (best_config L s) (best_mae L s))]))
      end
  end.
Proof.
  rewrite trigger_prediction_phases. cbv zeta.
  unfold bind at 1. unfold emit at 1. fold (add_events w
    [Call_trigger_prediction df_path project_name periodicity seasonality]).
  unfold bind at 1. unfold lift at 1.
  destruct (prepare L df_path) as [e|[training_df testing_df]]; [done|].
  unfold bind at 1. cbn [fst snd]. rewrite hypertune_spec.
  by destruct (run_search _ _ _ _ _ _ grid _) as [e|s].
Qed.

Lemma trigger_prediction_returned df_path project_name periodicity seasonality w rd :
  fst (trigger_prediction L df_path project_name periodicity seasonality w) = Returned rd ->
  exists training_df testing_df s m c p predicted v_mae v_mape v_mse v_rmse,
    prepare L df_path = Returned (training_df, testing_df) /\
    run_search L training_df (drop_date_and_response training_df)
      (SQALE_values testing_df) testing_df seasonality grid (initial_search L)
      = Returned s /\
    best_model L s = Some m /\ best_config L s = Some c /\ periodicity = Some p /\
    predict L m testing_df = Returned predicted /\
    MAE L predicted (SQALE_values testing_df) = Returned v_mae /\
    MAPE L predicted (SQALE_values testing_df) = Returned v_mape /\
    MSE L predicted (SQALE_values testing_df) = Returned v_mse /\
    RMSE L predicted (SQALE_values testing_df) = Returned v_rmse /\
    rd = {| r_Project := project_name; r_Model := "DLT";
            r_Trend := trend c; r_Estimator := estimator c; r_Penalty := penalty c;
            r_MAE := round2 L v_mae; r_MAPE := round2 L v_mape;
            r_RMSE := round2 L v_rmse; r_MSE := round2 L v_mse |} /\
    files (snd (trigger_prediction L df_path project_name periodicity seasonality w)) =
      <[output_csv L p := written (files w !! output_csv L p) rd]> (files w) /\
    dirs (snd (trigger_prediction L df_path project_name periodicity seasonality w)) =
      dirs w ∪ {[output_dir L p]}.
Proof.
  rewrite trigger_prediction_spec. cbv zeta.
  destruct (prepare L df_path) as [e|[training_df testing_df]]; [done|].
  destruct (run_search _ _ _ _ _ _ grid _) as [e|s] eqn:Hs; [done|].
  intros H. apply report_returned in H
    as (m & c & p & predicted & v1 & v2 & v3 & v4 & Hm & Hc & Hp & H1 & H2 & H3 & H4 & H5
        & Hrd & Hw).
  exists training_df, testing_df, s, m, c, p, predicted, v1, v2, v3, v4.
  repeat (split; [done|]). by rewrite Hw.
Qed.

Lemma trigger_prediction_raised_files df_path project_name periodicity seasonality w e :
  fst (trigger_prediction L df_path project_name periodicity seasonality w) = Raised e ->
  files (snd (trigger_prediction L df_path project_name periodicity seasonality w)) = files w.
Proof.
  rewrite trigger_prediction_spec. cbv zeta.
  destruct (prepare L df_path) as [e'|[training_df testing_df]]; [done|].
  destruct (run_search _ _ _ _ _ _ grid _) as [e'|s]; [done|].
  intros H.
  destruct (report_frame project_name periodicity testing_df
              (best_model L s, best_config L s)
              (add_events
                 (add_events w
                    [Call_trigger_prediction df_path project_name periodicity seasonality])
                 (search_events L training_df (drop_date_and_response training_df)
                    (SQALE_values testing_df) testing_df seasonality grid ++
                  [Print (Msg_best (best_config L s) (best_mae L s))])))
    as (evs & _ & _ & _ & _ & Hfiles).
  by rewrite (Hfiles e H).
Qed.

Lemma trigger_prediction_trace df_path project_name periodicity seasonality w :
  exists evs,
    trace (snd (trigger_prediction L df_path project_name periodicity seasonality w)) =
      trace w ++ Call_trigger_prediction df_path project_name periodicity seasonality :: evs /\
    invocations evs = [] /\
    forall training_df testing_df,
      prepare L df_path = Returned (training_df, testing_df) ->
      Forall (fun df => df = training_df) (fitted evs) /\
      Forall (fun df => df = testing_df) (predicted_on evs).
Proof.
  rewrite trigger_prediction_spec. cbv zeta.
  destruct (prepare L df_path) as [e|[training_df testing_df]].
  { exists []. split; [done|]. split; [done|]. by intros. }
  pose proof (search_events_read training_df (drop_date_and_response training_df)
                (SQALE_values testing_df) testing_df seasonality grid) as (Hs1 & Hs2 & Hs3).
  destruct (run_search _ _ _ _ _ _ grid _) as [e|s].
  { eexists. unfold add_events; cbn [trace]. rewrite <- app_assoc. split; [done|].
    split; [done|]. by intros ?? [= <- <-]. }
  match goal with |- context [report L ?a ?b ?c ?d ?e] =>
    destruct (report_frame a b c d e) as (evs & Hevs & Hi & Hf & Hp & _) end.
  eexists. rewrite Hevs. unfold add_events; cbn [trace]. rewrite <- !app_assoc.
  split; [done|].
  unfold invocations, fitted, predicted_on in *.
  split.
  - rewrite !flat_map_app, Hs1, Hi. done.
  - intros ?? [= <- <-]. rewrite !flat_map_app, !Forall_app, Hf.
    repeat split; try done; by repeat constructor.
Qed.

Lemma trigger_prediction_invocations df_path project_name periodicity seasonality w :
  invocations (trace (snd (trigger_prediction L df_path project_name periodicity seasonality w)))
  = invocations (trace w) ++ [(df_path, project_name, periodicity, seasonality)].
Proof.
  destruct (trigger_prediction_trace df_path project_name periodicity seasonality w)
    as (evs & -> & Hi & _).
  unfold invocations in *. rewrite flat_map_app. cbn [flat_map]. by rewrite Hi.
Qed.

End TriggerFacts.

Section TriggerTheorems.

Variable L : Library.

Local Arguments output_dir : simpl never.
Local Arguments path_join : simpl never.

Lemma search_none_iff training_df x_train y_test testing_df seasonality s :
  run_search L training_df x_train y_test testing_df seasonality grid (initial_search L)
    = Returned s ->
  (best_model L s = None <-> best_config L s = None) /\
  (best_config L s = None <->
   forall c r, c ∈ grid ->
     evaluate L training_df x_train y_test testing_df seasonality c = Returned r ->
     (snd r <? infinity)%float = false).
Proof.
  intros Hs. apply search_inv_grid in Hs as [Hlow Hbest].
  destruct (best_config L s) as [c|].
  - destruct Hbest as (i & m & Hi & Hc & Hm & Hinf & _). split.
    + rewrite Hm. split; done.
    + split; [done|]. intros Hall.
      assert (c ∈ grid) as Hin by by eapply list_elem_of_lookup_2.
      pose proof (Hall c (m, best_mae L s) Hin Hc) as Hn. simpl in Hn. congruence.
  - destruct Hbest as [Hm Hb]. split; [done|]. split; [|done].
    intros _ c r Hin Hc. apply list_elem_of_lookup_1 in Hin as [j Hj].
    rewrite <- Hb. by apply (Hlow j c r).
Qed.

Lemma run_search_first_failure training_df x_train y_test testing_df seasonality cs s i c e :
  let evaluate := evaluate L training_df x_train y_test testing_df seasonality in
  cs !! i = Some c -> evaluate c = Raised e ->
  (forall j c', j < i -> cs !! j = Some c' -> returned (evaluate c') = true) ->
  run_search L training_df x_train y_test testing_df seasonality cs s = Raised e.
Proof.
  cbv zeta. revert s i. induction cs as [|c0 cs IH]; intros s i Hi Hc Hbefore; [done|].
  destruct i as [|i]; simpl in *.
  - injection Hi as ->. by rewrite Hc.
  - pose proof (Hbefore 0 c0 ltac:(lia) eq_refl) as H0.
    destruct (evaluate _ _ _ _ _ _ c0) as [e0|r0]; [done|].
    apply (IH _ i); [done|done|]. intros j c' Hj Hc'. apply (Hbefore (S j) c'); [lia|done].
Qed.

Lemma report_without_model project_name periodicity testing_df bc w :
  report L project_name periodicity testing_df (None, bc) w =
  (Raised (AttributeError "'NoneType' object has no attribute 'predict'"), w).
Proof. reflexivity. Qed.

Lemma report_predict_raises project_name periodicity testing_df m bc w e :
  predict L m testing_df = Raised e ->
  fst (report L project_name periodicity testing_df (Some m, bc) w) = Raised e.
Proof.
  intros H. unfold report, bind, lift, emit. simpl. by rewrite H.
Qed.

(** C9: the search returns a model and a configuration exactly when some
    combination scores below [+inf]; when every score is NaN (or otherwise
    not below [+inf]) it returns [(None, None)], and [trigger_prediction]
    then fails on [best_model.predict] before writing anything. *)
Theorem hypertune_none_iff_no_comparable_score :
  (forall training_df y_train x_train y_test testing_df seasonality w bm bc,
     fst (hypertune_dlt_model L training_df y_train x_train y_test testing_df seasonality w)
       = Returned (bm, bc) ->
     ((bm <> None /\ bc <> None) <->
      exists c m mae,
        c ∈ grid /\
        evaluate L training_df x_train y_test testing_df seasonality c = Returned (m, mae) /\
        (mae <? infinity)%float = true) /\
     ((forall c m mae, c ∈ grid ->
         evaluate L training_df x_train y_test testing_df seasonality c = Returned (m, mae) ->
         is_nan mae = true) ->
      bm = None /\ bc = None)) /\
  (forall df_path project_name periodicity seasonality w training_df testing_df,
     prepare L df_path = Returned (training_df, testing_df) ->
     (forall c, c ∈ grid ->
        exists m mae,
          evaluate L training_df (drop_date_and_response training_df)
            (SQALE_values testing_df) testing_df seasonality c = Returned (m, mae) /\
          is_nan mae = true) ->
     fst (trigger_prediction L df_path project_name periodicity seasonality w)
       = Raised (AttributeError "'NoneType' object has no attribute 'predict'") /\
     files (snd (trigger_prediction L df_path project_name periodicity seasonality w))
       = files w).
Proof.
  split.
  - intros training_df y_train x_train y_test testing_df seasonality w bm bc H.
    apply hypertune_returned_inv in H as (s & Hs & -> & -> & [_ Hbest] & _).
    apply search_none_iff in Hs as [Hmc Hnone]. split.
    + split.
      * intros [_ Hbc].
        destruct (best_config L s) as [c|] eqn:Hc; [|done].
        destruct Hbest as (i & m & Hi & Hev & _ & Hinf & _).
        exists c, m, (best_mae L s). split; [by eapply list_elem_of_lookup_2|done].
      * intros (c & m & mae & Hin & Hc & Hinf).
        assert (best_config L s <> None) as Hbc.
        { intros Hn. rewrite Hnone in Hn. specialize (Hn c (m, mae) Hin Hc).
          simpl in Hn. congruence. }
        split; [|done]. by rewrite Hmc.
    + intros Hnan.
      assert (best_config L s = None) as Hbc.
      { apply Hnone. intros c [m mae] Hin Hc. simpl.
        apply FloatOrder.lt_nan_l. by eapply Hnan. }
      split; [by apply Hmc | done].
  - intros df_path project_name periodicity seasonality w training_df testing_df Hprep Hnan.
    assert (Forall (fun c => returned
              (evaluate L training_df (drop_date_and_response training_df)
                 (SQALE_values testing_df) testing_df seasonality c) = true) grid) as Hall.
    { apply Forall_forall. intros c Hin. by destruct (Hnan c Hin) as (m & mae & -> & _). }
    destruct (run_search_total L _ _ _ _ _ grid (initial_search L) Hall) as [s Hs].
    pose proof (search_none_iff _ _ _ _ _ s Hs) as [Hmc Hnone].
    assert (best_config L s = None) as Hbc.
    { apply Hnone. intros c r Hin Hc. destruct (Hnan c Hin) as (m & mae & Hc' & Hn).
      rewrite Hc in Hc'. injection Hc' as ->. simpl. by apply FloatOrder.lt_nan_l. }
    assert (best_model L s = None) as Hbm by by apply Hmc.
    rewrite trigger_prediction_spec, Hprep. cbv zeta. rewrite Hs, Hbm, Hbc.
    by rewrite report_without_model.
Qed.

End TriggerTheorems.

(** C9 at the demo data with a score that is always NaN. *)
Lemma hypertune_none_iff_no_comparable_score_witness :
  fst (hypertune_dlt_model Demo.lib_nan Demo.training (SQALE_values Demo.training)
         (drop_date_and_response Demo.training) (SQALE_values Demo.testing) Demo.testing
         (Some 26%Z) Demo.empty_world) = Returned (None, None) /\
  fst (trigger_prediction Demo.lib_nan "a.csv" "a" (Some "biweekly") (Some 26%Z)
         Demo.empty_world)
    = Raised (AttributeError "'NoneType' object has no attribute 'predict'").
Proof.
  split; [by vm_compute|].
  refine (proj1 (proj2 (hypertune_none_iff_no_comparable_score Demo.lib_nan)
                   "a.csv" "a" (Some "biweekly") (Some 26%Z) Demo.empty_world
                   Demo.training Demo.testing _ _)).
  - by vm_compute.
  - apply Forall_forall. repeat constructor; eexists _, _; split; by vm_compute.
Defined.

(** ** What [trigger_prediction] writes *)

Section RecordTheorems.

Variable L : Library.

Local Arguments output_dir : simpl never.
Local Arguments path_join : simpl never.

(** C4: a successful call records exactly one row in the assessment CSV of
    its periodicity: the project name, the model name [DLT], the trend,
    estimator and penalty of the configuration the search returned, and the
    MAE, MAPE, RMSE and MSE of that model's predictions on the test frame,
    each rounded to two decimals.  No other file changes. *)
Theorem trigger_prediction_records_metrics df_path project_name periodicity seasonality w rd :
  fst (trigger_prediction L df_path project_name periodicity seasonality w) = Returned rd ->
  exists training_df testing_df m c p predicted v_mae v_mape v_mse v_rmse,
    prepare L df_path = Returned (training_df, testing_df) /\
    (forall w0,
       fst (hypertune_dlt_model L training_df (SQALE_values training_df)
              (drop_date_and_response training_df) (SQALE_values testing_df)
              testing_df seasonality w0) = Returned (Some m, Some c)) /\
    predict L m testing_df = Returned predicted /\
    MAE L predicted (SQALE_values testing_df) = Returned v_mae /\
    MAPE L predicted (SQALE_values testing_df) = Returned v_mape /\
    RMSE L predicted (SQALE_values testing_df) = Returned v_rmse /\
    MSE L predicted (SQALE_values testing_df) = Returned v_mse /\
    periodicity = Some p /\
    rd = {| r_Project := project_name; r_Model := "DLT";
            r_Trend := trend c; r_Estimator := estimator c; r_Penalty := penalty c;
            r_MAE := round2 L v_mae; r_MAPE := round2 L v_mape;
            r_RMSE := round2 L v_rmse; r_MSE := round2 L v_mse |} /\
    let after := files (snd (trigger_prediction L df_path project_name periodicity
                               seasonality w)) in
    (exists before, after !! output_csv L p = Some (before ++ [Data rd]) /\
       match files w !! output_csv L p with
       | Some old => before = old
       | None => before = [Header result_columns]
       end) /\
    (forall path, path <> output_csv L p -> after !! path = files w !! path).
Proof.
  intros H. apply trigger_prediction_returned in H
    as (training_df & testing_df & s & m & c & p & predicted & v1 & v2 & v3 & v4
        & Hprep & Hs & Hm & Hc & Hp & H1 & H2 & H3 & H4 & H5 & Hrd & Hfiles & _).
  exists training_df, testing_df, m, c, p, predicted, v1, v2, v3, v4.
  split; [done|]. split.
  { intros w0. by rewrite hypertune_spec, Hs, Hm, Hc. }
  repeat (split; [done|]). cbv zeta. rewrite Hfiles. split.
  - rewrite lookup_insert_eq. unfold written.
    destruct (files w !! output_csv L p) as [old|];
      [by exists old | by exists [Header result_columns]].
  - intros path Hne. by rewrite lookup_insert_ne.
Qed.

Lemma written_rows rs before :
  fold_left (fun o r => Some (written o r)) rs (Some before) = Some (before ++ map Data rs).
Proof.
  revert before. induction rs as [|r rs IH]; intros before; simpl.
  - by rewrite app_nil_r.
  - rewrite IH. by rewrite <- app_assoc.
Qed.

Lemma trigger_predictions_file p calls w rds :
  Forall (fun call => snd (fst call) = Some p) calls ->
  fst (trigger_predictions L calls w) = Returned rds ->
  length rds = length calls /\
  files (snd (trigger_predictions L calls w)) !! output_csv L p =
    fold_left (fun o r => Some (written o r)) rds (files w !! output_csv L p) /\
  forall path, path <> output_csv L p ->
    files (snd (trigger_predictions L calls w)) !! path = files w !! path.
Proof.
  intros Hp. revert w rds.
  induction Hp as [|[[[df_path project_name] periodicity] seasonality] calls Hcall _ IH];
    intros w rds; simpl.
  - by intros [= <-].
  - simpl in Hcall. subst periodicity. unfold bind.
    destruct (trigger_prediction L df_path project_name (Some p) seasonality w)
      as [[e|r] w1] eqn:H1; [done|].
    pose proof (trigger_prediction_returned L df_path project_name (Some p) seasonality w r)
      as Hr. rewrite H1 in Hr.
    destruct (Hr eq_refl) as (_ & _ & _ & _ & _ & p' & _ & _ & _ & _ & _ & _ & _ & _ & _
                              & Hp' & _ & _ & _ & _ & _ & _ & Hfiles & _).
    injection Hp' as <-. simpl in Hfiles.
    specialize (IH w1).
    destruct (trigger_predictions L calls w1) as [[e|rs] w2]; [done|].
    simpl. intros [= <-]. destruct (IH rs eq_refl) as (Hlen & Hfile & Hother).
    simpl in *. split; [by rewrite Hlen|]. split.
    + rewrite Hfile, Hfiles. by rewrite lookup_insert_eq.
    + intros path Hne. rewrite (Hother path Hne), Hfiles. by rewrite lookup_insert_ne.
Qed.

(** C5: a successful call creates the assessment CSV with a header line
    and one data row when the file does not exist, and otherwise appends
    one data row and keeps every line it had; so [n] successful calls for
    one periodicity, starting without the file, leave the header and the
    [n] data rows, in call order.  Files of other paths are untouched. *)
Theorem trigger_prediction_appends_row :
  (forall df_path project_name p seasonality w rd,
     fst (trigger_prediction L df_path project_name (Some p) seasonality w) = Returned rd ->
     let after := files (snd (trigger_prediction L df_path project_name (Some p)
                                seasonality w)) in
     (files w !! output_csv L p = None ->
      after !! output_csv L p = Some [Header result_columns; Data rd]) /\
     (forall old, files w !! output_csv L p = Some old ->
        after !! output_csv L p = Some (old ++ [Data rd])) /\
     (forall path, path <> output_csv L p -> after !! path = files w !! path)) /\
  (forall p calls w rds,
     Forall (fun call => snd (fst call) = Some p) calls ->
     fst (trigger_predictions L calls w) = Returned rds ->
     let after := files (snd (trigger_predictions L calls w)) in
     length rds = length calls /\
     (files w !! output_csv L p = None -> calls <> [] ->
      after !! output_csv L p = Some (Header result_columns :: map Data rds)) /\
     (forall old, files w !! output_csv L p = Some old ->
        after !! output_csv L p = Some (old ++ map Data rds)) /\
     (forall path, path <> output_csv L p -> after !! path = files w !! path)).
Proof.
  split.
  - intros df_path project_name p seasonality w rd H.
    apply trigger_prediction_returned in H
      as (_ & _ & _ & _ & _ & p' & _ & _ & _ & _ & _ & _ & _ & _ & _
          & Hp' & _ & _ & _ & _ & _ & _ & Hfiles & _).
    injection Hp' as <-. cbv zeta. rewrite Hfiles. split; [|split].
    + intros Hnone. by rewrite lookup_insert_eq, Hnone.
    + intros old Hold. by rewrite lookup_insert_eq, Hold.
    + intros path Hne. by rewrite lookup_insert_ne.
  - intros p calls w rds Hp Hrun. cbv zeta.
    destruct (trigger_predictions_file p calls w rds Hp Hrun) as (Hlen & Hfile & Hother).
    split; [done|]. split; [|split; [|done]].
    + intros Hnone Hcalls. rewrite Hfile, Hnone.
      destruct rds as [|r rs]; [by destruct calls|].
      simpl. by rewrite written_rows.
    + intros old Hold. by rewrite Hfile, Hold, written_rows.
Qed.

End RecordTheorems.

(** C4 at the demo data. *)
Lemma trigger_prediction_records_metrics_witness :
  exists rd before,
    fst (trigger_prediction Demo.lib "a.csv" "a" (Some "biweekly") (Some 26%Z)
           Demo.empty_world) = Returned rd /\
    r_Trend rd = "loglinear" /\ r_Model rd = "DLT" /\
    files (snd (trigger_prediction Demo.lib "a.csv" "a" (Some "biweekly") (Some 26%Z)
                  Demo.empty_world))
      !! "/data/ORBIT_ML/DLT_Result/biweekly/assessment.csv" = Some (before ++ [Data rd]).
Proof.
  eassert (fst (trigger_prediction Demo.lib "a.csv" "a" (Some "biweekly") (Some 26%Z)
                  Demo.empty_world) = Returned _) as Hrun.
  { vm_compute. reflexivity. }
  destruct (trigger_prediction_records_metrics Demo.lib _ _ _ _ _ _ Hrun)
    as (tr & te & m & c & p & predicted & v1 & v2 & v3 & v4 & _ & _ & _ & _ & _ & _ & _
        & Hp & _ & (before & Hafter & _) & _).
  injection Hp as <-.
  eexists _, before. split; [exact Hrun|]. split; [reflexivity|]. split; [reflexivity|].
  exact Hafter.
Defined.

(** C5 at the demo data: three calls for one periodicity. *)
Lemma trigger_prediction_appends_row_witness :
  exists rds,
    fst (trigger_predictions Demo.lib Demo.monthly_calls Demo.empty_world) = Returned rds /\
    length rds = 3 /\
    files (snd (trigger_predictions Demo.lib Demo.monthly_calls Demo.empty_world))
      !! output_csv Demo.lib "monthly" = Some (Header result_columns :: map Data rds).
Proof.
  eassert (fst (trigger_predictions Demo.lib Demo.monthly_calls Demo.empty_world)
           = Returned _) as Hrun.
  { vm_compute. reflexivity. }
  assert (Forall (fun call : string * string * option string * option Z =>
                    snd (fst call) = Some "monthly") Demo.monthly_calls) as Hcalls.
  { repeat constructor. }
  destruct (proj2 (trigger_prediction_appends_row Demo.lib) "monthly" Demo.monthly_calls
              Demo.empty_world _ Hcalls Hrun) as (Hlen & Hnew & _).
  eexists. split; [exact Hrun|]. split; [exact Hlen|].
  apply Hnew; [by vm_compute | done].
Defined.

(** ** Exceptions *)

Section ExceptionTheorems.

Variable L : Library.

(** C7: [trigger_prediction] handles no exception.  An exception raised by
    [read_csv], by the cleaning, by constructing, fitting, asking a model of
    the grid to predict or scoring it, or by the final prediction of the
    best model, is the exception the call raises; and whenever the call
    raises, every file is as it was, so no assessment CSV was created or
    changed. *)
Theorem trigger_prediction_propagates_exceptions df_path project_name periodicity
    seasonality w e :
  let run := trigger_prediction L df_path project_name periodicity seasonality w in
  (fst run = Raised e -> files (snd run) = files w) /\
  (read_csv L df_path = Raised e -> fst run = Raised e) /\
  (forall raw, read_csv L df_path = Returned raw -> clean L raw = Raised e ->
     fst run = Raised e) /\
  (forall training_df testing_df,
     prepare L df_path = Returned (training_df, testing_df) ->
     let x_train := drop_date_and_response training_df in
     let y_test := SQALE_values testing_df in
     let evaluate := evaluate L training_df x_train y_test testing_df seasonality in
     let params c := dlt_params_of x_train seasonality (trend c) (estimator c) (penalty c) in
     (forall c, DLT L (params c) = Raised e -> evaluate c = Raised e) /\
     (forall c m0, DLT L (params c) = Returned m0 -> fit L m0 training_df = Raised e ->
        evaluate c = Raised e) /\
     (forall c m0 m, DLT L (params c) = Returned m0 -> fit L m0 training_df = Returned m ->
        predict L m testing_df = Raised e -> evaluate c = Raised e) /\
     (forall i c, grid !! i = Some c -> evaluate c = Raised e ->
        (forall j c', j < i -> grid !! j = Some c' -> returned (evaluate c') = true) ->
        fst run = Raised e) /\
     (forall m c w0,
        fst (hypertune_dlt_model L training_df (SQALE_values training_df) x_train y_test
               testing_df seasonality w0) = Returned (Some m, Some c) ->
        predict L m testing_df = Raised e -> fst run = Raised e)).
Proof.
  cbv zeta. split; [apply trigger_prediction_raised_files|].
  split; [|split].
  - intros Hread. rewrite trigger_prediction_spec. unfold prepare. by rewrite Hread.
  - intros raw Hread Hclean. rewrite trigger_prediction_spec. unfold prepare.
    by rewrite Hread, Hclean.
  - intros training_df testing_df Hprep. repeat split.
    + intros c H. unfold evaluate. by rewrite H.
    + intros c m0 H0 H. unfold evaluate. by rewrite H0, H.
    + intros c m0 m H0 H1 H. unfold evaluate. by rewrite H0, H1, H.
    + intros i c Hi Hc Hbefore. rewrite trigger_prediction_spec, Hprep. cbv zeta.
      by rewrite (run_search_first_failure L _ _ _ _ _ grid (initial_search L) i c e Hi Hc
                    Hbefore).
    + intros m c w0 Hsearch Hpredict.
      apply hypertune_returned_inv in Hsearch as (s & Hs & Hm & _ & _ & _).
      rewrite trigger_prediction_spec, Hprep. cbv zeta. rewrite Hs, <- Hm.
      by apply report_predict_raises.
Qed.

End ExceptionTheorems.

(** C7 at the demo data, with a [DLT(...)] that raises for the [flat]
    trend: the call raises that exception and writes nothing. *)
Lemma trigger_prediction_propagates_exceptions_witness :
  fst (trigger_prediction Demo.lib_flat_raises "a.csv" "a" (Some "biweekly") (Some 26%Z)
         Demo.empty_world) = Raised (LibraryError "flat trend") /\
  files (snd (trigger_prediction Demo.lib_flat_raises "a.csv" "a" (Some "biweekly")
                (Some 26%Z) Demo.empty_world)) = files Demo.empty_world.
Proof.
  assert (fst (trigger_prediction Demo.lib_flat_raises "a.csv" "a" (Some "biweekly")
                 (Some 26%Z) Demo.empty_world) = Raised (LibraryError "flat trend")) as Hrun.
  { destruct (trigger_prediction_propagates_exceptions Demo.lib_flat_raises "a.csv" "a"
                (Some "biweekly") (Some 26%Z) Demo.empty_world (LibraryError "flat trend"))
      as (_ & _ & _ & Hgrid).
    destruct (Hgrid Demo.training Demo.testing ltac:(by vm_compute))
      as (_ & _ & _ & Hfirst & _).
    apply (Hfirst 16 {| trend := "flat"; estimator := "stan-map"; penalty := None |});
      [by vm_compute | by vm_compute |].
    intros j c' Hj Hc'.
    do 16 (destruct j as [|j]; [injection Hc' as <-; by vm_compute|]). lia. }
  split; [exact Hrun|].
  by apply (trigger_prediction_propagates_exceptions Demo.lib_flat_raises "a.csv" "a"
              (Some "biweekly") (Some 26%Z) Demo.empty_world (LibraryError "flat trend")).
Defined.

(** ** Cleaning and splitting *)

Lemma split_point_exact bound df :
  split_point_exact_up_to bound = true ->
  (Z.of_nat (length (rows df)) <= bound)%Z ->
  split_point df = Returned ((8 * Z.of_nat (length (rows df)) + 5) / 10)%Z.
Proof.
  intros Hall Hlen.
  unfold split_point_exact_up_to in Hall. rewrite forallb_forall in Hall.
  specialize (Hall (Z.of_nat (length (rows df)))). unfold split_point, PyFloat.of_len.
  destruct (py_round _) as [e|sp].
  - discriminate Hall. apply list_elem_of_In, elem_of_seqZ. lia.
  - f_equal. apply Z.eqb_eq, Hall, list_elem_of_In, elem_of_seqZ. lia.
Qed.

Lemma split_point_exact_3000 : split_point_exact_up_to 3000 = true.
Proof. vm_compute. reflexivity. Qed.

(** ** Binary64: what rounding does to a mantissa

    The multiplication of two floats and the conversion of an integer
    round a positive mantissa to 53 bits.  For numbers in the normal range
    the result is read off the definitions of [SpecFloat]: the mantissa is
    shifted right by the number of bits in excess, rounded to nearest, and
    shifted once more when rounding carried into a 54th bit. *)

Module Binary64.

Local Open Scope Z_scope.

Lemma digits2_pos_bounds (m : positive) :
  2 ^ (Z.pos (digits2_pos m) - 1) <= Z.pos m < 2 ^ Z.pos (digits2_pos m).
Proof.
  induction m as [m IH|m IH|]; cbn [digits2_pos].
  - rewrite Pos2Z.inj_succ. change (Z.pos m~1) with (2 * Z.pos m + 1).
    replace (Z.succ (Z.pos (digits2_pos m)) - 1)
      with (Z.succ (Z.pos (digits2_pos m) - 1)) by lia.
    rewrite !Z.pow_succ_r by lia.
    generalize dependent (2 ^ (Z.pos (digits2_pos m) - 1)).
    generalize (2 ^ Z.pos (digits2_pos m)). lia.
  - rewrite Pos2Z.inj_succ. change (Z.pos m~0) with (2 * Z.pos m).
    replace (Z.succ (Z.pos (digits2_pos m)) - 1)
      with (Z.succ (Z.pos (digits2_pos m) - 1)) by lia.
    rewrite !Z.pow_succ_r by lia.
    generalize dependent (2 ^ (Z.pos (digits2_pos m) - 1)).
    generalize (2 ^ Z.pos (digits2_pos m)). lia.
  - change (2 ^ (1 - 1)) with 1. change (2 ^ 1) with 2. lia.
Qed.

Lemma digits2_pos_unique (m : positive) (d : Z) :
  2 ^ (d - 1) <= Z.pos m < 2 ^ d -> Z.pos (digits2_pos m) = d.
Proof.
  intros [Hlo Hhi]. pose proof (digits2_pos_bounds m) as [Hlo' Hhi'].
  set (d' := Z.pos (digits2_pos m)) in *.
  assert (0 < d') as Hd' by (unfold d'; lia).
  assert (0 < d) as Hd.
  { destruct (Z.lt_ge_cases 0 d) as [|Hneg]; [done|].
    destruct (Z.eq_dec d 0) as [->|]; [change (2 ^ 0) with 1 in Hhi; lia|].
    rewrite Z.pow_neg_r in Hhi by lia. lia. }
  destruct (Z.lt_trichotomy d' d) as [Hlt|[Heq|Hgt]]; [|done|].
  - pose proof (Z.pow_le_mono_r 2 d' (d - 1) ltac:(lia) ltac:(lia)). lia.
  - pose proof (Z.pow_le_mono_r 2 d (d' - 1) ltac:(lia) ltac:(lia)). lia.
Qed.

Lemma shr_1_m (r : shr_record) : 0 <= shr_m r -> shr_m (shr_1 r) = shr_m r / 2.
Proof.
  destruct r as [m r s]. cbn [shr_m]. intros Hm.
  destruct m as [|[p|p|]|p]; cbn [shr_1 shr_m]; [done| | |done|lia].
  - apply (Z.div_unique _ _ _ 1); lia.
  - apply (Z.div_unique _ _ _ 0); lia.
Qed.

Lemma iter_shr_1_m (p : positive) : forall r,
  0 <= shr_m r -> shr_m (SpecFloat.iter_pos shr_1 p r) = shr_m r / 2 ^ Z.pos p.
Proof.
  assert (forall a b c, 0 <= a -> 0 < b -> 0 < c -> a / b / c = a / (b * c)) as Hdd.
  { intros a b c Ha Hb Hc. rewrite Z.div_div; [done|lia|lia]. }
  assert (forall a b, 0 <= a -> 0 < b -> 0 <= a / b) as Hpos.
  { intros a b Ha Hb. apply Z.div_pos; lia. }
  induction p as [p IH|p IH|]; intros r Hr; cbn [SpecFloat.iter_pos].
  - assert (0 < 2 ^ Z.pos p) as Hp by (apply Z.pow_pos_nonneg; lia).
    rewrite IH, IH, shr_1_m; [|done|rewrite shr_1_m by done; apply Hpos; lia
                              |rewrite IH, shr_1_m; [apply Hpos; [apply Hpos; lia|done]|done
                                |rewrite shr_1_m by done; apply Hpos; lia]].
    rewrite !Hdd; try lia; [|apply Hpos; lia].
    f_equal. change (Z.pos p~1) with (2 * Z.pos p + 1).
    replace (2 * Z.pos p + 1) with (1 + Z.pos p + Z.pos p) by lia.
    rewrite !Z.pow_add_r by lia. change (2 ^ 1) with 2. lia.
  - assert (0 < 2 ^ Z.pos p) as Hp by (apply Z.pow_pos_nonneg; lia).
    rewrite IH, IH; [|done|rewrite IH by done; apply Hpos; lia].
    rewrite Hdd; try lia.
    f_equal. change (Z.pos p~0) with (2 * Z.pos p).
    replace (2 * Z.pos p) with (Z.pos p + Z.pos p) by lia.
    rewrite Z.pow_add_r by lia. lia.
  - rewrite shr_1_m by done. reflexivity.
Qed.

Lemma round_nearest_even_bounds m l :
  m <= round_nearest_even m l <= m + 1.
Proof. destruct l as [|[]]; cbn; [lia| |lia|lia]. destruct (Z.even m); lia. Qed.

Lemma shr_fexp_normal (m : positive) (e : Z) (l : location) :
  53 <= Z.pos (digits2_pos m) -> -1074 <= Z.pos (digits2_pos m) + e - 53 ->
  shr_fexp prec emax (Z.pos m) e l =
  shr (shr_record_of_loc (Z.pos m) l) e (Z.pos (digits2_pos m) - 53).
Proof.
  intros Hd Hlo. unfold shr_fexp. cbn [Zdigits2]. f_equal.
  unfold fexp, SpecFloat.emin, prec, emax. lia.
Qed.

(** Rounding a mantissa of [d >= 53] bits in the normal range: the result
    is finite, has 53 bits, and differs from the exact value by less than
    one unit of its last place; a mantissa of 53 bits is left as it is. *)
Lemma binary_round_aux_normal (s : bool) (mx : positive) (ex : Z) :
  53 <= Z.pos (digits2_pos mx) ->
  -1074 <= Z.pos (digits2_pos mx) + ex - 53 ->
  Z.pos (digits2_pos mx) + ex - 53 + 1 <= 971 ->
  exists (m : positive) (e : Z),
    binary_round_aux prec emax s (Z.pos mx) ex loc_Exact = S754_finite s m e /\
    2 ^ 52 <= Z.pos m < 2 ^ 53 /\
    (e = ex + (Z.pos (digits2_pos mx) - 53) \/
     e = ex + (Z.pos (digits2_pos mx) - 53) + 1) /\
    Z.pos m * 2 ^ (e - ex) <= Z.pos mx + 2 ^ (e - ex) /\
    Z.pos mx < (Z.pos m + 1) * 2 ^ (e - ex) /\
    (Z.pos (digits2_pos mx) = 53 -> m = mx /\ e = ex).
Proof.
  intros Hd Hlo Hhi. pose proof (digits2_pos_bounds mx) as Hmx.
  unfold binary_round_aux. rewrite shr_fexp_normal by done.
  destruct (Z.pos (digits2_pos mx) - 53) as [|k|k] eqn:Hk; [| |lia].
  - (* no bit in excess *)
    assert (Z.pos (digits2_pos mx) = 53) as Hd53 by lia.
    cbn [shr shr_record_of_loc shr_m loc_of_shr_record round_nearest_even].
    rewrite shr_fexp_normal by done. rewrite Hk.
    cbn [shr shr_record_of_loc shr_m].
    rewrite Hd53 in Hmx. change (53 - 1) with 52 in Hmx.
    replace (ex <=? emax - prec) with true by (unfold emax, prec; lia).
    exists mx, ex. split; [done|]. split; [done|]. split; [left; lia|].
    rewrite Z.sub_diag. change (2 ^ 0) with 1. repeat split; lia.
  - (* [k] bits in excess *)
    cbn [shr]. set (r1 := SpecFloat.iter_pos shr_1 k _).
    assert (shr_m r1 = Z.pos mx / 2 ^ Z.pos k) as Hm1.
    { unfold r1. rewrite iter_shr_1_m; [done|]. cbn. lia. }
    assert (0 < 2 ^ Z.pos k) as Hpk by (apply Z.pow_pos_nonneg; lia).
    assert (2 ^ 52 * 2 ^ Z.pos k <= Z.pos mx < 2 ^ 53 * 2 ^ Z.pos k) as Hmx'.
    { rewrite <- !Z.pow_add_r by lia.
      replace (52 + Z.pos k) with (Z.pos (digits2_pos mx) - 1) by lia.
      replace (53 + Z.pos k) with (Z.pos (digits2_pos mx)) by lia. done. }
    pose proof (Z.div_mod (Z.pos mx) (2 ^ Z.pos k) ltac:(lia)) as Hdm.
    pose proof (Z.mod_pos_bound (Z.pos mx) (2 ^ Z.pos k) Hpk) as Hmod.
    rewrite <- Hm1 in Hdm.
    assert (2 ^ 52 <= shr_m r1 < 2 ^ 53) as Hr1 by nia.
    pose proof (round_nearest_even_bounds (shr_m r1) (loc_of_shr_record r1)) as Hrne.
    destruct (round_nearest_even (shr_m r1) (loc_of_shr_record r1)) as [|m2|m2] eqn:Hm2;
      [lia| |lia].
    destruct (Z.eq_dec (Z.pos m2) (2 ^ 53)) as [Hcarry|Hnocarry].
    + (* rounding carried into a 54th bit *)
      assert (Z.pos (digits2_pos m2) = 54) as Hd2.
      { apply digits2_pos_unique. rewrite Hcarry. change (54 - 1) with 53.
        change (2 ^ 54) with (2 * 2 ^ 53). lia. }
      rewrite shr_fexp_normal by lia. rewrite Hd2. change (54 - 53) with 1.
      cbn [shr SpecFloat.iter_pos shr_record_of_loc].
      rewrite shr_1_m by (cbn; lia). cbn [shr_m]. rewrite Hcarry.
      change (2 ^ 53 / 2) with (Z.pos (Z.to_pos (2 ^ 52))).
      replace (ex + Z.pos k + 1 <=? emax - prec) with true by (unfold emax, prec; lia).
      exists (Z.to_pos (2 ^ 52)), (ex + Z.pos k + 1).
      split; [done|]. split; [done|]. split; [right; lia|].
      replace (ex + Z.pos k + 1 - ex) with (1 + Z.pos k) by lia.
      rewrite Z.pow_add_r by lia. change (2 ^ 1) with 2.
      change (Z.pos (Z.to_pos (2 ^ 52))) with (2 ^ 52).
      change (2 ^ 53) with (2 * 2 ^ 52) in *.
      split; [nia|]. split; [nia|lia].
    + assert (Z.pos (digits2_pos m2) = 53) as Hd2.
      { apply digits2_pos_unique. change (53 - 1) with 52. lia. }
      rewrite shr_fexp_normal by lia. rewrite Hd2. change (53 - 53) with 0.
      cbn [shr shr_record_of_loc shr_m].
      replace (ex + Z.pos k <=? emax - prec) with true by (unfold emax, prec; lia).
      exists m2, (ex + Z.pos k).
      split; [done|]. split; [lia|]. split; [left; lia|].
      replace (ex + Z.pos k - ex) with (Z.pos k) by lia.
      split; [nia|]. split; [nia|lia].
Qed.

Lemma iter_xO_shift (m d : positive) : Z.pos (Pos.iter xO m d) = Z.pos m * 2 ^ Z.pos d.
Proof.
  induction d as [|d IH] using Pos.peano_ind.
  - cbn [Pos.iter]. change (2 ^ 1) with 2. lia.
  - rewrite Pos.iter_succ, Pos2Z.inj_succ, Z.pow_succ_r by lia.
    change (Z.pos (Pos.iter xO m d)~0) with (2 * Z.pos (Pos.iter xO m d)). lia.
Qed.

(** [float(N)] for [0 < N < 2^63]: exact below [2^53], and otherwise off
    by less than one unit of the last place. *)
Lemma binary_normalize_length (N : Z) :
  0 < N < 2 ^ 63 ->
  exists (m : positive) (e : Z),
    binary_normalize prec emax N 0 false = S754_finite false m e /\
    2 ^ 52 <= Z.pos m < 2 ^ 53 /\
    -52 <= e <= 11 /\
    (e <= 0 -> Z.pos m = N * 2 ^ (- e)) /\
    (0 < e -> 2 ^ 53 <= N /\ Z.pos m * 2 ^ e <= N + 2 ^ e /\ N < (Z.pos m + 1) * 2 ^ e).
Proof.
  intros [Hpos Hlt]. destruct N as [|n|n]; [lia| |lia].
  cbn [binary_normalize]. unfold binary_round.
  pose proof (digits2_pos_bounds n) as Hn.
  assert (Z.pos (digits2_pos n) <= 63) as Hd63.
  { destruct (Z.le_gt_cases (Z.pos (digits2_pos n)) 63) as [|Hgt]; [done|].
    pose proof (Z.pow_le_mono_r 2 63 (Z.pos (digits2_pos n) - 1) ltac:(lia) ltac:(lia)).
    lia. }
  replace (fexp prec emax (Z.pos (digits2_pos n) + 0)) with (Z.pos (digits2_pos n) - 53)
    by (unfold fexp, SpecFloat.emin, prec, emax; lia).
  unfold shl_align. rewrite Z.sub_0_r.
  destruct (Z.pos (digits2_pos n) - 53) as [|k|k] eqn:Hk.
  - destruct (binary_round_aux_normal false n 0) as (m & e & -> & Hm & _ & _ & _ & Hexact);
      [lia..|].
    destruct Hexact as [-> ->]; [lia|].
    exists n, 0. split; [done|]. split; [done|]. split; [lia|].
    split; [intros _; change (2 ^ (- 0)) with 1; lia | lia].
  - destruct (binary_round_aux_normal false n 0) as (m & e & -> & Hm & He & Hup & Hdown & _);
      [lia..|].
    exists m, e. split; [done|]. split; [done|]. split; [lia|].
    split; [lia|]. intros _. rewrite Z.sub_0_r in Hup, Hdown. split; [|done].
    pose proof (Z.pow_le_mono_r 2 53 (Z.pos (digits2_pos n) - 1) ltac:(lia) ltac:(lia)).
    lia.
  - assert (Z.pos (Pos.iter xO n k) = Z.pos n * 2 ^ Z.pos k) as Hmz by apply iter_xO_shift.
    assert (0 < 2 ^ Z.pos k) as Hpk by (apply Z.pow_pos_nonneg; lia).
    assert (Z.pos (digits2_pos (Pos.iter xO n k)) = 53) as Hdz.
    { apply digits2_pos_unique. rewrite Hmz. change (53 - 1) with 52.
      assert (2 ^ 52 = 2 ^ (Z.pos (digits2_pos n) - 1) * 2 ^ Z.pos k) as ->.
      { rewrite <- Z.pow_add_r by lia. f_equal. lia. }
      assert (2 ^ 53 = 2 ^ Z.pos (digits2_pos n) * 2 ^ Z.pos k) as ->.
      { rewrite <- Z.pow_add_r by lia. f_equal. lia. }
      nia. }
    destruct (binary_round_aux_normal false (Pos.iter xO n k) (Z.neg k))
      as (m & e & -> & Hm & _ & _ & _ & Hexact); [lia..|].
    destruct Hexact as [-> ->]; [done|].
    exists (Pos.iter xO n k), (Z.neg k). split; [done|]. split; [done|]. split; [lia|].
    split; [|lia]. intros _. rewrite Hmz. reflexivity.
Qed.

Lemma round_half_even_scaled (m : positive) (e K J N : Z) :
  0 <= K -> 0 <= J -> e = K - J -> 0 <= N ->
  Z.pos m * 2 ^ K <= N * 2 ^ J ->
  0 <= PyFloat.round_half_even m e <= N.
Proof.
  intros HK HJ He HN Hle. unfold PyFloat.round_half_even.
  destruct (Z.leb_spec 0 e) as [Hpos|Hneg].
  - assert (0 < 2 ^ e) as Hpe by (apply Z.pow_pos_nonneg; lia).
    assert (0 < 2 ^ J) as HpJ by (apply Z.pow_pos_nonneg; lia).
    replace K with (e + J) in Hle by lia. rewrite Z.pow_add_r in Hle by lia.
    split; [lia|]. apply (Z.mul_le_mono_pos_r _ _ (2 ^ J)); lia.
  - cbv zeta.
    assert (0 < 2 ^ (- e)) as Hpe by (apply Z.pow_pos_nonneg; lia).
    assert (0 < 2 ^ K) as HpK by (apply Z.pow_pos_nonneg; lia).
    replace J with (- e + K) in Hle by lia. rewrite Z.pow_add_r in Hle by lia.
    assert (Z.pos m <= N * 2 ^ (- e)) as Hm.
    { apply (Z.mul_le_mono_pos_r _ _ (2 ^ K)); lia. }
    pose proof (Z.div_mod (Z.pos m) (2 ^ (- e)) ltac:(lia)) as Hdm.
    pose proof (Z.mod_pos_bound (Z.pos m) (2 ^ (- e)) Hpe) as Hmod.
    assert (0 <= Z.pos m / 2 ^ (- e)) as Hq by (apply Z.div_pos; lia).
    set (q := Z.pos m / 2 ^ (- e)) in *. set (r := Z.pos m mod 2 ^ (- e)) in *.
    set (d := 2 ^ (- e)) in *.
    destruct (Z.compare_spec (2 * r) d) as [Heq|Hlt|Hgt].
    + destruct (Z.even q); split; try lia; nia.
    + split; [lia|nia].
    + split; [lia|nia].
Qed.

(** [round] is off by at most one half. *)
Lemma round_half_even_nearest (m : positive) (e K J : Z) :
  0 <= K -> 0 <= J -> e = K - J ->
  - 2 ^ J <= 2 * (PyFloat.round_half_even m e * 2 ^ J) - 2 * (Z.pos m * 2 ^ K) <= 2 ^ J.
Proof.
  intros HK HJ He. unfold PyFloat.round_half_even.
  assert (0 < 2 ^ J) as HpJ by (apply Z.pow_pos_nonneg; lia).
  destruct (Z.leb_spec 0 e) as [Hpos|Hneg].
  - replace K with (e + J) by lia. rewrite Z.pow_add_r by lia. lia.
  - cbv zeta.
    assert (0 < 2 ^ (- e)) as Hpe by (apply Z.pow_pos_nonneg; lia).
    assert (0 < 2 ^ K) as HpK by (apply Z.pow_pos_nonneg; lia).
    replace J with (- e + K) in * by lia. rewrite Z.pow_add_r by lia.
    pose proof (Z.div_mod (Z.pos m) (2 ^ (- e)) ltac:(lia)) as Hdm.
    pose proof (Z.mod_pos_bound (Z.pos m) (2 ^ (- e)) Hpe) as Hmod.
    set (q := Z.pos m / 2 ^ (- e)) in *. set (r := Z.pos m mod 2 ^ (- e)) in *.
    set (d := 2 ^ (- e)) in *. set (k := 2 ^ K) in *.
    assert (forall sp, - d <= 2 * (sp * d) - 2 * Z.pos m <= d ->
              - (d * k) <= 2 * (sp * (d * k)) - 2 * (Z.pos m * k) <= d * k) as Hscale.
    { intros sp Hsp. nia. }
    apply Hscale.
    destruct (Z.compare_spec (2 * r) d) as [Heq|Hlt|Hgt].
    + destruct (Z.even q); nia.
    + nia.
    + nia.
Qed.

Lemma Prim2SF_08 : Prim2SF 0.8 = S754_finite false mantissa_08 (-53).
Proof. reflexivity. Qed.

Lemma digits_times_08 (m : positive) :
  2 ^ 52 <= Z.pos m < 2 ^ 53 ->
  Z.pos (digits2_pos (m * mantissa_08)) = 105 \/
  Z.pos (digits2_pos (m * mantissa_08)) = 106.
Proof.
  intros Hm. pose proof (digits2_pos_bounds (m * mantissa_08)) as Hd.
  rewrite Pos2Z.inj_mul in Hd. unfold mantissa_08 in *.
  set (d := Z.pos (digits2_pos (m * 7205759403792794))) in *.
  assert (0 < d) as Hpos by (unfold d; lia).
  assert (2 ^ 104 <= Z.pos m * 7205759403792794 < 2 ^ 106) as Hprod by lia.
  destruct (Z.le_gt_cases d 104) as [Hsmall|Hbig].
  { pose proof (Z.pow_le_mono_r 2 d 104 ltac:(lia) Hsmall). lia. }
  destruct (Z.le_gt_cases 107 d) as [Hlarge|Hok]; [|lia].
  pose proof (Z.pow_le_mono_r 2 106 (d - 1) ltac:(lia) ltac:(lia)). lia.
Qed.

(** [round(float(N) * 0.8)] for a [N] below [2^63] is an integer between
    [0] and [N], within [1/2 + N / 2^50] of [0.8 * N]. *)
Lemma round_times_08_bounds (N : Z) :
  0 <= N < 2 ^ 63 ->
  exists sp,
    match SF64mul (binary_normalize prec emax N 0 false) (Prim2SF 0.8) with
    | S754_zero _ => sp = 0
    | S754_finite false m e => sp = PyFloat.round_half_even m e
    | _ => False
    end /\
    0 <= sp <= N /\
    - (5 * 2 ^ 50 + 10 * N) <= 2 ^ 50 * (10 * sp - 8 * N) <= 5 * 2 ^ 50 + 10 * N.
Proof.
  intros HN. rewrite Prim2SF_08.
  destruct (Z.eq_dec N 0) as [->|Hne]; [exists 0; repeat split; lia|].
  destruct (binary_normalize_length N) as (m & e & -> & Hm & He & Hexact & Hround); [lia|].
  unfold SF64mul. cbn [SFmul xorb].
  pose proof (digits_times_08 m Hm) as Hd.
  destruct (binary_round_aux_normal false (m * mantissa_08) (e + -53))
    as (m3 & e3 & -> & Hm3 & He3 & Hup & Hdown & _); [lia..|].
  exists (PyFloat.round_half_even m3 e3). split; [done|].
  rewrite Pos2Z.inj_mul in Hup, Hdown. unfold mantissa_08 in Hup, Hdown.
  assert (e3 - (e + -53) = 52 \/ e3 - (e + -53) = 53 \/ e3 - (e + -53) = 54) as HK by lia.
  pose proof (round_half_even_nearest m3 e3 (e3 - (e + -53)) (53 - e)
                ltac:(lia) ltac:(lia) ltac:(lia)) as Hnear.
  set (sp := PyFloat.round_half_even m3 e3) in *.
  assert (0 < 2 ^ (53 - e)) as HpR by (apply Z.pow_pos_nonneg; lia).
  (* the conversion of [N], in units of the last place of the product *)
  assert (- 2 ^ 53 <= Z.pos m * 2 ^ 53 - N * 2 ^ (53 - e) <= 2 ^ 53) as Hconv.
  { destruct (Z.le_gt_cases e 0) as [Hsmall|Hlarge].
    - rewrite (Hexact Hsmall).
      replace (53 - e) with (53 + - e) by lia. rewrite Z.pow_add_r by lia. lia.
    - destruct (Hround Hlarge) as (_ & Hle & Hlt).
      assert (0 < 2 ^ e) as Hpe by (apply Z.pow_pos_nonneg; lia).
      assert (2 ^ 53 = 2 ^ e * 2 ^ (53 - e)) as ->.
      { rewrite <- Z.pow_add_r by lia. f_equal. lia. }
      nia. }
  assert (- (5 * 2 ^ 50 * 2 ^ (53 - e) + 10 * (N * 2 ^ (53 - e)))
          <= 2 ^ 50 * (10 * (sp * 2 ^ (53 - e)) - 8 * (N * 2 ^ (53 - e)))
          <= 5 * 2 ^ 50 * 2 ^ (53 - e) + 10 * (N * 2 ^ (53 - e))) as [Hnear_lo Hnear_hi].
  { clear Hexact Hround. generalize dependent (sp * 2 ^ (53 - e)). intros SR Hnear.
    generalize dependent (N * 2 ^ (53 - e)). intros NR Hconv.
    generalize dependent (2 ^ (53 - e)). intros R Hnear HpR.
    destruct HK as [HK|[HK|HK]]; rewrite HK in *; lia. }
  split; [|split].
  - (* between [0] and [N] *)
    unfold sp. clear Hnear Hnear_lo Hnear_hi Hconv.
    destruct (Z.le_gt_cases e 0) as [Hsmall|Hlarge].
    + specialize (Hexact Hsmall).
      assert (0 < 2 ^ (- e)) as Hpe by (apply Z.pow_pos_nonneg; lia).
      apply (round_half_even_scaled m3 e3 (e3 - (e + -53)) (53 + - e) N); [lia..|].
      rewrite Z.pow_add_r by lia.
      replace (N * (2 ^ 53 * 2 ^ (- e))) with (Z.pos m * 2 ^ 53) by lia.
      destruct HK as [HK|[HK|HK]]; rewrite HK in *; lia.
    + destruct (Hround Hlarge) as (Hbig & Hconv & _).
      assert (0 < 2 ^ e) as Hpe by (apply Z.pow_pos_nonneg; lia).
      assert (2 ^ e <= 2 ^ 11) as Hpe' by (apply Z.pow_le_mono_r; lia).
      assert (2 ^ 53 = 2 ^ (53 - e) * 2 ^ e) as Hsplit.
      { rewrite <- Z.pow_add_r by lia. f_equal. lia. }
      apply (round_half_even_scaled m3 e3 (e3 - (e + -53)) (53 - e) N); [lia..|].
      apply (Z.mul_le_mono_pos_r _ _ (2 ^ e)); [done|].
      replace (N * 2 ^ (53 - e) * 2 ^ e) with (N * 2 ^ 53) by (rewrite Hsplit; ring).
      assert (Z.pos m3 * 2 ^ (e3 - (e + -53)) * 2 ^ e
              <= (Z.pos m * 2 ^ e) * 7205759403792794 + 2 ^ (e3 - (e + -53)) * 2 ^ e)
        as Hscaled.
      { apply (Z.mul_le_mono_nonneg_r _ _ (2 ^ e)) in Hup; lia. }
      clear Hdown HpR.
      generalize dependent (Z.pos m * 2 ^ e). intros A HA Hscaled.
      generalize dependent (2 ^ e). intros Q HQ1 HQ2 _ _.
      destruct HK as [HK|[HK|HK]]; rewrite HK in *; lia.
  - apply (Z.mul_le_mono_pos_r _ _ (2 ^ (53 - e))); [done|].
    replace (- (5 * 2 ^ 50 + 10 * N) * 2 ^ (53 - e))
      with (- (5 * 2 ^ 50 * 2 ^ (53 - e) + 10 * (N * 2 ^ (53 - e)))) by ring.
    replace (2 ^ 50 * (10 * sp - 8 * N) * 2 ^ (53 - e))
      with (2 ^ 50 * (10 * (sp * 2 ^ (53 - e)) - 8 * (N * 2 ^ (53 - e)))) by ring.
    done.
  - apply (Z.mul_le_mono_pos_r _ _ (2 ^ (53 - e))); [done|].
    replace ((5 * 2 ^ 50 + 10 * N) * 2 ^ (53 - e))
      with (5 * 2 ^ 50 * 2 ^ (53 - e) + 10 * (N * 2 ^ (53 - e))) by ring.
    replace (2 ^ 50 * (10 * sp - 8 * N) * 2 ^ (53 - e))
      with (2 ^ 50 * (10 * (sp * 2 ^ (53 - e)) - 8 * (N * 2 ^ (53 - e)))) by ring.
    done.
Qed.

End Binary64.

(** [round(len(df) * 0.8)] never raises.  It lies between 0 and the
    length for a frame of any length, within [1/2 + len / 2^50] of 80% of
    the length for a length below [2^63], and it is the integer nearest to
    80% of the length for a length up to [2^46]. *)
Lemma split_point_bounds df :
  let n := Z.of_nat (length (rows df)) in
  exists sp,
    split_point df = Returned sp /\ (0 <= sp <= n)%Z /\
    ((n < 2 ^ 63)%Z ->
     (- (5 * 2 ^ 50 + 10 * n) <= 2 ^ 50 * (10 * sp - 8 * n) <= 5 * 2 ^ 50 + 10 * n)%Z) /\
    ((n <= 2 ^ 46)%Z -> sp = ((8 * n + 5) / 10)%Z).
Proof.
  cbv zeta. unfold split_point, py_round, PyFloat.of_len.
  rewrite FloatAxioms.mul_spec, of_uint63_spec, Uint63.of_Z_spec.
  change Uint63Axioms.wB with (2 ^ 63)%Z.
  set (n := Z.of_nat (length (rows df))).
  assert (0 <= n)%Z as Hn by (unfold n; lia).
  pose proof (Z.mod_pos_bound n (2 ^ 63) ltac:(done)) as Hmod.
  pose proof (Z.mod_le n (2 ^ 63) Hn ltac:(done)) as Hle.
  destruct (Binary64.round_times_08_bounds (n mod 2 ^ 63) Hmod)
    as (sp & Hsp & Hrange & Hnear).
  assert (exists sp', match SF64mul (binary_normalize prec emax (n mod 2 ^ 63) 0 false)
                              (Prim2SF 0.8) with
                      | S754_zero _ => Returned 0%Z
                      | S754_finite s m e =>
                          Returned (if s then (- PyFloat.round_half_even m e)%Z
                                    else PyFloat.round_half_even m e)
                      | S754_infinity _ =>
                          Raised (OverflowError "cannot convert float infinity to integer")
                      | S754_nan => Raised (ValueError "cannot convert float NaN to integer")
                      end = Returned sp' /\ sp' = sp) as (sp' & -> & ->).
  { destruct (SF64mul _ _) as [s|s| |[|] m e]; try done; subst sp; by eexists. }
  exists sp. split; [done|]. split; [lia|].
  assert ((n < 2 ^ 63)%Z ->
          (- (5 * 2 ^ 50 + 10 * n) <= 2 ^ 50 * (10 * sp - 8 * n) <= 5 * 2 ^ 50 + 10 * n)%Z)
    as Hnear'.
  { intros Hsmall. rewrite Z.mod_small in Hnear by lia. exact Hnear. }
  split; [exact Hnear'|].
  intros Hsmall. specialize (Hnear' ltac:(lia)).
  apply (Z.div_unique _ _ _ (8 * n + 5 - 10 * sp)); lia.
Qed.

Lemma NoDup_labels_filter (P : row -> Prop) `{forall r, Decision (P r)} (l : list row) :
  NoDup (map label l) -> NoDup (map label (filter P l)).
Proof.
  induction l as [|r l IH]; simpl; [done|].
  intros [Hr Hl]%NoDup_cons. rewrite filter_cons.
  destruct (decide (P r)); simpl; [|by apply IH].
  apply NoDup_cons. split; [|by apply IH].
  intros Hin. apply Hr.
  apply list_elem_of_In, in_map_iff in Hin as (r' & Hlab & Hr').
  apply list_elem_of_In, in_map_iff. exists r'. split; [done|].
  apply list_elem_of_In. apply list_elem_of_In, list_elem_of_filter in Hr' as [_ Hr']. done.
Qed.

Section CleanFacts.

Variable L : Library.

Lemma convert_rows_spec k rs rs' :
  convert_rows L k rs = Returned rs' ->
  map label rs' = seq k (length rs) /\
  forall i r', rs' !! i = Some r' ->
    exists raw,
      rs !! i = Some raw /\ label r' = k + i /\
      to_datetime L (raw_COMMIT_DATE raw) = Returned (COMMIT_DATE r') /\
      SQALE_INDEX r' = to_numeric_coerce L (raw_SQALE_INDEX raw) /\
      others r' = raw_others raw.
Proof.
  revert k rs'. induction rs as [|raw rs IH]; intros k rs'; simpl.
  - intros [= <-]. split; [done|]. intros i r'. by rewrite lookup_nil.
  - unfold convert_row.
    destruct (to_datetime L (raw_COMMIT_DATE raw)) as [e|d] eqn:Hd; [done|].
    destruct (convert_rows L (S k) rs) as [e|rs''] eqn:Hrs; [done|].
    intros [= <-]. destruct (IH (S k) rs'' Hrs) as [Hlab Hlook]. split.
    + simpl. by rewrite Hlab.
    + intros [|i] r'; simpl.
      * intros [= <-]. exists raw. simpl. repeat split; try done; lia.
      * intros Hi. destruct (Hlook i r' Hi) as (raw' & H1 & H2 & H3 & H4 & H5).
        exists raw'. repeat split; try done; lia.
Qed.

Lemma clean_spec raw df :
  clean L raw = Returned df ->
  columns df = raw_columns raw /\
  NoDup (map label (rows df)) /\
  forall r, r ∈ rows df ->
    row_complete r = true /\
    exists raw_r,
      raw_rows raw !! label r = Some raw_r /\
      to_datetime L (raw_COMMIT_DATE raw_r) = Returned (COMMIT_DATE r) /\
      SQALE_INDEX r = to_numeric_coerce L (raw_SQALE_INDEX raw_r) /\
      others r = raw_others raw_r.
Proof.
  unfold clean. destruct (convert_rows L 0 (raw_rows raw)) as [e|rs] eqn:Hrs; [done|].
  intros [= <-]. apply convert_rows_spec in Hrs as [Hlab Hlook]. simpl.
  split; [done|]. split.
  - apply NoDup_labels_filter. rewrite Hlab. apply NoDup_seq.
  - intros r [Hc Hin]%list_elem_of_filter. split; [done|].
    apply list_elem_of_lookup_1 in Hin as [i Hi].
    destruct (Hlook i r Hi) as (raw_r & H1 & H2 & H3 & H4 & H5).
    exists raw_r. simpl in H2. by rewrite H2.
Qed.

Lemma train_test_split_spec df training_df testing_df :
  train_test_split df = Returned (training_df, testing_df) ->
  exists sp,
    split_point df = Returned sp /\
    training_df = iloc_to sp df /\ testing_df = iloc_from sp df.
Proof.
  unfold train_test_split. destruct (split_point df) as [e|sp]; [done|].
  intros [= <- <-]. by exists sp.
Qed.

Lemma slice_bound_in_range n sp :
  (0 <= sp <= Z.of_nat n)%Z -> slice_bound n sp = Z.to_nat sp.
Proof.
  intros Hsp. unfold slice_bound.
  destruct (sp <? 0)%Z eqn:E; [apply Z.ltb_lt in E; lia|].
  f_equal. lia.
Qed.

Lemma row_complete_spec r :
  row_complete r = true ->
  (exists d, COMMIT_DATE r = Some d) /\ is_nan (SQALE_INDEX r) = false /\
  Forall (fun c => isna c = false) (others r).
Proof.
  unfold row_complete. intros [[Hd Hs]%andb_true_iff Ho]%andb_true_iff.
  split; [destruct (COMMIT_DATE r); [by eexists|done]|].
  split; [by apply negb_true_iff|].
  apply Forall_forall. intros c Hc. apply negb_true_iff.
  rewrite forallb_forall in Ho. apply Ho. by apply list_elem_of_In.
Qed.

(** The frames a call passes to [fit] and to [predict] are the two parts
    of the split of the cleaned file. *)
Lemma trigger_prediction_frames df_path project_name periodicity seasonality w raw df
    training_df testing_df :
  read_csv L df_path = Returned raw -> clean L raw = Returned df ->
  train_test_split df = Returned (training_df, testing_df) ->
  exists evs,
    trace (snd (trigger_prediction L df_path project_name periodicity seasonality w)) =
      trace w ++ evs /\
    Forall (fun d => d = training_df) (fitted evs) /\
    Forall (fun d => d = testing_df) (predicted_on evs).
Proof.
  intros Hread Hclean Hsplit.
  destruct (trigger_prediction_trace L df_path project_name periodicity seasonality w)
    as (evs & Htrace & _ & Hframes).
  destruct (Hframes training_df testing_df) as [Hfit Hpredict].
  { unfold prepare. by rewrite Hread, Hclean. }
  eexists. split; [exact Htrace|]. by split.
Qed.

End CleanFacts.

Section CleanTheorems.

Variable L : Library.

(** C3: the split of the cleaned frame never fails.  [training_df] is the
    slice up to [round(len(df) * 0.8)] and [testing_df] the slice from
    there on: the first rows and the remaining rows, in their order, with
    no row in both and none left out; these are the frames every call to
    [fit] and to [predict] receives.  Whatever the length, the split point
    lies between 0 and the length, so [training_df] has exactly
    [round(len(df) * 0.8)] rows and [testing_df] the others.  The split
    point is within [1/2 + len / 2^50] of 80% of the length (for a length
    below [2^63], as a [len] is), and up to [2^46] rows it is the integer
    nearest to 80% of the length. *)
Theorem train_test_split_partitions raw df :
  clean L raw = Returned df ->
  exists training_df testing_df sp,
    train_test_split df = Returned (training_df, testing_df) /\
    split_point df = Returned sp /\
    let n := length (rows df) in
    let k := slice_bound n sp in
    rows training_df = take k (rows df) /\
    rows testing_df = drop k (rows df) /\
    rows training_df ++ rows testing_df = rows df /\
    length (rows training_df) + length (rows testing_df) = n /\
    (0 <= sp <= Z.of_nat n)%Z /\
    length (rows training_df) = Z.to_nat sp /\
    length (rows testing_df) = n - Z.to_nat sp /\
    ((Z.of_nat n < 2 ^ 63)%Z ->
     (- (5 * 2 ^ 50 + 10 * Z.of_nat n) <= 2 ^ 50 * (10 * sp - 8 * Z.of_nat n)
      <= 5 * 2 ^ 50 + 10 * Z.of_nat n)%Z) /\
    ((Z.of_nat n <= 2 ^ 46)%Z -> sp = ((8 * Z.of_nat n + 5) / 10)%Z) /\
    (forall r, r ∈ rows training_df -> r ∉ rows testing_df) /\
    columns training_df = columns df /\ columns testing_df = columns df /\
    forall df_path project_name periodicity seasonality w,
      read_csv L df_path = Returned raw ->
      exists evs,
        trace (snd (trigger_prediction L df_path project_name periodicity seasonality w)) =
          trace w ++ evs /\
        Forall (fun d => d = training_df) (fitted evs) /\
        Forall (fun d => d = testing_df) (predicted_on evs).
Proof.
  intros Hclean.
  destruct (split_point_bounds df) as (sp & Hsp & Hbounds & Hnear & Hnearest).
  assert (train_test_split df = Returned (iloc_to sp df, iloc_from sp df)) as Hsplit.
  { unfold train_test_split. by rewrite Hsp. }
  exists (iloc_to sp df), (iloc_from sp df), sp. split; [done|]. split; [done|].
  cbv zeta. unfold iloc_to, iloc_from. cbn [rows columns].
  set (k := slice_bound (length (rows df)) sp).
  assert (k <= length (rows df)) as Hk.
  { unfold k, slice_bound. destruct (Z.ltb_spec sp 0); lia. }
  split; [done|]. split; [done|]. split; [apply take_drop|].
  split; [rewrite length_take, length_drop; lia|].
  split; [done|].
  split; [rewrite length_take; unfold k; rewrite slice_bound_in_range by done; lia|].
  split; [rewrite length_drop; unfold k; rewrite slice_bound_in_range by done; lia|].
  split; [done|]. split; [done|].
  split.
  { apply clean_spec in Hclean as (_ & Hnodup & _).
    rewrite <- (take_drop k (rows df)), map_app in Hnodup.
    apply NoDup_app in Hnodup as (_ & Hdisjoint & _).
    intros r Hin Hin'. apply (Hdisjoint (label r)).
    - apply list_elem_of_In, in_map, list_elem_of_In, Hin.
    - apply list_elem_of_In, in_map, list_elem_of_In, Hin'. }
  split; [done|]. split; [done|].
  intros df_path project_name periodicity seasonality w Hread.
  by eapply trigger_prediction_frames.
Qed.

(** C8: every row of the two frames has a parsed COMMIT_DATE, a SQALE_INDEX
    that is a number and not NaN, and no missing regressor; it is a row of
    the CSV file, converted.  So [y_train] and [y_test] hold no NaN, and a
    row of the file whose SQALE_INDEX is no number, or that misses a field,
    is in neither frame.  These are the frames passed on to [fit] and
    [predict]. *)
Theorem cleaned_rows_are_complete raw df training_df testing_df :
  clean L raw = Returned df ->
  train_test_split df = Returned (training_df, testing_df) ->
  (forall r, r ∈ rows training_df ++ rows testing_df ->
     (exists d, COMMIT_DATE r = Some d) /\
     is_nan (SQALE_INDEX r) = false /\
     Forall (fun c => isna c = false) (others r) /\
     exists raw_r,
       raw_rows raw !! label r = Some raw_r /\
       to_datetime L (raw_COMMIT_DATE raw_r) = Returned (COMMIT_DATE r) /\
       SQALE_INDEX r = to_numeric_coerce L (raw_SQALE_INDEX raw_r) /\
       others r = raw_others raw_r) /\
  Forall (fun y => is_nan y = false) (SQALE_values training_df) /\
  Forall (fun y => is_nan y = false) (SQALE_values testing_df) /\
  (forall i raw_r,
     raw_rows raw !! i = Some raw_r ->
     (exists s, raw_SQALE_INDEX raw_r = Text s /\ parse_number L s = None) \/
     raw_COMMIT_DATE raw_r = NA \/ raw_SQALE_INDEX raw_r = NA \/ NA ∈ raw_others raw_r ->
     forall r, r ∈ rows training_df ++ rows testing_df -> label r <> i) /\
  (forall df_path project_name periodicity seasonality w,
     read_csv L df_path = Returned raw ->
     exists evs,
       trace (snd (trigger_prediction L df_path project_name periodicity seasonality w)) =
         trace w ++ evs /\
       Forall (fun d => d = training_df) (fitted evs) /\
       Forall (fun d => d = testing_df) (predicted_on evs)).
Proof.
  intros Hclean Hsplit.
  destruct (train_test_split_spec df training_df testing_df Hsplit) as (sp & Hsp & -> & ->).
  unfold iloc_to, iloc_from, SQALE_values. cbn [rows columns].
  set (k := slice_bound (length (rows df)) sp). rewrite take_drop.
  pose proof (clean_spec L raw df Hclean) as (_ & _ & Hrows).
  assert (forall r, r ∈ rows df ->
            (exists d, COMMIT_DATE r = Some d) /\ is_nan (SQALE_INDEX r) = false /\
            Forall (fun c => isna c = false) (others r)) as Hcomplete.
  { intros r Hr. apply row_complete_spec. by apply Hrows. }
  split.
  { intros r Hr. destruct (Hcomplete r Hr) as (Hd & Hs & Ho).
    repeat (split; [done|]). by apply Hrows. }
  split.
  { apply Forall_forall. intros y Hy.
    apply list_elem_of_In, in_map_iff in Hy as (r & <- & Hr).
    apply Hcomplete. apply (subseteq_take k). apply list_elem_of_In, Hr. }
  split.
  { apply Forall_forall. intros y Hy.
    apply list_elem_of_In, in_map_iff in Hy as (r & <- & Hr).
    apply Hcomplete. apply (subseteq_drop k). apply list_elem_of_In, Hr. }
  split.
  { intros i raw_r Hi Hbad r Hr <-.
    destruct (Hcomplete r Hr) as ([d Hd] & Hs & Ho).
    destruct (Hrows r Hr) as (_ & raw_r' & Hi' & Hdate & Hsqale & Hothers).
    rewrite Hi in Hi'. injection Hi' as <-.
    destruct Hbad as [(s & Htext & Hparse)|[Hna|[Hna|Hna]]].
    - rewrite Htext in Hsqale. simpl in Hsqale. rewrite Hparse in Hsqale.
      rewrite Hsqale in Hs. by vm_compute in Hs.
    - rewrite Hna in Hdate. simpl in Hdate. congruence.
    - rewrite Hna in Hsqale. simpl in Hsqale. rewrite Hsqale in Hs. by vm_compute in Hs.
    - rewrite Hothers in Ho. rewrite Forall_forall in Ho. by specialize (Ho NA Hna). }
  intros df_path project_name periodicity seasonality w Hread.
  by eapply trigger_prediction_frames.
Qed.

End CleanTheorems.

(** C3 at the demo file: seven rows survive the cleaning, six train. *)
Lemma train_test_split_partitions_witness :
  clean Demo.lib Demo.csv = Returned Demo.cleaned /\
  train_test_split Demo.cleaned = Returned (Demo.training, Demo.testing) /\
  rows Demo.training ++ rows Demo.testing = rows Demo.cleaned /\
  length (rows Demo.training) = 6 /\
  forall r, r ∈ rows Demo.training -> r ∉ rows Demo.testing.
Proof.
  assert (clean Demo.lib Demo.csv = Returned Demo.cleaned) as Hclean.
  { vm_compute. reflexivity. }
  assert (train_test_split Demo.cleaned = Returned (Demo.training, Demo.testing)) as Hsplit.
  { vm_compute. reflexivity. }
  destruct (train_test_split_partitions Demo.lib Demo.csv Demo.cleaned Hclean)
    as (training_df & testing_df & sp & Hsplit' & _ & _ & _ & Happ & _ & _ & _ & _ & _ & _
        & Hdisjoint & _).
  rewrite Hsplit in Hsplit'. injection Hsplit' as <- <-.
  split; [exact Hclean|]. split; [exact Hsplit|]. split; [exact Happ|].
  split; [reflexivity | exact Hdisjoint].
Defined.

(** C8 at the demo file: rows 2, 3, 4 and 7 are left out. *)
Lemma cleaned_rows_are_complete_witness :
  clean Demo.lib Demo.csv = Returned Demo.cleaned /\
  train_test_split Demo.cleaned = Returned (Demo.training, Demo.testing) /\
  Forall (fun y => is_nan y = false) (SQALE_values Demo.training) /\
  forall r, r ∈ rows Demo.training ++ rows Demo.testing -> label r <> 2.
Proof.
  assert (clean Demo.lib Demo.csv = Returned Demo.cleaned) as Hclean.
  { vm_compute. reflexivity. }
  assert (train_test_split Demo.cleaned = Returned (Demo.training, Demo.testing)) as Hsplit.
  { vm_compute. reflexivity. }
  destruct (cleaned_rows_are_complete Demo.lib Demo.csv Demo.cleaned Demo.training
              Demo.testing Hclean Hsplit)
    as (_ & Hy & _ & Hout & _).
  split; [exact Hclean|]. split; [exact Hsplit|]. split; [exact Hy|].
  apply (Hout 2 (RawRow (Text "2020-02-01") (Text "n/a") [Num 3%float])); [reflexivity|].
  left. by exists "n/a".
Defined.

(** ** Output paths *)

Local Arguments String.append !_ _ / : simpl nomatch.

Lemma append_inj_l (s a b : string) : (s ++ a)%string = (s ++ b)%string -> a = b.
Proof. induction s as [|c s IH]; simpl; [done|]. intros [= H]. by apply IH. Qed.

Lemma append_assoc (a b c : string) : ((a ++ b) ++ c)%string = (a ++ b ++ c)%string.
Proof. induction a as [|x a IH]; simpl; [done|]. by rewrite IH. Qed.

Lemma ends_with_sep_append (a b : string) :
  b <> "" -> ends_with_sep (a ++ b)%string = ends_with_sep b.
Proof.
  intros Hb. induction a as [|x a IH]; simpl; [done|].
  destruct (a ++ b)%string eqn:E; [|done].
  destruct a; simpl in E; [done|discriminate].
Qed.

Lemma append_nonempty (a b : string) : b <> "" -> (a ++ b)%string <> "".
Proof. destruct a; simpl; [done|discriminate]. Qed.

Lemma join2_relative base p :
  starts_with_sep p = false -> join2 base p = (joined_prefix base ++ p)%string.
Proof.
  intros Hp. unfold join2, joined_prefix. rewrite Hp.
  destruct (String.eqb base "" || ends_with_sep base); [done|].
  cbv iota. by rewrite append_assoc.
Qed.

Section Paths.

Variable L : Library.

Lemma output_dir_relative p :
  starts_with_sep p = false -> output_dir L p = (result_root L ++ p)%string.
Proof. intros Hp. unfold output_dir, result_root, path_join. simpl. by apply join2_relative. Qed.

Lemma output_csv_relative p :
  starts_with_sep p = false -> p <> "" -> ends_with_sep p = false ->
  output_csv L p = (result_root L ++ p ++ "/assessment.csv")%string.
Proof.
  intros Hp Hne Hend. unfold output_csv. rewrite (output_dir_relative p Hp).
  unfold path_join. simpl. rewrite join2_relative by done. unfold joined_prefix.
  rewrite ends_with_sep_append, Hend by done.
  destruct (String.eqb_spec (result_root L ++ p) "") as [E|_].
  - by apply append_nonempty in E.
  - simpl. by rewrite !append_assoc.
Qed.

(** The three periodicities have three output directories and three
    assessment files. *)
Lemma output_paths_distinct :
  output_dir L "biweekly" <> output_dir L "monthly" /\
  output_dir L "biweekly" <> output_dir L "complete" /\
  output_dir L "monthly" <> output_dir L "complete" /\
  output_csv L "biweekly" <> output_csv L "monthly" /\
  output_csv L "biweekly" <> output_csv L "complete" /\
  output_csv L "monthly" <> output_csv L "complete".
Proof.
  rewrite !output_dir_relative, !output_csv_relative by done.
  repeat split; intros H%append_inj_l; discriminate H.
Qed.

End Paths.

(** ** The driver loop *)

Section DriverFacts.

Variable L : Library.
Variables (biweekly_files monthly_files complete_files : list string).

Local Arguments trigger_prediction : simpl never.
Local Arguments path_join : simpl never.
Local Arguments drop_last4 : simpl never.
Local Arguments String.eqb : simpl never.

Local Abbreviation body :=
  (bayesian_orbit_body L (biweekly_data_path L) (monthly_data_path L)
     (complete_data_path L) biweekly_files monthly_files complete_files).
Local Abbreviation calls := (schedule L biweekly_files monthly_files complete_files).

Lemma invocations_print evs m : invocations (evs ++ [Print m]) = invocations evs.
Proof. unfold invocations. rewrite flat_map_app. simpl. by rewrite app_nil_r. Qed.

Lemma body_returned i w :
  fst (body i tt w) = Returned tt ->
  invocations (trace (snd (body i tt w))) = invocations (trace w) ++ calls i /\
  forall name, biweekly_files !! i = Some name -> name <> ".DS_Store" ->
    is_Some (monthly_files !! i) /\ is_Some (complete_files !! i).
Proof.
  unfold bayesian_orbit_body, schedule, bind, py_index, print, emit, ret, raise.
  destruct (biweekly_files !! i) as [name|]; simpl; [|done].
  destruct (String.eqb_spec name ".DS_Store") as [Hds|Hds]; simpl.
  { intros _. rewrite app_nil_r. split; [done|]. by intros ? [= <-]. }
  match goal with |- context [trigger_prediction L ?a ?b ?c ?d ?w] =>
    pose proof (trigger_prediction_invocations L a b c d w) as H1;
    destruct (trigger_prediction L a b c d w) as [[e|r1] w1] end; simpl in *; [done|].
  destruct (monthly_files !! i) as [monthly_name|]; simpl; [|done].
  match goal with |- context [trigger_prediction L ?a ?b ?c ?d ?w] =>
    pose proof (trigger_prediction_invocations L a b c d w) as H2;
    destruct (trigger_prediction L a b c d w) as [[e|r2] w2] end; simpl in *; [done|].
  destruct (complete_files !! i) as [complete_name|]; simpl; [|done].
  match goal with |- context [trigger_prediction L ?a ?b ?c ?d ?w] =>
    pose proof (trigger_prediction_invocations L a b c d w) as H3;
    destruct (trigger_prediction L a b c d w) as [[e|r3] w3] end; simpl in *; [done|].
  intros _. split; [|by eauto].
  rewrite H3, invocations_print, H2, invocations_print, H1, invocations_print.
  by rewrite <- !app_assoc.
Qed.

Lemma body_raised i w e :
  fst (body i tt w) = Raised e ->
  i < length biweekly_files -> i < length monthly_files -> i < length complete_files ->
  exists df_path project_name periodicity seasonality w0,
    fst (trigger_prediction L df_path project_name periodicity seasonality w0) = Raised e.
Proof.
  intros H Hb Hm Hc. revert H.
  apply lookup_lt_is_Some_2 in Hb as [name Hb], Hm as [mname Hm], Hc as [cname Hc].
  unfold bayesian_orbit_body, bind, py_index, print, emit, ret, raise.
  rewrite Hb, Hm, Hc. simpl.
  destruct (String.eqb name ".DS_Store"); simpl; [done|].
  match goal with |- context [trigger_prediction L ?a ?b ?c ?d ?w] =>
    destruct (trigger_prediction L a b c d w) as [[e1|r1] w1] eqn:H1 end; simpl.
  { intros [= <-]. eexists _, _, _, _, _. by rewrite H1. }
  match goal with |- context [trigger_prediction L ?a ?b ?c ?d ?w] =>
    destruct (trigger_prediction L a b c d w) as [[e2|r2] w2] eqn:H2 end; simpl.
  { intros [= <-]. eexists _, _, _, _, _. by rewrite H2. }
  match goal with |- context [trigger_prediction L ?a ?b ?c ?d ?w] =>
    destruct (trigger_prediction L a b c d w) as [[e3|r3] w3] eqn:H3 end; simpl.
  { intros [= <-]. eexists _, _, _, _, _. by rewrite H3. }
  done.
Qed.

Lemma loop_returned n : forall a w,
  fst (for_each (seq a n) body tt w) = Returned tt ->
  invocations (trace (snd (for_each (seq a n) body tt w))) =
    invocations (trace w) ++ flat_map calls (seq a n) /\
  forall i name, a <= i < a + n ->
    biweekly_files !! i = Some name -> name <> ".DS_Store" ->
    is_Some (monthly_files !! i) /\ is_Some (complete_files !! i).
Proof.
  induction n as [|n IH]; intros a w; cbn [seq for_each flat_map].
  - intros _. cbn. rewrite app_nil_r. split; [done|]. intros; lia.
  - unfold bind.
    pose proof (body_returned a w) as Hbody.
    destruct (body a tt w) as [[e|[]] w1]; [done|]. cbn [fst snd] in Hbody.
    destruct (Hbody eq_refl) as [Hcalls Hbound].
    intros Hrest. destruct (IH (S a) w1 Hrest) as [Hrest_calls Hrest_bound].
    split.
    + by rewrite Hrest_calls, Hcalls, <- app_assoc.
    + intros i name Hi Hname Hds.
      destruct (decide (i = a)) as [->|Hne]; [by apply (Hbound name)|].
      apply (Hrest_bound i name); [lia|done|done].
Qed.

Lemma loop_raised n : forall a w e,
  fst (for_each (seq a n) body tt w) = Raised e ->
  a + n <= length biweekly_files ->
  a + n <= length monthly_files -> a + n <= length complete_files ->
  exists df_path project_name periodicity seasonality w0,
    fst (trigger_prediction L df_path project_name periodicity seasonality w0) = Raised e.
Proof.
  induction n as [|n IH]; intros a w e; cbn [seq for_each]; [done|].
  unfold bind.
  pose proof (body_raised a w) as Hbody.
  destruct (body a tt w) as [[e'|[]] w1]; cbn [fst] in *.
  - intros [= <-] Hb Hm Hc. apply Hbody; [done|lia..].
  - intros Hrest Hb Hm Hc. apply (IH (S a) w1 e Hrest); lia.
Qed.

End DriverFacts.

Section DriverTheorems.

Variable L : Library.

Local Arguments trigger_prediction : simpl never.

Lemma bayesian_orbit_listings w :
  bayesian_orbit L w =
  match listdir L (biweekly_data_path L) with
  | Raised e => (Raised e, w)
  | Returned biweekly_files =>
      match listdir L (monthly_data_path L) with
      | Raised e => (Raised e, w)
      | Returned monthly_files =>
          match listdir L (complete_data_path L) with
          | Raised e => (Raised e, w)
          | Returned complete_files =>
              for_each (seq 0 (length biweekly_files))
                (bayesian_orbit_body L (biweekly_data_path L) (monthly_data_path L)
                   (complete_data_path L) biweekly_files monthly_files complete_files) tt w
          end
      end
  end.
Proof.
  unfold bayesian_orbit, bind, lift.
  destruct (listdir L (biweekly_data_path L)); [done|].
  destruct (listdir L (monthly_data_path L)); [done|].
  by destruct (listdir L (complete_data_path L)).
Qed.

Lemma schedule_project biweekly_files monthly_files complete_files i name :
  biweekly_files !! i = Some name -> name <> ".DS_Store" ->
  is_Some (monthly_files !! i) -> is_Some (complete_files !! i) ->
  exists monthly_name complete_name,
    monthly_files !! i = Some monthly_name /\
    complete_files !! i = Some complete_name /\
    schedule L biweekly_files monthly_files complete_files i =
      [ (path_join (biweekly_data_path L) [name], drop_last4 name,
         Some "biweekly", Some 26%Z);
        (path_join (monthly_data_path L) [monthly_name], drop_last4 name,
         Some "monthly", Some 12%Z);
        (path_join (complete_data_path L) [complete_name], drop_last4 name,
         Some "complete", None) ].
Proof.
  intros Hname Hds [monthly_name Hm] [complete_name Hc].
  exists monthly_name, complete_name. split; [done|]. split; [done|].
  unfold schedule. rewrite Hname, Hm, Hc.
  by destruct (String.eqb_spec name ".DS_Store").
Qed.

(** C6: in a run of [bayesian_orbit] that returns, every entry of the
    biweekly listing other than [.DS_Store] gives rise to exactly three
    calls of [trigger_prediction], in this order: the biweekly file with
    seasonality 26, the monthly file with seasonality 12 and the complete
    file with no seasonality; [.DS_Store] gives rise to none.  A call for a
    periodicity creates the directory named after it and changes only the
    assessment file in it, and the three directories and files differ. *)
Theorem bayesian_orbit_three_calls_per_project w :
  fst (bayesian_orbit L w) = Returned tt ->
  exists biweekly_files monthly_files complete_files,
    listdir L (biweekly_data_path L) = Returned biweekly_files /\
    listdir L (monthly_data_path L) = Returned monthly_files /\
    listdir L (complete_data_path L) = Returned complete_files /\
    invocations (trace (snd (bayesian_orbit L w))) =
      invocations (trace w) ++
      flat_map (schedule L biweekly_files monthly_files complete_files)
        (seq 0 (length biweekly_files)) /\
    (forall i name, biweekly_files !! i = Some name -> name <> ".DS_Store" ->
       exists monthly_name complete_name,
         monthly_files !! i = Some monthly_name /\
         complete_files !! i = Some complete_name /\
         schedule L biweekly_files monthly_files complete_files i =
           [ (path_join (biweekly_data_path L) [name], drop_last4 name,
              Some "biweekly", Some 26%Z);
             (path_join (monthly_data_path L) [monthly_name], drop_last4 name,
              Some "monthly", Some 12%Z);
             (path_join (complete_data_path L) [complete_name], drop_last4 name,
              Some "complete", None) ]) /\
    (forall i, biweekly_files !! i = Some ".DS_Store" ->
       schedule L biweekly_files monthly_files complete_files i = []) /\
    (forall df_path project_name p seasonality w0 rd,
       fst (trigger_prediction L df_path project_name (Some p) seasonality w0)
         = Returned rd ->
       let after := snd (trigger_prediction L df_path project_name (Some p) seasonality w0) in
       output_dir L p ∈ dirs after /\
       output_csv L p = path_join (output_dir L p) ["assessment.csv"] /\
       is_Some (files after !! output_csv L p) /\
       forall path, path <> output_csv L p -> files after !! path = files w0 !! path) /\
    output_dir L "biweekly" <> output_dir L "monthly" /\
    output_dir L "biweekly" <> output_dir L "complete" /\
    output_dir L "monthly" <> output_dir L "complete" /\
    output_csv L "biweekly" <> output_csv L "monthly" /\
    output_csv L "biweekly" <> output_csv L "complete" /\
    output_csv L "monthly" <> output_csv L "complete".
Proof.
  rewrite bayesian_orbit_listings.
  destruct (listdir L (biweekly_data_path L)) as [e|biweekly_files]; [done|].
  destruct (listdir L (monthly_data_path L)) as [e|monthly_files]; [done|].
  destruct (listdir L (complete_data_path L)) as [e|complete_files]; [done|].
  intros Hrun.
  destruct (loop_returned L biweekly_files monthly_files complete_files
              (length biweekly_files) 0 w Hrun) as [Hcalls Hbound].
  exists biweekly_files, monthly_files, complete_files.
  do 3 (split; [done|]). split; [done|]. split.
  { intros i name Hname Hds.
    destruct (Hbound i name) as [Hm Hc]; [|done|done|].
    { apply lookup_lt_Some in Hname. lia. }
    by apply schedule_project. }
  split.
  { intros i Hname. unfold schedule. by rewrite Hname. }
  split; [|apply output_paths_distinct].
  intros df_path project_name p seasonality w0 rd Hcall. cbv zeta.
  apply trigger_prediction_returned in Hcall
    as (_ & _ & _ & _ & _ & p' & _ & _ & _ & _ & _ & _ & _ & _ & _
        & Hp' & _ & _ & _ & _ & _ & _ & Hfiles & Hdirs).
  injection Hp' as <-. rewrite Hfiles, Hdirs. split; [apply elem_of_union; right; by apply elem_of_singleton|].
  split; [done|]. split.
  - rewrite lookup_insert_eq. by eexists.
  - intros path Hne. by rewrite lookup_insert_ne.
Qed.

(** C10, as the code has it: the three listings are paired by index.  A
    run of [bayesian_orbit] returns only if [monthly_files[i]] and
    [complete_files[i]] exist for every index [i] whose biweekly entry is
    not [.DS_Store]; where one is missing the run raises.  When the monthly
    and complete listings are at least as long as the biweekly one, an
    exception of the run is an exception of some call of
    [trigger_prediction], none of the indexing.  Only the name in the
    biweekly listing is compared with [.DS_Store]: a [.DS_Store] at a used
    index of the monthly listing is passed on as a data file. *)
Theorem bayesian_orbit_pairs_by_index w biweekly_files monthly_files complete_files :
  listdir L (biweekly_data_path L) = Returned biweekly_files ->
  listdir L (monthly_data_path L) = Returned monthly_files ->
  listdir L (complete_data_path L) = Returned complete_files ->
  (fst (bayesian_orbit L w) = Returned tt ->
   (forall i name, biweekly_files !! i = Some name -> name <> ".DS_Store" ->
      i < length monthly_files /\ i < length complete_files) /\
   invocations (trace (snd (bayesian_orbit L w))) =
     invocations (trace w) ++
     flat_map (schedule L biweekly_files monthly_files complete_files)
       (seq 0 (length biweekly_files)) /\
   (forall i name, biweekly_files !! i = Some name -> name <> ".DS_Store" ->
      monthly_files !! i = Some ".DS_Store" ->
      (path_join (monthly_data_path L) [".DS_Store"], drop_last4 name,
       Some "monthly", Some 12%Z)
      ∈ flat_map (schedule L biweekly_files monthly_files complete_files)
          (seq 0 (length biweekly_files)))) /\
  (forall i name, biweekly_files !! i = Some name -> name <> ".DS_Store" ->
     length monthly_files <= i \/ length complete_files <= i ->
     exists e, fst (bayesian_orbit L w) = Raised e) /\
  (length biweekly_files <= length monthly_files ->
   length biweekly_files <= length complete_files ->
   forall e, fst (bayesian_orbit L w) = Raised e ->
     exists df_path project_name periodicity seasonality w0,
       fst (trigger_prediction L df_path project_name periodicity seasonality w0)
         = Raised e).
Proof.
  intros Hb Hm Hc. rewrite bayesian_orbit_listings, Hb, Hm, Hc.
  assert (fst (for_each (seq 0 (length biweekly_files))
                 (bayesian_orbit_body L (biweekly_data_path L) (monthly_data_path L)
                    (complete_data_path L) biweekly_files monthly_files complete_files)
                 tt w) = Returned tt ->
          forall i name, biweekly_files !! i = Some name -> name <> ".DS_Store" ->
            i < length monthly_files /\ i < length complete_files) as Hbounds.
  { intros Hrun i name Hname Hds.
    destruct (loop_returned L biweekly_files monthly_files complete_files
                (length biweekly_files) 0 w Hrun) as [_ Hbound].
    destruct (Hbound i name) as [Hmi Hci]; [|done|done|].
    { apply lookup_lt_Some in Hname. lia. }
    split; by apply lookup_lt_is_Some_1. }
  split; [|split].
  - intros Hrun. split; [by apply Hbounds|].
    destruct (loop_returned L biweekly_files monthly_files complete_files
                (length biweekly_files) 0 w Hrun) as [Hcalls Hbound].
    split; [done|].
    intros i name Hname Hds Hmonthly.
    destruct (Hbound i name) as [Hmi Hci]; [|done|done|].
    { apply lookup_lt_Some in Hname. lia. }
    destruct (schedule_project biweekly_files monthly_files complete_files i name
                Hname Hds Hmi Hci) as (mn & cn & Hmn & Hcn & Hsched).
    rewrite Hmonthly in Hmn. injection Hmn as <-.
    apply list_elem_of_In, in_flat_map. exists i. split.
    + apply in_seq. apply lookup_lt_Some in Hname. lia.
    + rewrite Hsched. right. by left.
  - intros i name Hname Hds Hshort.
    destruct (for_each _ _ _ _) as [[e|[]] w'] eqn:Hrun; [by exists e|].
    destruct (Hbounds eq_refl i name Hname Hds). lia.
  - intros Hlm Hlc e Hrun.
    apply (loop_raised L biweekly_files monthly_files complete_files
             (length biweekly_files) 0 w e Hrun); lia.
Qed.

End DriverTheorems.

(** C6 at the demo data: two projects and a [.DS_Store], six calls. *)
Lemma bayesian_orbit_three_calls_per_project_witness :
  fst (bayesian_orbit Demo.lib Demo.empty_world) = Returned tt /\
  invocations (trace (snd (bayesian_orbit Demo.lib Demo.empty_world))) =
    [ ("/data/biweekly_data_1/a.csv", "a", Some "biweekly", Some 26%Z);
      ("/data/monthly_data_1/a.csv", "a", Some "monthly", Some 12%Z);
      ("/data/complete_data_1/a.csv", "a", Some "complete", None);
      ("/data/biweekly_data_1/b.csv", "b", Some "biweekly", Some 26%Z);
      ("/data/monthly_data_1/b.csv", "b", Some "monthly", Some 12%Z);
      ("/data/complete_data_1/b.csv", "b", Some "complete", None) ].
Proof.
  assert (fst (bayesian_orbit Demo.lib Demo.empty_world) = Returned tt) as Hrun.
  { vm_compute. reflexivity. }
  split; [exact Hrun|].
  destruct (bayesian_orbit_three_calls_per_project Demo.lib Demo.empty_world Hrun)
    as (bi & mo & co & Hbi & Hmo & Hco & Hcalls & _).
  injection Hbi as <-. injection Hmo as <-. injection Hco as <-.
  rewrite Hcalls. reflexivity.
Defined.

(** C10 as stated fails: with a trailing [.DS_Store] in the biweekly
    listing only, the monthly and complete listings are shorter than the
    biweekly one, and the run returns without an index error. *)
Lemma bayesian_orbit_with_shorter_listings :
  listdir Demo.lib_ds_store (biweekly_data_path Demo.lib_ds_store)
    = Returned ["a.csv"; ".DS_Store"] /\
  listdir Demo.lib_ds_store (monthly_data_path Demo.lib_ds_store) = Returned ["a.csv"] /\
  listdir Demo.lib_ds_store (complete_data_path Demo.lib_ds_store) = Returned ["a.csv"] /\
  fst (bayesian_orbit Demo.lib_ds_store Demo.empty_world) = Returned tt.
Proof. repeat split; vm_compute; reflexivity. Qed.

(** C10 at the demo data with a monthly listing of one file for two
    projects: the run raises, and what it raises is the index error. *)
Lemma bayesian_orbit_pairs_by_index_witness :
  (exists e, fst (bayesian_orbit Demo.lib_short_monthly Demo.empty_world) = Raised e) /\
  fst (bayesian_orbit Demo.lib_short_monthly Demo.empty_world)
    = Raised (IndexError "list index out of range").
Proof.
  split; [|vm_compute; reflexivity].
  destruct (bayesian_orbit_pairs_by_index Demo.lib_short_monthly Demo.empty_world
              ["a.csv"; "b.csv"] ["a.csv"] ["a.csv"; "b.csv"] eq_refl eq_refl eq_refl)
    as (_ & Hraises & _).
  apply (Hraises 1 "b.csv" eq_refl); [discriminate | left; simpl; lia].
Defined.

(** ** More on cleaning: what is kept, in which order, and when it fails *)

Section CleanMore.

Variable L : Library.

Lemma convert_rows_length k rs rs' :
  convert_rows L k rs = Returned rs' -> length rs' = length rs.
Proof.
  intros H. apply convert_rows_spec in H as [Hlab _].
  rewrite <- (length_map label rs'), Hlab. apply length_seq.
Qed.

Lemma convert_rows_sorted k rs rs' :
  convert_rows L k rs = Returned rs' ->
  StronglySorted (fun r1 r2 => label r1 < label r2) rs' /\
  Forall (fun r => k <= label r) rs'.
Proof.
  revert k rs'. induction rs as [|raw rs IH]; intros k rs'; simpl.
  - intros [= <-]. split; constructor.
  - unfold convert_row.
    destruct (to_datetime L (raw_COMMIT_DATE raw)) as [e|d]; [done|].
    destruct (convert_rows L (S k) rs) as [e|rs''] eqn:Hrs; [done|].
    intros [= <-]. destruct (IH (S k) rs'' Hrs) as [Hsorted Hlow]. split.
    + constructor; [done|]. eapply Forall_impl; [exact Hlow|]. simpl. intros; lia.
    + constructor; [simpl; lia|]. eapply Forall_impl; [exact Hlow|]. simpl. intros; lia.
Qed.

Lemma sorted_labels_filter (P : row -> Prop) `{forall r, Decision (P r)} (l : list row) :
  StronglySorted (fun r1 r2 => label r1 < label r2) l ->
  StronglySorted (fun r1 r2 => label r1 < label r2) (filter P l).
Proof.
  induction 1 as [|r l Hl IH Hr]; [constructor|].
  rewrite filter_cons. destruct (decide (P r)); [|done].
  constructor; [done|]. apply Forall_forall. intros r' [_ Hr']%list_elem_of_filter.
  rewrite Forall_forall in Hr. by apply Hr.
Qed.

(** X1: the cleaning keeps the rows of the file in their order, and drops no
    row that is complete: a row whose date parses to a timestamp, whose
    SQALE_INDEX is a number and that misses no other field is in the cleaned
    frame, converted, under its position in the file. *)
Theorem clean_keeps_complete_rows raw df :
  clean L raw = Returned df ->
  StronglySorted (fun r1 r2 => label r1 < label r2) (rows df) /\
  length (rows df) <= length (raw_rows raw) /\
  forall i raw_r d,
    raw_rows raw !! i = Some raw_r ->
    to_datetime L (raw_COMMIT_DATE raw_r) = Returned (Some d) ->
    is_nan (to_numeric_coerce L (raw_SQALE_INDEX raw_r)) = false ->
    Forall (fun c => isna c = false) (raw_others raw_r) ->
    Row i (Some d) (to_numeric_coerce L (raw_SQALE_INDEX raw_r)) (raw_others raw_r)
      ∈ rows df.
Proof.
  unfold clean. destruct (convert_rows L 0 (raw_rows raw)) as [e|rs] eqn:Hrs; [done|].
  intros [= <-]. unfold dropna. cbn [rows].
  pose proof (convert_rows_length 0 _ _ Hrs) as Hlen.
  pose proof (convert_rows_sorted 0 _ _ Hrs) as [Hsorted _].
  pose proof (convert_rows_spec L 0 _ _ Hrs) as [_ Hlook].
  split; [by apply sorted_labels_filter|]. split.
  { rewrite <- Hlen. apply length_filter. }
  intros i raw_r d Hi Hd Hs Ho.
  destruct (lookup_lt_is_Some_2 rs i) as [r Hr].
  { rewrite Hlen. by eapply lookup_lt_Some. }
  destruct (Hlook i r Hr) as (raw_r' & Hi' & Hlab & Hdate & Hsq & Hoth).
  rewrite Hi in Hi'. injection Hi' as <-.
  rewrite Hd in Hdate. injection Hdate as Hdate.
  assert (r = Row i (Some d) (to_numeric_coerce L (raw_SQALE_INDEX raw_r)) (raw_others raw_r))
    as ->.
  { destruct r; simpl in *. by subst. }
  apply list_elem_of_filter. split; [|by eapply list_elem_of_lookup_2].
  unfold row_complete. cbn [COMMIT_DATE SQALE_INDEX others]. rewrite Hs. simpl.
  apply forallb_forall. intros c Hc. rewrite Forall_forall in Ho.
  rewrite (Ho c); [done|]. by apply list_elem_of_In.
Qed.

Lemma convert_rows_raises k rs e :
  convert_rows L k rs = Raised e <->
  exists i raw_r,
    rs !! i = Some raw_r /\
    to_datetime L (raw_COMMIT_DATE raw_r) = Raised e /\
    forall j raw_j, j < i -> rs !! j = Some raw_j ->
      returned (to_datetime L (raw_COMMIT_DATE raw_j)) = true.
Proof.
  revert k. induction rs as [|raw rs IH]; intros k; simpl.
  - split; [done|]. by intros (i & raw_r & Hi & _).
  - unfold convert_row.
    destruct (to_datetime L (raw_COMMIT_DATE raw)) as [e0|d] eqn:Hd.
    + split.
      * intros [= <-]. exists 0, raw. split; [done|]. split; [done|]. intros; lia.
      * intros ([|i] & raw_r & Hi & He & Hbefore).
        -- simpl in Hi. injection Hi as <-. congruence.
        -- specialize (Hbefore 0 raw ltac:(lia) eq_refl). by rewrite Hd in Hbefore.
    + specialize (IH (S k)).
      destruct (convert_rows L (S k) rs) as [e1|rs'].
      * split.
        -- intros [= <-]. destruct (proj1 IH eq_refl) as (i & raw_r & Hi & He & Hbefore).
           exists (S i), raw_r. split; [done|]. split; [done|].
           intros [|j] raw_j Hj Hraw; simpl in Hraw.
           ++ injection Hraw as <-. by rewrite Hd.
           ++ apply (Hbefore j); [lia|done].
        -- intros ([|i] & raw_r & Hi & He & Hbefore); simpl in Hi.
           ++ injection Hi as <-. congruence.
           ++ f_equal. enough (Raised e1 = Raised e :> outcome (list row)) by congruence.
              apply IH. exists i, raw_r. split; [done|]. split; [done|].
              intros j raw_j Hj Hraw. apply (Hbefore (S j)); [lia|done].
      * split; [done|].
        intros ([|i] & raw_r & Hi & He & Hbefore); simpl in Hi.
        -- injection Hi as <-. congruence.
        -- enough (Returned rs' = Raised e :> outcome (list row)) by done.
           apply IH. exists i, raw_r. split; [done|]. split; [done|].
           intros j raw_j Hj Hraw. apply (Hbefore (S j)); [lia|done].
Qed.

(** X2: the cleaning fails exactly when some COMMIT_DATE of the file does not
    convert, with the exception of the first such row, whatever else that
    row holds (also a row that [dropna] would have dropped); a missing
    date never fails.  [trigger_prediction] then raises that exception. *)
Theorem clean_raises_on_first_bad_date raw e :
  (clean L raw = Raised e <->
   exists i raw_r,
     raw_rows raw !! i = Some raw_r /\
     to_datetime L (raw_COMMIT_DATE raw_r) = Raised e /\
     forall j raw_j, j < i -> raw_rows raw !! j = Some raw_j ->
       returned (to_datetime L (raw_COMMIT_DATE raw_j)) = true) /\
  (forall raw_r, raw_COMMIT_DATE raw_r = NA ->
     to_datetime L (raw_COMMIT_DATE raw_r) = Returned None) /\
  (forall df_path project_name periodicity seasonality w,
     read_csv L df_path = Returned raw -> clean L raw = Raised e ->
     trigger_prediction L df_path project_name periodicity seasonality w =
     (Raised e,
      add_events w [Call_trigger_prediction df_path project_name periodicity seasonality])).
Proof.
  split; [|split].
  - rewrite <- (convert_rows_raises 0). unfold clean.
    destruct (convert_rows L 0 (raw_rows raw)) as [e0|rs];
      split; intros H; try discriminate H; injection H as ->; reflexivity.
  - by intros raw_r ->.
  - intros df_path project_name periodicity seasonality w Hread Hclean.
    rewrite trigger_prediction_spec. unfold prepare. by rewrite Hread, Hclean.
Qed.

End CleanMore.

(** At the demo file: row 5 is complete and kept under label 5. *)
Lemma clean_keeps_complete_rows_witness :
  Row 5 (Some 10%Z) 14 [Num 6%float] ∈ rows Demo.cleaned.
Proof.
  assert (clean Demo.lib Demo.csv = Returned Demo.cleaned) as Hclean.
  { vm_compute. reflexivity. }
  destruct (clean_keeps_complete_rows Demo.lib Demo.csv Demo.cleaned Hclean)
    as (_ & _ & Hkept).
  apply (Hkept 5 (RawRow (Text "2020-03-15") (Num 14) [Num 6%float]) 10%Z);
    [reflexivity | reflexivity | reflexivity | by repeat constructor].
Defined.

(** ** More on rounding, splitting and names *)

(** X3: [round] returns a nearest integer, the even one of the two on a tie:
    for a float [m * 2^e] (or its opposite), the result [r] is [m * 2^e]
    itself when [e >= 0], and otherwise [r * 2^-e] is within half of
    [2^-e] of [m], with [r] even when exactly half-way.  Infinities and NaN
    raise. *)
Theorem py_round_nearest (x : float) :
  match Prim2SF x with
  | S754_zero _ => py_round x = Returned 0%Z
  | S754_finite s m e =>
      exists r,
        py_round x = Returned (if s then (- r)%Z else r) /\
        (0 <= r)%Z /\
        ((0 <= e)%Z -> r = (Z.pos m * 2 ^ e)%Z) /\
        ((e < 0)%Z ->
         (2 * Z.abs (Z.pos m - r * 2 ^ (- e)) <= 2 ^ (- e))%Z /\
         ((2 * Z.abs (Z.pos m - r * 2 ^ (- e)) = 2 ^ (- e))%Z -> Z.even r = true))
  | S754_infinity _ => exists msg, py_round x = Raised (OverflowError msg)
  | S754_nan => exists msg, py_round x = Raised (ValueError msg)
  end.
Proof.
  unfold py_round. destruct (Prim2SF x) as [s|s| |s m e]; [done|by eexists|by eexists|].
  exists (PyFloat.round_half_even m e). split; [done|].
  unfold PyFloat.round_half_even.
  destruct (Z.leb_spec 0 e) as [He|He].
  - split; [lia|]. split; [done|lia].
  - set (d := (2 ^ (- e))%Z).
    assert (0 < d)%Z as Hd by (apply Z.pow_pos_nonneg; lia).
    pose proof (Z.div_mod (Z.pos m) d ltac:(lia)) as Hdm.
    pose proof (Z.mod_pos_bound (Z.pos m) d Hd) as Hmod.
    assert (0 <= Z.pos m / d)%Z as Hq by (apply Z.div_pos; lia).
    set (q := (Z.pos m / d)%Z) in *. set (r := (Z.pos m mod d)%Z) in *.
    destruct (Z.compare_spec (2 * r) d) as [Heq|Hlt|Hgt].
    + destruct (Z.even q) eqn:Heven.
      * split; [lia|]. split; [lia|]. intros _. split; [nia|done].
      * split; [lia|]. split; [lia|]. intros _. split; [nia|]. intros _.
        rewrite Z.even_add, Heven. reflexivity.
    + split; [lia|]. split; [lia|]. intros _. split; nia.
    + split; [lia|]. split; [lia|]. intros _. split; nia.
Qed.

(** X4: for a frame of up to 3000 rows the split returns: the training frame
    has the [round(0.8 * n)] first rows and the test frame the others.  The
    test frame is empty exactly when the frame has fewer than three rows,
    the training frame only when the frame is empty; from five rows on the
    test frame is no longer than a quarter of the training frame plus one
    row. *)
Theorem train_test_split_sizes df :
  let n := length (rows df) in
  (Z.of_nat n <= 3000)%Z ->
  exists training_df testing_df,
    train_test_split df = Returned (training_df, testing_df) /\
    length (rows training_df) = Z.to_nat ((8 * Z.of_nat n + 5) / 10) /\
    length (rows testing_df) = n - Z.to_nat ((8 * Z.of_nat n + 5) / 10) /\
    (rows testing_df = [] <-> n <= 2) /\
    (rows training_df = [] <-> n = 0) /\
    4 * length (rows testing_df) <= length (rows training_df) + 4.
Proof.
  cbv zeta. intros Hsmall.
  pose proof (split_point_exact 3000 df split_point_exact_3000 Hsmall) as Hsp.
  unfold train_test_split. rewrite Hsp. eexists _, _. split; [reflexivity|].
  unfold iloc_to, iloc_from. cbn [rows].
  set (n := length (rows df)) in *.
  assert (0 <= (8 * Z.of_nat n + 5) / 10 <= Z.of_nat n)%Z as Hrange.
  { split; [apply Z.div_pos; lia | apply Z.lt_succ_r, Z.div_lt_upper_bound; lia]. }
  rewrite slice_bound_in_range by done.
  set (k := Z.to_nat ((8 * Z.of_nat n + 5) / 10)).
  assert (10 * Z.of_nat k <= 8 * Z.of_nat n + 5 < 10 * Z.of_nat k + 10)%Z as Hk.
  { unfold k. rewrite Z2Nat.id by lia.
    pose proof (Z.div_mod (8 * Z.of_nat n + 5) 10 ltac:(lia)).
    pose proof (Z.mod_pos_bound (8 * Z.of_nat n + 5) 10 ltac:(lia)). lia. }
  assert (length (take k (rows df)) = k) as Htake by (rewrite length_take; lia).
  assert (length (drop k (rows df)) = n - k) as Hdrop by (rewrite length_drop; lia).
  split; [done|]. split; [done|]. split; [|split].
  - rewrite <- length_zero_iff_nil, Hdrop. lia.
  - rewrite <- length_zero_iff_nil, Htake. lia.
  - rewrite Htake, Hdrop. lia.
Qed.

(** At the cleaned demo frame of seven rows: six train, one tests. *)
Lemma train_test_split_sizes_witness :
  exists training_df testing_df,
    train_test_split Demo.cleaned = Returned (training_df, testing_df) /\
    length (rows training_df) = 6 /\ length (rows testing_df) = 1.
Proof.
  destruct (train_test_split_sizes Demo.cleaned ltac:(vm_compute; discriminate))
    as (training_df & testing_df & Hsplit & Htrain & Htest & _).
  exists training_df, testing_df. split; [exact Hsplit|]. split; [exact Htrain | exact Htest].
Defined.

Lemma substring_prefix (a b : string) :
  String.substring 0 (String.length a) (a ++ b)%string = a.
Proof. induction a as [|c a IH]; simpl; [by destruct b|]. by rewrite IH. Qed.

Lemma substring_nothing (s : string) : String.substring 0 0 s = "".
Proof. by destruct s. Qed.

Lemma length_append (a b : string) :
  String.length (a ++ b)%string = String.length a + String.length b.
Proof. induction a as [|c a IH]; simpl; [done|]. by rewrite IH. Qed.

(** X5: the project name is the file name without its last four characters:
    the stem of a name with a three-letter extension such as [.csv],
    whatever the extension is, and the empty name for a file name of four
    characters or fewer. *)
Theorem drop_last4_stem :
  (forall stem ext, String.length ext = 4 -> drop_last4 (stem ++ ext)%string = stem) /\
  (forall name, String.length name <= 4 -> drop_last4 name = "") /\
  (forall name, String.length (drop_last4 name) = String.length name - 4).
Proof.
  assert (forall n, slice_bound n (-4) = n - 4) as Hbound.
  { intros n. unfold slice_bound. simpl. lia. }
  split; [|split].
  - intros stem ext Hext. unfold drop_last4.
    rewrite Hbound, length_append, Hext.
    replace (String.length stem + 4 - 4) with (String.length stem) by lia.
    apply substring_prefix.
  - intros name Hlen. unfold drop_last4. rewrite Hbound.
    replace (String.length name - 4) with 0 by lia. apply substring_nothing.
  - intros name. unfold drop_last4. rewrite Hbound.
    assert (forall k s, k <= String.length s ->
              String.length (String.substring 0 k s) = k) as Hsub.
    { intros k. induction k as [|k IH]; intros s Hk.
      - by rewrite substring_nothing.
      - destruct s as [|c s]; simpl in *; [lia|]. rewrite IH; [done|lia]. }
    apply Hsub. lia.
Qed.

(** ** More on the search: redundant penalties, and where it stops *)

Section SearchMore.

Variable L : Library.
Variables (training_df : frame) (y_train : list float) (x_train : xframe).
Variables (y_test : list float) (testing_df : frame) (seasonality : option Z).

Local Abbreviation evaluate_ := (evaluate L training_df x_train y_test testing_df seasonality).
Local Abbreviation events_ := (config_events L training_df x_train y_test testing_df seasonality).
Local Abbreviation params_ := (fun c : Config =>
  dlt_params_of x_train seasonality (trend c) (estimator c) (penalty c)).
Local Abbreviation run_ :=
  (hypertune_dlt_model L training_df y_train x_train y_test testing_df seasonality).

(** A combination is evaluated through the arguments of [DLT(...)] only. *)
Lemma evaluate_by_params c c' : params_ c' = params_ c -> evaluate_ c' = evaluate_ c.
Proof. intros H. unfold evaluate. by rewrite H. Qed.

Lemma earlier_twin_excluded (best : float) m c i :
  evaluate_ c = Returned (m, best) -> (best <? infinity)%float = true ->
  (forall j c' r, grid !! j = Some c' -> evaluate_ c' = Returned r -> j < i ->
     is_nan (snd r) = true \/ (best <? snd r)%float = true) ->
  forall j c', j < i -> grid !! j = Some c' -> params_ c' = params_ c -> False.
Proof.
  intros Hc Hinf Hfirst j c' Hj Hc' Hparams.
  pose proof (evaluate_by_params c c' Hparams) as Hsame. rewrite Hc in Hsame.
  destruct (Hfirst j c' (m, best) Hc' Hsame Hj) as [Hnan|Hlt]; simpl in *.
  - apply FloatOrder.lt_not_nan in Hinf as [Hinf _]. congruence.
  - rewrite FloatOrder.lt_irrefl in Hlt. discriminate.
Qed.

Ltac find_twin H Hcols n :=
  first
    [ solve [ eapply (H n);
              [ lia | reflexivity
              | unfold dlt_params_of; cbn [trend estimator penalty];
                rewrite Hcols; reflexivity ] ]
    | match n with S ?k => find_twin H Hcols k end ].

(** X6: without regressor columns the penalty is lost on the way to
    [DLT(...)]: for every penalty other than [None] the sign list is empty,
    so the combinations that differ in such a penalty only construct the
    same model, score the same, and the first of them wins the tie.  The
    search then never returns the penalty 0.1 or 1.0. *)
Theorem hypertune_without_regressors w bm c :
  x_columns x_train = [] ->
  fst (hypertune_dlt_model L training_df y_train x_train y_test testing_df seasonality w)
    = Returned (bm, Some c) ->
  (penalty c = None \/ penalty c = Some 0.01%float) /\
  forall t e p p',
    dlt_params_of x_train seasonality t e (Some p) =
    dlt_params_of x_train seasonality t e (Some p').
Proof.
  intros Hcols Hrun. split.
  2: { intros t e p p'. unfold dlt_params_of. by rewrite Hcols. }
  apply hypertune_returned_inv in Hrun as (s & _ & _ & Hbc & [_ Hbest] & _).
  rewrite <- Hbc in Hbest. destruct Hbest as (i & m & Hi & Hc & _ & Hinf & Hfirst).
  pose proof (earlier_twin_excluded (best_mae L s) m c i Hc Hinf Hfirst) as Htwin.
  clear Hfirst Hc Hbc.
  do 32 (destruct i as [|i];
    [ cbn in Hi; injection Hi as <-;
      first [ by left | by right | exfalso; find_twin Htwin Hcols 31 ] | ]).
  cbn in Hi. discriminate Hi.
Qed.

Lemma config_events_raised c e :
  evaluate_ c = Raised e ->
  announced (events_ c) = [c] /\ scored (events_ c) = [] /\ best_announced (events_ c) = [].
Proof.
  unfold evaluate, config_events, announced, scored, best_announced.
  destruct c as [t es p]. cbn [trend estimator penalty].
  destruct (DLT L _) as [e1|m0]; [done|].
  destruct (fit L m0 training_df) as [e2|m1]; [done|].
  destruct (predict L m1 testing_df) as [e3|predicted]; [done|].
  destruct (mean_absolute_error L y_test predicted) as [e4|mae]; done.
Qed.

Lemma config_events_no_best c : best_announced (events_ c) = [].
Proof.
  unfold config_events, best_announced.
  destruct (DLT L _) as [e1|m0]; [done|].
  destruct (fit L m0 training_df) as [e2|m1]; [done|].
  destruct (predict L m1 testing_df) as [e3|predicted]; [done|].
  destruct (mean_absolute_error L y_test predicted) as [e4|mae]; done.
Qed.

Lemma search_events_first_failure cs i c e :
  cs !! i = Some c -> evaluate_ c = Raised e ->
  (forall j c', j < i -> cs !! j = Some c' -> returned (evaluate_ c') = true) ->
  search_events L training_df x_train y_test testing_df seasonality cs =
    flat_map events_ (take i cs) ++ events_ c /\
  Forall (fun c' => returned (evaluate_ c') = true) (take i cs).
Proof.
  revert i. induction cs as [|c0 cs IH]; intros i Hi Hc Hbefore; [done|].
  destruct i as [|i]; cbn [search_events take flat_map].
  - injection Hi as ->. rewrite Hc. cbn. by rewrite app_nil_r.
  - pose proof (Hbefore 0 c0 ltac:(lia) eq_refl) as H0. rewrite H0.
    destruct (IH i Hi Hc) as [Hevs Hall].
    { intros j c' Hj Hc'. apply (Hbefore (S j) c'); [lia|done]. }
    split; [by rewrite Hevs, app_assoc | by constructor].
Qed.

Lemma search_events_no_best cs :
  best_announced (flat_map events_ cs) = [].
Proof.
  unfold best_announced. induction cs as [|c cs IH]; [done|].
  cbn [flat_map]. rewrite flat_map_app, IH, app_nil_r. apply config_events_no_best.
Qed.

(** X7: an exception ends the search on the spot: when the combination at
    position [i] is the first whose evaluation raises, the search raises
    that exception after announcing the combinations up to and including
    it and scoring those before it; no later combination is tried, no best
    configuration is printed, and files and directories are as they
    were. *)
Theorem hypertune_stops_at_first_exception w i c e :
  grid !! i = Some c -> evaluate_ c = Raised e ->
  (forall j c', j < i -> grid !! j = Some c' -> returned (evaluate_ c') = true) ->
  exists evs,
    hypertune_dlt_model L training_df y_train x_train y_test testing_df seasonality w
      = (Raised e, add_events w evs) /\
    announced evs = take (S i) grid /\
    map fst (scored evs) = take i grid /\
    best_announced evs = [].
Proof.
  intros Hi Hc Hbefore.
  destruct (search_events_first_failure grid i c e Hi Hc Hbefore) as [Hevs Hall].
  eexists. split.
  { rewrite hypertune_spec.
    by rewrite (run_search_first_failure L _ _ _ _ _ grid (initial_search L) i c e Hi Hc
                  Hbefore). }
  rewrite Hevs.
  destruct (search_trace_read L training_df x_train y_test testing_df seasonality
              (take i grid) Hall) as (Ha & _ & _ & _ & Hs).
  destruct (config_events_raised c e Hc) as (Hca & Hcs & Hcb).
  cbn zeta in *. unfold announced, scored, best_announced in *.
  rewrite !flat_map_app, map_app, Ha, Hs, Hca, Hcs, Hcb. cbn [map]. rewrite !app_nil_r.
  split; [by rewrite (take_S_r grid i c Hi)|]. split; [done|].
  apply search_events_no_best.
Qed.

Lemma scored_config_events cs i c m mae :
  cs !! i = Some c -> evaluate_ c = Returned (m, mae) ->
  (c, mae) ∈ scored (flat_map events_ cs).
Proof.
  intros Hi Hc. unfold scored. apply list_elem_of_In, in_flat_map.
  exists (Print (Msg_mae (trend c) (estimator c) (penalty c) mae)). split.
  - apply in_flat_map. exists c. split.
    + apply list_elem_of_In. by eapply list_elem_of_lookup_2.
    + rewrite (config_events_returned L _ _ _ _ _ c m mae Hc). cbn. tauto.
  - destruct c. cbn. by left.
Qed.

(** X8: the last line a returning search prints is its only "Best
    configuration" line, and it tells what the search returns: the
    configuration returned, with the MAE that a "MAE for" line of the same
    run reports for it; when no configuration is returned, it tells [None]
    and [inf]. *)
Theorem hypertune_prints_what_it_returns w bm bc :
  let run := hypertune_dlt_model L training_df y_train x_train y_test testing_df seasonality in
  fst (run w) = Returned (bm, bc) ->
  exists evs best,
    trace (snd (run w)) = trace w ++ evs ++ [Print (Msg_best bc best)] /\
    best_announced evs = [] /\
    match bc with
    | Some c => (c, best) ∈ scored evs
    | None => best = infinity
    end.
Proof.
  cbv zeta. intros Hrun.
  destruct (hypertune_returned_inv L _ y_train _ _ _ _ w bm bc Hrun)
    as (s & Hs & _ & -> & [_ Hbest] & Hall).
  rewrite hypertune_spec, Hs. cbn [snd add_events trace].
  rewrite (search_events_returned L _ _ _ _ _ grid Hall).
  exists (flat_map events_ grid), (best_mae L s).
  split; [done|]. split; [apply search_events_no_best|].
  destruct (best_config L s) as [c|].
  - destruct Hbest as (i & m & Hi & Hc & _). by eapply scored_config_events.
  - by destruct Hbest.
Qed.

End SearchMore.

(** With the demo frames stripped of their regressor column, the search
    returns a combination without penalty. *)
Lemma hypertune_without_regressors_witness :
  penalty {| trend := "loglinear"; estimator := "stan-mcmc"; penalty := None |} = None \/
  penalty {| trend := "loglinear"; estimator := "stan-mcmc"; penalty := None |}
    = Some 0.01%float.
Proof.
  eassert (fst (hypertune_dlt_model Demo.lib Demo.training (SQALE_values Demo.training)
                  (XFrame [] []) (SQALE_values Demo.testing) Demo.testing (Some 26%Z)
                  Demo.empty_world) = Returned (_, Some _)) as Hrun.
  { vm_compute. reflexivity. }
  exact (proj1 (hypertune_without_regressors Demo.lib Demo.training
                  (SQALE_values Demo.training) (XFrame [] []) (SQALE_values Demo.testing)
                  Demo.testing (Some 26%Z) Demo.empty_world _ _ eq_refl Hrun)).
Defined.

(** With a [DLT(...)] that raises for the [flat] trend, the search stops at
    the seventeenth combination. *)
Lemma hypertune_stops_at_first_exception_witness :
  exists evs,
    hypertune_dlt_model Demo.lib_flat_raises Demo.training (SQALE_values Demo.training)
      (drop_date_and_response Demo.training) (SQALE_values Demo.testing) Demo.testing
      (Some 26%Z) Demo.empty_world
      = (Raised (LibraryError "flat trend"), add_events Demo.empty_world evs) /\
    length (announced evs) = 17.
Proof.
  destruct (hypertune_stops_at_first_exception Demo.lib_flat_raises Demo.training
              (SQALE_values Demo.training) (drop_date_and_response Demo.training)
              (SQALE_values Demo.testing) Demo.testing (Some 26%Z) Demo.empty_world
              16 {| trend := "flat"; estimator := "stan-map"; penalty := None |}
              (LibraryError "flat trend"))
    as (evs & Hrun & Hann & _).
  - by vm_compute.
  - by vm_compute.
  - intros j c' Hj Hc'.
    do 16 (destruct j as [|j]; [injection Hc' as <-; by vm_compute|]). lia.
  - exists evs. split; [exact Hrun|]. rewrite Hann. reflexivity.
Defined.

(** The demo search prints the configuration it returns with its score. *)
Lemma hypertune_prints_what_it_returns_witness :
  exists evs best,
    trace (snd (hypertune_dlt_model Demo.lib Demo.training (SQALE_values Demo.training)
                  (drop_date_and_response Demo.training) (SQALE_values Demo.testing)
                  Demo.testing (Some 26%Z) Demo.empty_world))
      = trace Demo.empty_world ++ evs ++
        [Print (Msg_best (Some {| trend := "loglinear"; estimator := "stan-mcmc";
                                  penalty := Some 0.01%float |}) best)] /\
    ({| trend := "loglinear"; estimator := "stan-mcmc"; penalty := Some 0.01%float |}, best)
      ∈ scored evs.
Proof.
  eassert (fst (hypertune_dlt_model Demo.lib Demo.training (SQALE_values Demo.training)
                  (drop_date_and_response Demo.training) (SQALE_values Demo.testing)
                  Demo.testing (Some 26%Z) Demo.empty_world)
           = Returned (_, Some {| trend := "loglinear"; estimator := "stan-mcmc";
                                  penalty := Some 0.01%float |})) as Hrun.
  { vm_compute. reflexivity. }
  destruct (hypertune_prints_what_it_returns Demo.lib Demo.training
              (SQALE_values Demo.training) (drop_date_and_response Demo.training)
              (SQALE_values Demo.testing) Demo.testing (Some 26%Z) Demo.empty_world _ _ Hrun)
    as (evs & best & Htrace & _ & Hscored).
  exists evs, best. split; [exact Htrace|exact Hscored].
Defined.

(** ** Runs only add to the world *)

Lemma extends_refl w : extends w w.
Proof.
  split; [|split; [done|]].
  - intros path old H. exists []. by rewrite app_nil_r.
  - exists []. by rewrite app_nil_r.
Qed.

Lemma extends_trans w1 w2 w3 : extends w1 w2 -> extends w2 w3 -> extends w1 w3.
Proof.
  intros (Hf1 & Hd1 & evs1 & Ht1) (Hf2 & Hd2 & evs2 & Ht2). split; [|split].
  - intros path old H. destruct (Hf1 path old H) as [new1 H1].
    destruct (Hf2 path _ H1) as [new2 H2]. exists (new1 ++ new2). by rewrite app_assoc.
  - by transitivity (dirs w2).
  - exists (evs1 ++ evs2). by rewrite Ht2, Ht1, app_assoc.
Qed.

Lemma extends_add_events w evs : extends w (add_events w evs).
Proof.
  split; [|split; [done|by exists evs]].
  intros path old H. exists []. by rewrite app_nil_r.
Qed.

Lemma only_adds_ret {A} (a : A) : only_adds (ret a).
Proof. intros w. apply extends_refl. Qed.

Lemma only_adds_raise {A} e : only_adds (@raise A e).
Proof. intros w. apply extends_refl. Qed.

Lemma only_adds_lift {A} (o : outcome A) : only_adds (lift o).
Proof. intros w. apply extends_refl. Qed.

Lemma only_adds_emit ev : only_adds (emit ev).
Proof. intros w. apply (extends_add_events w [ev]). Qed.

Lemma only_adds_print m : only_adds (print m).
Proof. apply only_adds_emit. Qed.

Lemma only_adds_bind {A B} (m : M A) (f : A -> M B) :
  only_adds m -> (forall a, only_adds (f a)) -> only_adds (bind m f).
Proof.
  intros Hm Hf w. unfold bind. specialize (Hm w).
  destruct (m w) as [[e|a] w1]; [done|].
  exact (extends_trans _ _ _ Hm (Hf a w1)).
Qed.

Lemma only_adds_for_each {A S} (xs : list A) (body : A -> S -> M S) s :
  (forall x s', only_adds (body x s')) -> only_adds (for_each xs body s).
Proof.
  intros Hbody. revert s. induction xs as [|x xs IH]; intros s; cbn [for_each].
  - apply only_adds_ret.
  - apply only_adds_bind; [apply Hbody|apply IH].
Qed.

Lemma only_adds_py_index {A} (l : list A) i : only_adds (py_index l i).
Proof. unfold py_index. destruct (l !! i); [apply only_adds_ret|apply only_adds_raise]. Qed.

Lemma only_adds_makedirs path : only_adds (makedirs path).
Proof.
  intros w. unfold makedirs. destruct (files w !! path); [apply extends_refl|].
  split; [|split].
  - intros p old H. exists []. by rewrite app_nil_r.
  - cbn. apply union_subseteq_l.
  - exists []. cbn. by rewrite app_nil_r.
Qed.

(** The file is written afresh only where [os.path.isfile] found none. *)
Lemma only_adds_save {A} r path (k : unit -> M A) :
  (forall u, only_adds (k u)) ->
  only_adds (bind (isfile path) (fun exists_ =>
    bind (if negb exists_ then to_csv_write r path else to_csv_append r path) k)).
Proof.
  intros Hk w. unfold bind at 1, isfile.
  destruct (files w !! path) as [old|] eqn:Hold.
  - rewrite bool_decide_true by eauto. cbn [negb]. unfold bind, to_csv_append.
    destruct (bool_decide (path ∈ dirs w)); [apply extends_refl|].
    eapply extends_trans; [|apply Hk]. split; [|split; [done|]].
    + intros p old' H. cbn. destruct (decide (p = path)) as [->|Hne].
      * rewrite lookup_insert_eq. rewrite Hold in *. injection H as <-. cbn. by eexists.
      * rewrite lookup_insert_ne by done. exists []. by rewrite app_nil_r.
    + exists []. cbn. by rewrite app_nil_r.
  - rewrite bool_decide_false by (intros [? [=]]). cbn [negb]. unfold bind, to_csv_write.
    destruct (bool_decide (path ∈ dirs w)); [apply extends_refl|].
    eapply extends_trans; [|apply Hk]. split; [|split; [done|]].
    + intros p old' H. cbn. destruct (decide (p = path)) as [->|Hne]; [congruence|].
      rewrite lookup_insert_ne by done. exists []. by rewrite app_nil_r.
    + exists []. cbn. by rewrite app_nil_r.
Qed.

Ltac only_adds_step :=
  first
    [ apply only_adds_ret | apply only_adds_raise | apply only_adds_lift
    | apply only_adds_emit | apply only_adds_print | apply only_adds_makedirs
    | apply only_adds_py_index
    | apply only_adds_save; intros ?
    | apply only_adds_for_each; intros ? ?
    | apply only_adds_bind; [|intros ?]
    | match goal with |- only_adds (match ?x with _ => _ end) => destruct x end ].

Section OnlyAdds.

Variable L : Library.

Lemma only_adds_hypertune training_df y_train x_train y_test testing_df seasonality :
  only_adds (hypertune_dlt_model L training_df y_train x_train y_test testing_df seasonality).
Proof. unfold hypertune_dlt_model, hypertune_body. repeat only_adds_step. Qed.

Lemma only_adds_trigger_prediction df_path project_name periodicity seasonality :
  only_adds (trigger_prediction L df_path project_name periodicity seasonality).
Proof.
  unfold trigger_prediction. cbv zeta.
  do 4 (apply only_adds_bind; [try only_adds_step|intros ?]).
  only_adds_step.
  apply only_adds_bind; [apply only_adds_hypertune|intros ?].
  repeat only_adds_step.
Qed.

Lemma only_adds_bayesian_orbit : only_adds (bayesian_orbit L).
Proof.
  unfold bayesian_orbit.
  do 3 (apply only_adds_bind; [only_adds_step|intros ?]).
  apply only_adds_for_each. intros i []. unfold bayesian_orbit_body.
  apply only_adds_bind; [only_adds_step|intros name].
  destruct (String.eqb name ".DS_Store"); [only_adds_step|].
  repeat first [ apply only_adds_bind; [first [apply only_adds_trigger_prediction
                                               | only_adds_step]|intros ?]
               | only_adds_step ].
Qed.

(** X9: whatever [trigger_prediction] is called with and however the call ends,
    it destroys nothing: every file that was there is still there and
    begins with the lines it had, every directory is still there, and the
    trace has been added to at its end only.  In particular the assessment
    file is opened in mode ['w'] only where there was none. *)
Theorem trigger_prediction_never_overwrites df_path project_name periodicity seasonality w :
  let after := snd (trigger_prediction L df_path project_name periodicity seasonality w) in
  (forall path old, files w !! path = Some old ->
     exists new, files after !! path = Some (old ++ new)) /\
  dirs w ⊆ dirs after /\
  exists evs, trace after = trace w ++ evs.
Proof. apply only_adds_trigger_prediction. Qed.

(** X10: a whole run of [bayesian_orbit], returning or raising, destroys
    nothing either: through all its projects and the three calls for each,
    every file that was there still begins with the lines it had, every
    directory is still there, and the trace has been added to at its end
    only. *)
Theorem bayesian_orbit_never_overwrites w :
  let after := snd (bayesian_orbit L w) in
  (forall path old, files w !! path = Some old ->
     exists new, files after !! path = Some (old ++ new)) /\
  dirs w ⊆ dirs after /\
  exists evs, trace after = trace w ++ evs.
Proof. apply only_adds_bayesian_orbit. Qed.

End OnlyAdds.

(** ** [trigger_prediction] without a periodicity *)

Section DefaultPeriodicity.

Variable L : Library.

Local Arguments output_dir : simpl never.
Local Arguments path_join : simpl never.

Lemma report_without_periodicity project_name testing_df best w :
  exists e evs,
    report L project_name None testing_df best w = (Raised e, add_events w evs) /\
    forall m c predicted v_mae v_mape v_mse v_rmse,
      best = (Some m, Some c) ->
      predict L m testing_df = Returned predicted ->
      MAE L predicted (SQALE_values testing_df) = Returned v_mae ->
      MAPE L predicted (SQALE_values testing_df) = Returned v_mape ->
      MSE L predicted (SQALE_values testing_df) = Returned v_mse ->
      RMSE L predicted (SQALE_values testing_df) = Returned v_rmse ->
      e = TypeError "expected str, bytes or os.PathLike object, not NoneType".
Proof.
  destruct best as [bm bc].
  unfold report, bind, lift, print, emit, raise, ret, add_events.
  destruct bm as [m|]; cbn [fst snd files dirs trace].
  2: { eexists _, []. rewrite app_nil_r. split; [by destruct w|]. by intros. }
  destruct (predict L m testing_df) as [e|predicted] eqn:Hp; cbn [fst snd files dirs trace].
  { eexists _, _. split; [done|]. intros ??????? [= -> ->]. congruence. }
  destruct (MAE L predicted _) as [e|v1] eqn:H1; cbn [fst snd files dirs trace].
  { eexists _, _. split; [done|]. intros ??????? [= -> ->]. congruence. }
  destruct (MAPE L predicted _) as [e|v2] eqn:H2; cbn [fst snd files dirs trace].
  { eexists _, _. split; [done|]. intros ??????? [= -> ->]. congruence. }
  destruct (MSE L predicted _) as [e|v3] eqn:H3; cbn [fst snd files dirs trace].
  { eexists _, _. split; [done|]. intros ??????? [= -> ->]. congruence. }
  destruct (RMSE L predicted _) as [e|v4] eqn:H4; cbn [fst snd files dirs trace].
  { eexists _, _. split; [done|]. intros ??????? [= -> ->]. congruence. }
  destruct bc as [c|]; cbn [fst snd files dirs trace].
  2: { eexists _, _. rewrite <- !app_assoc. split; [done|]. by intros. }
  eexists _, _. rewrite <- !app_assoc. split; [done|]. by intros.
Qed.

Lemma report_without_periodicity_trace project_name testing_df m c predicted
    v_mae v_mape v_mse v_rmse w :
  predict L m testing_df = Returned predicted ->
  MAE L predicted (SQALE_values testing_df) = Returned v_mae ->
  MAPE L predicted (SQALE_values testing_df) = Returned v_mape ->
  MSE L predicted (SQALE_values testing_df) = Returned v_mse ->
  RMSE L predicted (SQALE_values testing_df) = Returned v_rmse ->
  report L project_name None testing_df (Some m, Some c) w =
  (Raised (TypeError "expected str, bytes or os.PathLike object, not NoneType"),
   add_events w [Call_predict testing_df;
                 Print (Msg_final_MAE (round2 L v_mae));
                 Print (Msg_final_MAPE (round2 L v_mape));
                 Print (Msg_final_RMSE (round2 L v_rmse));
                 Print (Msg_final_MSE (round2 L v_mse))]).
Proof.
  intros Hp H1 H2 H3 H4.
  unfold report, bind, lift, print, emit, raise, ret, add_events.
  cbn [fst snd files dirs trace]. rewrite Hp. cbn [fst snd files dirs trace].
  rewrite H1, H2, H3, H4. cbn [fst snd files dirs trace].
  by rewrite <- !app_assoc.
Qed.

(** X11: [periodicity] defaults to [None], and a call that leaves it so cannot
    succeed.  Such a call never returns, and it creates no directory and
    changes no file.  Where the same call with a periodicity returns, the
    call without one does all the work first: it runs the whole search,
    asks the best model to predict and prints the four final metrics,
    printing and calling exactly what the call with a periodicity does
    before it saves, and only then raises the [TypeError] of
    [os.path.join]. *)
Theorem trigger_prediction_without_periodicity df_path project_name seasonality w :
  let run := trigger_prediction L df_path project_name None seasonality w in
  (exists e, fst run = Raised e) /\
  files (snd run) = files w /\
  dirs (snd run) = dirs w /\
  forall p rd,
    let run_p := trigger_prediction L df_path project_name (Some p) seasonality w in
    fst run_p = Returned rd ->
    fst run = Raised (TypeError "expected str, bytes or os.PathLike object, not NoneType") /\
    exists evs testing_df,
      trace (snd run) =
        trace w ++
        Call_trigger_prediction df_path project_name None seasonality :: evs ++
        [Call_predict testing_df;
         Print (Msg_final_MAE (r_MAE rd)); Print (Msg_final_MAPE (r_MAPE rd));
         Print (Msg_final_RMSE (r_RMSE rd)); Print (Msg_final_MSE (r_MSE rd))] /\
      trace (snd run_p) =
        trace w ++
        Call_trigger_prediction df_path project_name (Some p) seasonality :: evs ++
        [Call_predict testing_df;
         Print (Msg_final_MAE (r_MAE rd)); Print (Msg_final_MAPE (r_MAPE rd));
         Print (Msg_final_RMSE (r_RMSE rd)); Print (Msg_final_MSE (r_MSE rd));
         Print (Msg_saved project_name (output_dir L p))] /\
      announced evs = grid /\
      map fst (scored evs) = grid /\
      length (fitted evs) = 32 /\
      exists best,
        best_announced evs =
          [(Some {| trend := r_Trend rd; estimator := r_Estimator rd;
                    penalty := r_Penalty rd |}, best)].
Proof.
  cbv zeta. rewrite trigger_prediction_spec. cbv zeta.
  destruct (prepare L df_path) as [e|[training_df testing_df]] eqn:Hprep.
  { split; [by exists e|]. do 2 (split; [done|]). intros p rd H.
    apply trigger_prediction_returned in H as (? & ? & ? & ? & ? & ? & ? & ? & ? & ? & ?
                                               & Hprep' & _).
    congruence. }
  destruct (run_search _ _ _ _ _ _ grid _) as [e|s] eqn:Hs.
  { split; [by exists e|]. do 2 (split; [done|]). intros p rd H.
    apply trigger_prediction_returned in H as (? & ? & ? & ? & ? & ? & ? & ? & ? & ? & ?
                                               & Hprep' & Hs' & _).
    rewrite Hprep in Hprep'. injection Hprep' as <- <-. congruence. }
  match goal with |- context [report L ?a None ?c ?d ?e] =>
    destruct (report_without_periodicity a c d e) as (e0 & evs0 & Hrep & _) end.
  split; [rewrite Hrep; by exists e0|].
  split; [by rewrite Hrep|]. split; [by rewrite Hrep|]. clear e0 evs0 Hrep.
  intros p rd. rewrite (trigger_prediction_spec L df_path project_name (Some p)).
  cbv zeta. rewrite Hprep, Hs. intros H.
  pose proof (run_search_returned L _ _ _ _ _ _ _ _ Hs) as Hall.
  apply report_returned in H
    as (m & c & p' & predicted & v1 & v2 & v3 & v4 & Hm & Hc & Hp' & Hp & H1 & H2 & H3 & H4
        & Hrd & Hw).
  injection Hp' as <-. rewrite Hw, Hm, Hc.
  rewrite (report_without_periodicity_trace project_name testing_df m c predicted
             v1 v2 v3 v4 _ Hp H1 H2 H3 H4).
  cbn [fst snd]. split; [done|].
  rewrite (search_events_returned L _ _ _ _ _ grid Hall).
  destruct (search_trace_read L training_df (drop_date_and_response training_df)
              (SQALE_values testing_df) testing_df seasonality grid Hall)
    as (Ha & _ & Hf & _ & Hsc).
  cbv zeta in Ha, Hf, Hsc.
  eexists (flat_map _ grid ++ [Print (Msg_best (Some c) (best_mae L s))]), testing_df.
  rewrite Hrd. cbn [r_MAE r_MAPE r_RMSE r_MSE r_Trend r_Estimator r_Penalty].
  unfold add_events. cbn [trace].
  split; [by rewrite <- !app_assoc|]. split; [by rewrite <- !app_assoc|].
  unfold announced, scored, fitted, best_announced in *.
  rewrite !flat_map_app, map_app, Ha, Hsc, Hf. cbn [flat_map map app length].
  rewrite !app_nil_r, length_replicate.
  split; [done|]. split; [done|]. split; [done|].
  exists (best_mae L s).
  pose proof (search_events_no_best L training_df (drop_date_and_response training_df)
                (SQALE_values testing_df) testing_df seasonality grid) as Hnone.
  unfold best_announced in Hnone. rewrite Hnone. by destruct c.
Qed.

End DefaultPeriodicity.

(** The demo call for the monthly periodicity returns; without the
    periodicity it raises the [TypeError]. *)
Lemma trigger_prediction_without_periodicity_witness :
  fst (trigger_prediction Demo.lib "a.csv" "a" None (Some 12%Z) Demo.empty_world)
  = Raised (TypeError "expected str, bytes or os.PathLike object, not NoneType").
Proof.
  eassert (fst (trigger_prediction Demo.lib "a.csv" "a" (Some "monthly") (Some 12%Z)
                  Demo.empty_world) = Returned _) as Hrun.
  { vm_compute. reflexivity. }
  destruct (trigger_prediction_without_periodicity Demo.lib "a.csv" "a" (Some 12%Z)
              Demo.empty_world) as (_ & _ & _ & Hsome).
  exact (proj1 (Hsome "monthly" _ Hrun)).
Defined.

(** ** What a run of the driver leaves in the assessment files *)

Lemma fold_written_recorded rds before :
  fold_left (fun o r => Some (written o r)) rds before = recorded before rds.
Proof.
  destruct before as [old|]; cbn [recorded].
  - destruct rds; apply written_rows.
  - destruct rds as [|r rds]; [done|]. cbn [fold_left written]. by rewrite written_rows.
Qed.

Section DriverFiles.

Variable L : Library.
Variables (biweekly_files monthly_files complete_files : list string).

Local Arguments trigger_prediction : simpl never.
Local Arguments path_join : simpl never.
Local Arguments drop_last4 : simpl never.
Local Arguments String.eqb : simpl never.
Local Arguments output_csv : simpl never.

Local Abbreviation body :=
  (bayesian_orbit_body L (biweekly_data_path L) (monthly_data_path L)
     (complete_data_path L) biweekly_files monthly_files complete_files).
Local Abbreviation csv_b := (output_csv L "biweekly").
Local Abbreviation csv_m := (output_csv L "monthly").
Local Abbreviation csv_c := (output_csv L "complete").

Lemma body_skips i w :
  biweekly_files !! i = Some ".DS_Store" -> body i tt w = (Returned tt, w).
Proof.
  intros Hi. unfold bayesian_orbit_body, bind, py_index, ret. by rewrite Hi.
Qed.

Lemma trigger_prediction_row df_path project_name p seasonality w :
  match trigger_prediction L df_path project_name (Some p) seasonality w with
  | (Returned rd, w') =>
      r_Project rd = project_name /\ r_Model rd = "DLT" /\
      files w' = <[output_csv L p := written (files w !! output_csv L p) rd]> (files w)
  | (Raised _, _) => True
  end.
Proof.
  pose proof (trigger_prediction_returned L df_path project_name (Some p) seasonality w) as H.
  destruct (trigger_prediction L df_path project_name (Some p) seasonality w)
    as [[e|rd] w']; [done|].
  destruct (H rd eq_refl) as (? & ? & ? & ? & c & p' & ? & ? & ? & ? & ? & _ & _ & _ & _
                              & Hp' & _ & _ & _ & _ & _ & Hrd & Hfiles & _).
  injection Hp' as <-. cbn [snd] in Hfiles. rewrite Hrd at 1 2. done.
Qed.

Lemma body_files i w name :
  biweekly_files !! i = Some name -> name <> ".DS_Store" ->
  fst (body i tt w) = Returned tt ->
  exists r1 r2 r3,
    Forall (fun r => r_Project r = drop_last4 name /\ r_Model r = "DLT") [r1; r2; r3] /\
    files (snd (body i tt w)) =
      <[csv_c := written (files w !! csv_c) r3]>
        (<[csv_m := written (files w !! csv_m) r2]>
           (<[csv_b := written (files w !! csv_b) r1]> (files w))).
Proof.
  intros Hi Hds.
  destruct (output_paths_distinct L) as (_ & _ & _ & Hbm & Hbc & Hmc).
  unfold bayesian_orbit_body, bind, py_index, print, emit, ret, raise.
  rewrite Hi. cbn [fst snd files dirs trace].
  destruct (String.eqb_spec name ".DS_Store") as [|_]; [done|].
  cbn [fst snd files dirs trace].
  match goal with |- context [trigger_prediction L ?a ?b (Some ?c) ?d ?w] =>
    pose proof (trigger_prediction_row a b c d w) as H1;
    destruct (trigger_prediction L a b (Some c) d w) as [[e|r1] w1] end; [done|].
  cbn [fst snd files dirs trace] in *. destruct H1 as (Hp1 & Hm1 & Hf1).
  destruct (monthly_files !! i) as [monthly_name|]; [|done].
  cbn [fst snd files dirs trace].
  match goal with |- context [trigger_prediction L ?a ?b (Some ?c) ?d ?w] =>
    pose proof (trigger_prediction_row a b c d w) as H2;
    destruct (trigger_prediction L a b (Some c) d w) as [[e|r2] w2] end; [done|].
  cbn [fst snd files dirs trace] in *. destruct H2 as (Hp2 & Hm2 & Hf2).
  destruct (complete_files !! i) as [complete_name|]; [|done].
  cbn [fst snd files dirs trace].
  match goal with |- context [trigger_prediction L ?a ?b (Some ?c) ?d ?w] =>
    pose proof (trigger_prediction_row a b c d w) as H3;
    destruct (trigger_prediction L a b (Some c) d w) as [[e|r3] w3] end; [done|].
  cbn [fst snd files dirs trace] in *. destruct H3 as (Hp3 & Hm3 & Hf3).
  intros _. exists r1, r2, r3. split; [by repeat constructor|].
  rewrite Hf3, Hf2, Hf1.
  by rewrite !lookup_insert_ne by done.
Qed.

Lemma loop_files n : forall a w,
  fst (for_each (seq a n) body tt w) = Returned tt ->
  a + n <= length biweekly_files ->
  exists rb rm rc,
    let after := files (snd (for_each (seq a n) body tt w)) in
    let names := projects (take n (drop a biweekly_files)) in
    (map r_Project rb = names /\ map r_Project rm = names /\ map r_Project rc = names) /\
    Forall (fun r => r_Model r = "DLT") (rb ++ rm ++ rc) /\
    after !! csv_b = fold_left (fun o r => Some (written o r)) rb (files w !! csv_b) /\
    after !! csv_m = fold_left (fun o r => Some (written o r)) rm (files w !! csv_m) /\
    after !! csv_c = fold_left (fun o r => Some (written o r)) rc (files w !! csv_c) /\
    forall path, path <> csv_b -> path <> csv_m -> path <> csv_c ->
      after !! path = files w !! path.
Proof.
  destruct (output_paths_distinct L) as (_ & _ & _ & Hbm & Hbc & Hmc).
  induction n as [|n IH]; intros a w; cbn [seq for_each].
  - intros _ _. exists [], [], []. cbv zeta. rewrite take_0. by repeat split.
  - intros Hrun Hlen.
    destruct (lookup_lt_is_Some_2 biweekly_files a ltac:(lia)) as [name Hname].
    rewrite (drop_S _ _ _ Hname). cbn [take projects flat_map].
    fold (projects (take n (drop (S a) biweekly_files))).
    revert Hrun. unfold bind.
    destruct (String.eqb_spec name ".DS_Store") as [Hds|Hds].
    + subst name. rewrite (body_skips a w Hname). intros Hrun.
      destruct (IH (S a) w Hrun ltac:(lia)) as (rb & rm & rc & H).
      by exists rb, rm, rc.
    + pose proof (body_files a w name Hname Hds) as Hbody.
      destruct (body a tt w) as [[e|[]] w1]; [done|]. cbn [fst snd] in Hbody.
      destruct (Hbody eq_refl) as (r1 & r2 & r3 & Hrs & Hf1).
      apply Forall_cons in Hrs as [[Hp1 Hm1] Hrs].
      apply Forall_cons in Hrs as [[Hp2 Hm2] Hrs].
      apply Forall_cons in Hrs as [[Hp3 Hm3] _].
      intros Hrun.
      destruct (IH (S a) w1 Hrun ltac:(lia))
        as (rb & rm & rc & (Hnb & Hnm & Hnc) & Hdlt & Hb & Hm & Hc & Hother).
      cbv zeta in *. exists (r1 :: rb), (r2 :: rm), (r3 :: rc).
      split; [cbn [map app]; by rewrite Hp1, Hp2, Hp3, Hnb, Hnm, Hnc|].
      split.
      { apply Forall_app in Hdlt as [Hdb Hdlt]. apply Forall_app in Hdlt as [Hdm Hdc].
        cbn [app]. constructor; [done|]. apply Forall_app. split; [done|].
        constructor; [done|]. apply Forall_app. split; [done|]. by constructor. }
      cbn [fold_left]. rewrite Hb, Hm, Hc, Hf1.
      split; [by rewrite !lookup_insert_ne, lookup_insert_eq by done|].
      split; [by rewrite lookup_insert_ne, lookup_insert_eq by done|].
      split; [by rewrite lookup_insert_eq|].
      intros path H1 H2 H3. rewrite (Hother path H1 H2 H3), Hf1.
      by rewrite !lookup_insert_ne by done.
Qed.

Lemma body_without_monthly i w name rd :
  biweekly_files !! i = Some name -> name <> ".DS_Store" ->
  monthly_files !! i = None ->
  fst (trigger_prediction L (path_join (biweekly_data_path L) [name]) (drop_last4 name)
         (Some "biweekly") (Some 26%Z)
         (add_events w [Print (Msg_processing (drop_last4 name) "biweekly")]))
    = Returned rd ->
  fst (body i tt w) = Raised (IndexError "list index out of range") /\
  files (snd (body i tt w)) = <[csv_b := written (files w !! csv_b) rd]> (files w).
Proof.
  intros Hi Hds Hmonthly.
  unfold bayesian_orbit_body, bind, py_index, print, emit, ret, raise, add_events.
  rewrite Hi, Hmonthly. cbn [fst snd files dirs trace].
  destruct (String.eqb_spec name ".DS_Store") as [|_]; [done|].
  cbn [fst snd files dirs trace].
  match goal with |- context [trigger_prediction L ?a ?b (Some ?c) ?d ?w] =>
    pose proof (trigger_prediction_row a b c d w) as H1;
    destruct (trigger_prediction L a b (Some c) d w) as [[e|r1] w1] end; [done|].
  cbn [fst snd files dirs trace] in *. destruct H1 as (_ & _ & Hf1).
  by intros [= <-].
Qed.

End DriverFiles.

Section DriverMore.

Variable L : Library.

Local Arguments trigger_prediction : simpl never.
Local Arguments path_join : simpl never.
Local Arguments drop_last4 : simpl never.
Local Arguments String.eqb : simpl never.
Local Arguments output_csv : simpl never.

(** X12: the three directories are listed before the first project is
    processed: when one of the listings fails, in the order biweekly,
    monthly, complete, the run raises what the listing raised and the
    world is as it was: nothing printed, no model fitted, no file
    written. *)
Theorem bayesian_orbit_listing_fails w e :
  (listdir L (biweekly_data_path L) = Raised e -> bayesian_orbit L w = (Raised e, w)) /\
  (forall biweekly_files,
     listdir L (biweekly_data_path L) = Returned biweekly_files ->
     listdir L (monthly_data_path L) = Raised e -> bayesian_orbit L w = (Raised e, w)) /\
  (forall biweekly_files monthly_files,
     listdir L (biweekly_data_path L) = Returned biweekly_files ->
     listdir L (monthly_data_path L) = Returned monthly_files ->
     listdir L (complete_data_path L) = Raised e -> bayesian_orbit L w = (Raised e, w)).
Proof.
  rewrite bayesian_orbit_listings. split; [|split].
  - by intros ->.
  - by intros ? -> ->.
  - by intros ?? -> -> ->.
Qed.

(** X13: the projects are those of the biweekly listing alone.  When it holds
    nothing but [.DS_Store] entries (or nothing at all), the run returns
    and leaves the world as it found it, whatever the monthly and the
    complete listing hold. *)
Theorem bayesian_orbit_without_projects w biweekly_files monthly_files complete_files :
  listdir L (biweekly_data_path L) = Returned biweekly_files ->
  listdir L (monthly_data_path L) = Returned monthly_files ->
  listdir L (complete_data_path L) = Returned complete_files ->
  Forall (fun name => name = ".DS_Store") biweekly_files ->
  bayesian_orbit L w = (Returned tt, w).
Proof.
  intros Hb Hm Hc Hall. rewrite bayesian_orbit_listings, Hb, Hm, Hc.
  assert (forall n a, a + n <= length biweekly_files ->
            for_each (seq a n)
              (bayesian_orbit_body L (biweekly_data_path L) (monthly_data_path L)
                 (complete_data_path L) biweekly_files monthly_files complete_files) tt w
            = (Returned tt, w)) as Hloop.
  { induction n as [|n IH]; intros a Ha; cbn [seq for_each]; [done|].
    destruct (lookup_lt_is_Some_2 biweekly_files a ltac:(lia)) as [name Hname].
    pose proof (proj1 (Forall_lookup _ _) Hall a name Hname) as Hds. cbn in Hds. subst name.
    unfold bind. rewrite (body_skips L biweekly_files monthly_files complete_files a w Hname).
    apply IH. lia. }
  by apply Hloop.
Qed.

(** X14: a run of [bayesian_orbit] that returns has added to each of the three
    assessment files one row for every project of the biweekly listing, in
    listing order, after what the file held (and after a header when it
    was not there); the rows carry the project name, which is the file
    name without its last four characters, and the model name [DLT].  No
    other file has changed. *)
Theorem bayesian_orbit_assessment_files w biweekly_files :
  listdir L (biweekly_data_path L) = Returned biweekly_files ->
  fst (bayesian_orbit L w) = Returned tt ->
  let after := files (snd (bayesian_orbit L w)) in
  (forall p, p ∈ ["biweekly"; "monthly"; "complete"] ->
     exists rds,
       map r_Project rds = projects biweekly_files /\
       Forall (fun r => r_Model r = "DLT") rds /\
       after !! output_csv L p = recorded (files w !! output_csv L p) rds) /\
  (forall path, (forall p, p ∈ ["biweekly"; "monthly"; "complete"] -> path <> output_csv L p) ->
     after !! path = files w !! path).
Proof.
  intros Hb. rewrite bayesian_orbit_listings, Hb.
  destruct (listdir L (monthly_data_path L)) as [e|monthly_files]; [done|].
  destruct (listdir L (complete_data_path L)) as [e|complete_files]; [done|].
  intros Hrun.
  destruct (loop_files L biweekly_files monthly_files complete_files
              (length biweekly_files) 0 w Hrun ltac:(lia))
    as (rb & rm & rc & (Hnb & Hnm & Hnc) & Hdlt & Hfb & Hfm & Hfc & Hother).
  cbv zeta in *. rewrite drop_0, firstn_all in Hnb, Hnm, Hnc.
  apply Forall_app in Hdlt as [Hdb Hdlt]. apply Forall_app in Hdlt as [Hdm Hdc].
  rewrite fold_written_recorded in Hfb, Hfm, Hfc.
  split.
  - intros p Hp. repeat (apply elem_of_cons in Hp as [->|Hp]);
      [by exists rb | by exists rm | by exists rc | by apply elem_of_nil in Hp].
  - intros path Hpath. apply Hother; apply Hpath; repeat constructor.
Qed.

(** X15: the rows of one project are not written together.  Where the monthly
    listing has no entry at the index of a project, the run raises the
    [IndexError] only after the biweekly call for that project: when that
    call returns, its row is in the biweekly assessment file although the
    run fails, and no other file has changed since the projects before. *)
Theorem bayesian_orbit_fails_after_biweekly_row w biweekly_files monthly_files
    complete_files i name w1 rd :
  listdir L (biweekly_data_path L) = Returned biweekly_files ->
  listdir L (monthly_data_path L) = Returned monthly_files ->
  listdir L (complete_data_path L) = Returned complete_files ->
  biweekly_files !! i = Some name -> name <> ".DS_Store" ->
  monthly_files !! i = None ->
  for_each (seq 0 i)
    (bayesian_orbit_body L (biweekly_data_path L) (monthly_data_path L)
       (complete_data_path L) biweekly_files monthly_files complete_files) tt w
    = (Returned tt, w1) ->
  fst (trigger_prediction L (path_join (biweekly_data_path L) [name]) (drop_last4 name)
         (Some "biweekly") (Some 26%Z)
         (add_events w1 [Print (Msg_processing (drop_last4 name) "biweekly")]))
    = Returned rd ->
  let after := files (snd (bayesian_orbit L w)) in
  fst (bayesian_orbit L w) = Raised (IndexError "list index out of range") /\
  after !! output_csv L "biweekly"
    = Some (written (files w1 !! output_csv L "biweekly") rd) /\
  forall path, path <> output_csv L "biweekly" -> after !! path = files w1 !! path.
Proof.
  intros Hb Hm Hc Hname Hds Hmonthly Hbefore Hcall.
  rewrite bayesian_orbit_listings, Hb, Hm, Hc.
  pose proof (lookup_lt_Some _ _ _ Hname) as Hlt.
  destruct (body_without_monthly L biweekly_files monthly_files complete_files i w1 name rd
              Hname Hds Hmonthly Hcall) as [Hraised Hfiles].
  assert (for_each (seq 0 (length biweekly_files))
            (bayesian_orbit_body L (biweekly_data_path L) (monthly_data_path L)
               (complete_data_path L) biweekly_files monthly_files complete_files) tt w
          = (Raised (IndexError "list index out of range"),
             snd (bayesian_orbit_body L (biweekly_data_path L) (monthly_data_path L)
                    (complete_data_path L) biweekly_files monthly_files complete_files
                    i tt w1))) as ->.
  { replace (length biweekly_files) with (i + S (length biweekly_files - S i)) by lia.
    rewrite seq_app, for_each_app. unfold bind at 1. rewrite Hbefore.
    cbn [seq for_each Nat.add]. unfold bind at 1.
    destruct (bayesian_orbit_body L _ _ _ biweekly_files monthly_files complete_files i tt w1)
      as [[e|[]] w2]; cbn [fst snd] in *; [|done].
    by injection Hraised as ->. }
  cbv zeta. cbn [fst snd]. split; [done|]. rewrite Hfiles. split.
  - by rewrite lookup_insert_eq.
  - intros path Hne. by rewrite lookup_insert_ne.
Qed.

End DriverMore.

(** A biweekly directory with a [.DS_Store] only: nothing happens, although
    the other two directories hold two files each. *)
Lemma bayesian_orbit_without_projects_witness :
  bayesian_orbit Demo.lib_no_biweekly Demo.empty_world = (Returned tt, Demo.empty_world).
Proof.
  apply (bayesian_orbit_without_projects Demo.lib_no_biweekly Demo.empty_world
           [".DS_Store"] ["a.csv"; "b.csv"] ["a.csv"; "b.csv"]); [reflexivity..|].
  by repeat constructor.
Defined.

(** The demo run, two projects and a [.DS_Store]: the monthly assessment
    file is a header and the rows of [a] and [b]. *)
Lemma bayesian_orbit_assessment_files_witness :
  exists rds,
    map r_Project rds = ["a"; "b"] /\
    files (snd (bayesian_orbit Demo.lib Demo.empty_world))
      !! "/data/ORBIT_ML/DLT_Result/monthly/assessment.csv"
    = Some (Header result_columns :: map Data rds).
Proof.
  assert (fst (bayesian_orbit Demo.lib Demo.empty_world) = Returned tt) as Hrun.
  { vm_compute. reflexivity. }
  destruct (bayesian_orbit_assessment_files Demo.lib Demo.empty_world
              ["a.csv"; ".DS_Store"; "b.csv"] eq_refl Hrun) as [Hfiles _].
  destruct (Hfiles "monthly") as (rds & Hnames & _ & Hfile).
  { apply elem_of_cons. right. apply elem_of_cons. by left. }
  exists rds. split; [exact Hnames|].
  change (output_csv Demo.lib "monthly")
    with "/data/ORBIT_ML/DLT_Result/monthly/assessment.csv" in Hfile.
  rewrite Hfile. destruct rds as [|r rds]; [discriminate Hnames|]. reflexivity.
Defined.

(** The monthly listing has one file for two projects: the run raises the
    index error at the second project, whose biweekly row is by then in the
    biweekly assessment file, after the header and the row of the first. *)
Lemma bayesian_orbit_fails_after_biweekly_row_witness :
  fst (bayesian_orbit Demo.lib_short_monthly Demo.empty_world)
    = Raised (IndexError "list index out of range") /\
  exists lines,
    files (snd (bayesian_orbit Demo.lib_short_monthly Demo.empty_world))
      !! "/data/ORBIT_ML/DLT_Result/biweekly/assessment.csv" = Some lines /\
    length lines = 3.
Proof.
  pose (w1 := snd (for_each (seq 0 1)
                     (bayesian_orbit_body Demo.lib_short_monthly
                        (biweekly_data_path Demo.lib_short_monthly)
                        (monthly_data_path Demo.lib_short_monthly)
                        (complete_data_path Demo.lib_short_monthly)
                        ["a.csv"; "b.csv"] ["a.csv"] ["a.csv"; "b.csv"]) tt
                     Demo.empty_world)).
  assert (for_each (seq 0 1)
            (bayesian_orbit_body Demo.lib_short_monthly
               (biweekly_data_path Demo.lib_short_monthly)
               (monthly_data_path Demo.lib_short_monthly)
               (complete_data_path Demo.lib_short_monthly)
               ["a.csv"; "b.csv"] ["a.csv"] ["a.csv"; "b.csv"]) tt Demo.empty_world
          = (Returned tt, w1)) as Hbefore.
  { vm_compute. reflexivity. }
  eassert (fst (trigger_prediction Demo.lib_short_monthly
                  (path_join (biweekly_data_path Demo.lib_short_monthly) ["b.csv"])
                  (drop_last4 "b.csv") (Some "biweekly") (Some 26%Z)
                  (add_events w1 [Print (Msg_processing (drop_last4 "b.csv") "biweekly")]))
           = Returned _) as Hcall.
  { vm_compute. reflexivity. }
  assert ("b.csv" <> ".DS_Store") as Hds by discriminate.
  destruct (bayesian_orbit_fails_after_biweekly_row Demo.lib_short_monthly Demo.empty_world
              ["a.csv"; "b.csv"] ["a.csv"] ["a.csv"; "b.csv"] 1 "b.csv" w1 _
              eq_refl eq_refl eq_refl eq_refl Hds eq_refl Hbefore Hcall)
    as (Hraised & Hfile & _).
  split; [exact Hraised|]. eexists. split; [exact Hfile|]. vm_compute. reflexivity.
Defined.

(** ** Output paths by periodicity *)

Lemma append_inj_r (a b s : string) : (a ++ s)%string = (b ++ s)%string -> a = b.
Proof.
  revert b. induction a as [|c a IH]; intros [|d b] H.
  - done.
  - apply (f_equal String.length) in H. rewrite !length_append in H. simpl in H. lia.
  - apply (f_equal String.length) in H. rewrite !length_append in H. simpl in H. lia.
  - simpl in H. injection H as -> H. f_equal. by apply IH.
Qed.

Section PathsMore.

Variable L : Library.

(** X16: the assessment file of a call is determined by its periodicity alone,
    not by the project or the data file: for a periodicity that is a plain
    relative name it is [<root>/<periodicity>/assessment.csv] under the
    result directory, so calls of different periodicities never write to
    the same file.  A periodicity that starts with [/] makes
    [os.path.join] drop [DATA_PATH]: the directory is then the periodicity
    itself. *)
Theorem output_paths_by_periodicity :
  (forall p, starts_with_sep p = false -> p <> "" -> ends_with_sep p = false ->
     output_dir L p = (result_root L ++ p)%string /\
     output_csv L p = (result_root L ++ p ++ "/assessment.csv")%string) /\
  (forall p q,
     starts_with_sep p = false -> p <> "" -> ends_with_sep p = false ->
     starts_with_sep q = false -> q <> "" -> ends_with_sep q = false ->
     output_csv L p = output_csv L q -> p = q) /\
  (forall p, starts_with_sep p = true ->
     output_dir L p = p /\ output_csv L p = join2 p "assessment.csv").
Proof.
  split; [|split].
  - intros p H1 H2 H3. split; [by apply output_dir_relative|by apply output_csv_relative].
  - intros p q Hp1 Hp2 Hp3 Hq1 Hq2 Hq3.
    rewrite !output_csv_relative by done.
    intros H%append_inj_l. by apply append_inj_r in H.
  - intros p Hp.
    assert (output_dir L p = p) as Hdir.
    { unfold output_dir, path_join. cbn [fold_left]. unfold join2 at 1. by rewrite Hp. }
    split; [done|]. unfold output_csv. rewrite Hdir. reflexivity.
Qed.

End PathsMore.

(** ** What the search does not look at *)

Section SearchArguments.

Variable L : Library.
Variables (training_df : frame) (y_test : list float) (testing_df : frame).
Variable seasonality : option Z.

Lemma evaluate_columns x_train x_train' c :
  x_columns x_train = x_columns x_train' ->
  evaluate L training_df x_train y_test testing_df seasonality c =
  evaluate L training_df x_train' y_test testing_df seasonality c /\
  config_events L training_df x_train y_test testing_df seasonality c =
  config_events L training_df x_train' y_test testing_df seasonality c.
Proof.
  intros H. unfold evaluate, config_events, dlt_params_of. by rewrite H.
Qed.

Lemma search_columns x_train x_train' cs :
  x_columns x_train = x_columns x_train' ->
  (forall s, run_search L training_df x_train y_test testing_df seasonality cs s =
             run_search L training_df x_train' y_test testing_df seasonality cs s) /\
  search_events L training_df x_train y_test testing_df seasonality cs =
  search_events L training_df x_train' y_test testing_df seasonality cs.
Proof.
  intros H. induction cs as [|c cs [IH1 IH2]]; [done|].
  cbn [run_search search_events].
  destruct (evaluate_columns x_train x_train' c H) as [-> ->].
  split; [|by rewrite IH2].
  intros s. destruct (evaluate _ _ _ _ _ _ c); [done|]. apply IH1.
Qed.

(** X17: [y_train] is an argument the search never reads, and of [x_train] it
    reads the column names only: two calls that differ in the training
    responses and in the regressor values behave alike, in what they
    return or raise and in what they print and call. *)
Theorem hypertune_ignores_training_values y_train y_train' x_train x_train' w :
  x_columns x_train = x_columns x_train' ->
  hypertune_dlt_model L training_df y_train x_train y_test testing_df seasonality w =
  hypertune_dlt_model L training_df y_train' x_train' y_test testing_df seasonality w.
Proof.
  intros H. rewrite !hypertune_spec.
  destruct (search_columns x_train x_train' grid H) as [-> ->]. done.
Qed.

End SearchArguments.

(** The demo search with the training responses and the regressor values
    removed. *)
Lemma hypertune_ignores_training_values_witness :
  hypertune_dlt_model Demo.lib Demo.training (SQALE_values Demo.training)
    (drop_date_and_response Demo.training) (SQALE_values Demo.testing) Demo.testing
    (Some 26%Z) Demo.empty_world =
  hypertune_dlt_model Demo.lib Demo.training [] (XFrame ["NCLOC"] [])
    (SQALE_values Demo.testing) Demo.testing (Some 26%Z) Demo.empty_world.
Proof.
  apply (hypertune_ignores_training_values Demo.lib Demo.training
           (SQALE_values Demo.testing) Demo.testing (Some 26%Z)
           (SQALE_values Demo.training) [] (drop_date_and_response Demo.training)
           (XFrame ["NCLOC"] []) Demo.empty_world).
  reflexivity.
Defined.

(** ** [main] *)

Lemma run_stages_app before after w :
  run_stages (before ++ after) w = bind (run_stages before) (fun _ => run_stages after) w.
Proof.
  unfold run_stages. rewrite for_each_app. apply bind_cong. by intros [] w'.
Qed.

Lemma run_stages_raises before stage after e w w1 w2 :
  run_stages before w = (Returned tt, w1) -> stage w1 = (Raised e, w2) ->
  run_stages (before ++ stage :: after) w = (Raised e, w2).
Proof.
  intros Hbefore Hstage. rewrite run_stages_app. unfold bind at 1. rewrite Hbefore.
  unfold run_stages. cbn [for_each]. unfold bind. by rewrite Hstage.
Qed.

Lemma run_stages_returns stages w w' :
  run_stages stages w = (Returned tt, w') ->
  forall before stage after, stages = before ++ stage :: after ->
    exists w1 w2,
      run_stages before w = (Returned tt, w1) /\ stage w1 = (Returned tt, w2) /\
      run_stages after w2 = (Returned tt, w').
Proof.
  intros Hrun before stage after ->. revert Hrun.
  rewrite run_stages_app. unfold bind at 1.
  destruct (run_stages before w) as [[e|[]] w1] eqn:Hbefore; [done|].
  unfold run_stages at 1. cbn [for_each]. unfold bind at 1.
  destruct (stage w1) as [[e|[]] w2] eqn:Hstage; [done|].
  intros Hafter. exists w1, w2. split; [done|]. split; [done|]. exact Hafter.
Qed.

Section Main.

Variable L : Library.

(** X18: [main] is its enabled stages run one after the other, in the order
    [data_prepare], [bayesian_dglm(seasonality=True)], [bayesian_orbit],
    whatever the three flags are: a stage whose flag is off is left out,
    each stage starts in the world the stage before it left, and the first
    stage that raises ends the run with its exception and its world, so no
    later stage runs.  When [main] returns, every enabled stage has run and
    returned. *)
Theorem main_runs_enabled_stages (S : Stages) w :
  main L S w = run_stages (enabled_stages L S) w /\
  (enabled_stages L S =
     (if PREPROCESSING S then [data_prepare S] else []) ++
     (if DGLM S then [bayesian_dglm S true] else []) ++
     (if ORBIT S then [bayesian_orbit L] else [])) /\
  (forall before stage after e w1 w2,
     enabled_stages L S = before ++ stage :: after ->
     run_stages before w = (Returned tt, w1) -> stage w1 = (Raised e, w2) ->
     main L S w = (Raised e, w2)) /\
  (forall w', main L S w = (Returned tt, w') ->
     forall before stage after, enabled_stages L S = before ++ stage :: after ->
       exists w1 w2,
         run_stages before w = (Returned tt, w1) /\ stage w1 = (Returned tt, w2) /\
         run_stages after w2 = (Returned tt, w')).
Proof.
  assert (main L S w = run_stages (enabled_stages L S) w) as Hmain.
  { unfold main, enabled_stages, run_stages.
    destruct (PREPROCESSING S), (DGLM S), (ORBIT S); cbn [app for_each];
      unfold bind, ret;
      repeat match goal with
             | |- context [match ?m ?w0 with _ => _ end] =>
                 destruct (m w0) as [[?|[]] ?]
             end; reflexivity. }
  split; [done|]. split; [done|]. split.
  - intros before stage after e w1 w2 Hstages Hbefore Hstage.
    rewrite Hmain, Hstages. by apply (run_stages_raises before stage after e w w1 w2).
  - intros w' Hrun. rewrite Hmain in Hrun. by apply run_stages_returns.
Qed.

End Main.

(** With preprocessing off and DGLM and ORBIT on, a failing
    [bayesian_dglm] keeps [bayesian_orbit] from running. *)
Lemma main_runs_enabled_stages_witness :
  main Demo.lib
    {| PREPROCESSING := false; DGLM := true; ORBIT := true;
       data_prepare := ret tt;
       bayesian_dglm := fun _ => raise (LibraryError "dglm") |}
    Demo.empty_world
  = (Raised (LibraryError "dglm"), Demo.empty_world).
Proof.
  destruct (main_runs_enabled_stages Demo.lib
              {| PREPROCESSING := false; DGLM := true; ORBIT := true;
                 data_prepare := ret tt;
                 bayesian_dglm := fun _ => raise (LibraryError "dglm") |}
              Demo.empty_world) as (_ & _ & Hraises & _).
  apply (Hraises [] (raise (LibraryError "dglm")) [bayesian_orbit Demo.lib]
           (LibraryError "dglm") Demo.empty_world Demo.empty_world); reflexivity.
Defined.
